(** * Fund forecasting engine: validation, forecast gate and scenario batch runner

    A shallow embedding of the TypeScript sources
      - src/shared/enhanced-types.ts          (data model)
      - src/services/validation.service.ts    (ValidationService)
      - src/services/batch-runner.service.ts  (EnhancedBatchRunner)
      - src/services/analytics.service.ts     (AnalyticsService)
      - src/context/fund-data.context.tsx     (fundDataReducer, getInputs)
      - src/context/fund-calculation.context.tsx (FundCalculationProvider)
      - src/context/fund-scenario.context.tsx (scenarioReducer, runScenarios)
      - src/context/use-fund.hook.ts          (calculate)
      - the single-file prototype with its mock FundProvider

    Conventions of the embedding.
      - A JavaScript [number] held in a field is an exact rational ([Q]);
        numeric equality is [Qeq].  Where the source adds numbers up and
        compares the sum with a threshold (the allocation sum and the sum of
        a graduation row), the sum is computed as the source computes it, in
        IEEE-754 doubles ([float]): each number enters as the double nearest
        to it ([Js.toDouble]), the additions round, and the sum can be an
        infinity or NaN.  Elsewhere NaN, the infinities and binary rounding
        are outside the model; [Math.round] in particular rounds the exact
        product.  Where the analytics divide by a number that can be 0, the
        quotient is an [option Q] ([None]: not a finite number) or a
        [Quotient.t].
      - [undefined] in an optional field is [None].
      - A [throw] is the [Threw] outcome of a computation in the monad [M];
        an [await] is the call it waits for.
      - Reads of the clock and of [Math.random] come from streams that are
        indexed by the number of reads made so far.
      - [run] and [runWithWebWorkers] call each other, so both take fuel;
        [None] says that the fuel ran out before the call returned.
      - [applyScenarioOverrides] is embedded twice: on values, for what it
        computes, and on a store of objects with references, for what it
        copies and what it shares. *)

From Stdlib Require Import QArith Qabs Qround ZArith List String Ascii Bool Lia.
From Stdlib Require Import DecimalString Morphisms.
From Stdlib Require Import Lqa Permutation Sorted.
From Stdlib Require Import Floats.
Import ListNotations.

Local Open Scope string_scope.
Local Open Scope Q_scope.

(* A decimal literal of the source denotes the double nearest to it. *)
#[local] Set Warnings "-inexact-float".

(* ===================================================================== *)
(** ** JavaScript numbers                                                 *)
(* ===================================================================== *)

Module Js.

(** [a < b] *)
Definition ltb (a b : Q) : bool := negb (Qle_bool b a).
(** [a <= b] *)
Definition leb (a b : Q) : bool := Qle_bool a b.
(** [a > b] *)
Definition gtb (a b : Q) : bool := ltb b a.
(** Truthiness of a number: every number except 0 is truthy. *)
Definition truthy (a : Q) : bool := negb (Qeq_bool a 0).

(** [Math.abs], [Math.max], [Math.min], [Math.round] (ties go up). *)
Definition abs (a : Q) : Q := Qabs a.
Definition max (a b : Q) : Q := if ltb a b then b else a.
Definition min (a b : Q) : Q := if ltb b a then b else a.
Definition round (a : Q) : Q := inject_Z (Qfloor (a + (1 # 2))).

(** *** Doubles

    [toDouble q] is the double nearest to [q], ties to the even mantissa, and
    an infinity beyond the largest double: the value a numeric literal or a
    parsed number has.  A [q] that is a double is its own nearest double. *)
Definition ofInteger (z : Z) : spec_float :=
  match z with
  | Z0 => S754_zero false
  | Zpos p => S754_finite false p 0
  | Zneg p => S754_finite true p 0
  end.

Definition toDouble (q : Q) : float :=
  SF2Prim (SFdiv prec emax (ofInteger (Qnum q)) (ofInteger (Zpos (Qden q)))).

(** The exact value of a double; [None] for NaN and the two infinities. *)
Definition finite (x : float) : option Q :=
  match Prim2SF x with
  | S754_zero _ => Some 0
  | S754_finite s m e =>
      let magnitude := inject_Z (Zpos m) * 2 ^ e in
      Some (if s then - magnitude else magnitude)
  | S754_infinity _ => None
  | S754_nan => None
  end.

(** [a > b] on doubles; false when either is NaN. *)
Definition gtbD (a b : float) : bool := PrimFloat.ltb b a.

(** [xs.reduce((sum, x) => sum + x, 0)] *)
Definition sum (xs : list Q) : float :=
  fold_left (fun sum x => PrimFloat.add sum (toDouble x)) xs PrimFloat.zero.

Definition ofNat (n : nat) : Q := inject_Z (Z.of_nat n).

Definition digits (n : Z) : string :=
  NilEmpty.string_of_uint (N.to_uint (Z.to_N n)).

Fixpoint zeros (k : nat) : string :=
  match k with O => "" | S k' => String "0" (zeros k') end.

Definition padLeft (w : nat) (s : string) : string :=
  zeros (w - String.length s) ++ s.

(** [x.toFixed(d)]: the decimal with [d] fraction digits nearest to [x],
    the larger one on a tie of the absolute value; the sign is printed
    whenever [x < 0]. *)
Definition toFixed (d : nat) (x : Q) : string :=
  let n := Qfloor (Qabs x * inject_Z (10 ^ Z.of_nat d) + (1 # 2)) in
  let ds := padLeft (S d) (digits n) in
  let cut := (String.length ds - d)%nat in
  let body :=
    match d with
    | O => ds
    | _ => substring 0 cut ds ++ "." ++ substring cut d ds
    end in
  (if ltb x 0 then "-" else "") ++ body.

Definition ofIndex (i : nat) : string :=
  NilEmpty.string_of_uint (Nat.to_uint i).

(** [x.toFixed(d)] of a double: of its exact value when it is finite. *)
Definition toFixedD (d : nat) (x : float) : string :=
  match finite x with
  | Some q => toFixed d q
  | None =>
      if PrimFloat.is_nan x then "NaN"
      else if PrimFloat.ltb x PrimFloat.zero then "-Infinity"
      else "Infinity"
  end.

End Js.

(* ===================================================================== *)
(** ** Data model (src/shared/enhanced-types.ts)                          *)
(* ===================================================================== *)

Inductive FundStage :=
  PreSeed | Seed | SeriesA | SeriesB | SeriesC | SeriesDPlus.

Definition stageName (s : FundStage) : string :=
  match s with
  | PreSeed => "Pre-Seed" | Seed => "Seed" | SeriesA => "Series A"
  | SeriesB => "Series B" | SeriesC => "Series C" | SeriesDPlus => "Series D+"
  end.

Definition FundStage_eqb (a b : FundStage) : bool :=
  match a, b with
  | PreSeed, PreSeed | Seed, Seed | SeriesA, SeriesA
  | SeriesB, SeriesB | SeriesC, SeriesC | SeriesDPlus, SeriesDPlus => true
  | _, _ => false
  end.

Record TargetReturns := { tr_low : Q; tr_target : Q; tr_high : Q }.

Record StageStrategy := {
  stage : FundStage;
  allocationPct : Q;
  checkCount : Q;
  avgInitialCheck : Q;
  ownership : Q;
  reserveRatio : Q;
  targetReturns : TargetReturns
}.

(** A JavaScript object keyed by stage, as [Object.entries] lists it. *)
Definition StageObject (A : Type) := list (FundStage * A).

Definition GraduationMatrix := StageObject (StageObject Q).

Record ExitOutcomes := { fail : Q; low : Q; med : Q; high : Q; mega : Q }.

(** [{ [K in FundStage]: Record<ExitOutcome, number> }]: every stage has a row. *)
Definition ExitProbabilities := FundStage -> ExitOutcomes.
Definition ExitMultiples := ExitOutcomes.

Inductive FeeBasis := Committed | Invested | Custom.

Record FeeProfile := {
  managementFeeRate : Q;
  managementFeeBasis : FeeBasis;
  carryRate : Q;
  hurdleRate : Q;
  catchUp : bool;
  catchUpRate : Q;
  gpCommitment : Q;
  organizationalExpenses : Q;
  fundExpenses : Q;
  annualExpensesCap : option Q
}.

Inductive RecyclingSource := ManagementFees | Exits | Both.

Record RecyclingProfile := {
  rc_enabled : bool;
  rc_cap : Q;
  rc_periodYears : Q;
  rc_sources : list RecyclingSource
}.

Record KeyPersonProvisions := { kp_enabled : bool; kp_triggerPercent : Q }.

Inductive Currency := USD | EUR | GBP.
Inductive WaterfallType := American | European.

Record EnhancedFundInputs := {
  fundName : string;
  fundSize : Q;
  currency : Currency;
  vintage : Q;
  feeProfile : FeeProfile;
  stageStrategies : list StageStrategy;
  graduationMatrix : GraduationMatrix;
  exitProbabilityMatrix : ExitProbabilities;
  exitMultiples : FundStage -> ExitMultiples;
  investmentPeriodQuarters : Q;
  fundLifeQuarters : Q;
  extensionQuarters : option Q;
  recycling : option RecyclingProfile;
  waterfallType : WaterfallType;
  lpClawback : bool;
  keyPersonProvisions : option KeyPersonProvisions
}.

(** [interface ValidationError]: one structured finding. *)
Record ValidationError := {
  ve_field : string;
  ve_message : string;
  ve_code : string;
  ve_value : option Q;
  ve_suggestion : option string
}.

Inductive Impact := ImpactHigh | ImpactMedium | ImpactLow.

Record ValidationWarning := {
  vw_field : string;
  vw_message : string;
  vw_code : string;
  vw_impact : Impact
}.

(* ===================================================================== *)
(** ** ValidationService (src/services/validation.service.ts)             *)
(* ===================================================================== *)

Module ValidationService.

Definition err (f m c : string) (v : option Q) (s : option string)
  : ValidationError :=
  {| ve_field := f; ve_message := m; ve_code := c;
     ve_value := v; ve_suggestion := s |}.

(** [if (c) errors.push(e)] *)
Definition pushIf (c : bool) (e : ValidationError) : list ValidationError :=
  if c then [e] else [].

Definition validateStageStrategy (strategy : StageStrategy) (index : nat)
  : list ValidationError :=
  let prefix := "stageStrategies[" ++ Js.ofIndex index ++ "]" in
  pushIf (Js.ltb (allocationPct strategy) 0 || Js.gtb (allocationPct strategy) 1)
    (err (prefix ++ ".allocationPct")
         "Allocation percentage must be between 0% and 100%"
         "INVALID_ALLOCATION_PCT" (Some (allocationPct strategy)) None)
  ++ pushIf (Js.leb (checkCount strategy) 0 || Js.gtb (checkCount strategy) 100)
    (err (prefix ++ ".checkCount")
         "Check count must be between 1 and 100"
         "INVALID_CHECK_COUNT" (Some (checkCount strategy)) None)
  ++ pushIf (Js.leb (avgInitialCheck strategy) 0)
    (err (prefix ++ ".avgInitialCheck")
         "Average initial check must be positive"
         "INVALID_CHECK_SIZE" (Some (avgInitialCheck strategy)) None)
  ++ pushIf (Js.ltb (ownership strategy) 0 || Js.gtb (ownership strategy) 0.5)
    (err (prefix ++ ".ownership")
         "Ownership target must be between 0% and 50%"
         "INVALID_OWNERSHIP" (Some (ownership strategy)) None)
  ++ pushIf (Js.ltb (reserveRatio strategy) 0 || Js.gtb (reserveRatio strategy) 3)
    (err (prefix ++ ".reserveRatio")
         "Reserve ratio must be between 0 and 3"
         "INVALID_RESERVE_RATIO" (Some (reserveRatio strategy)) None).

Definition validateFeeProfile (fp : FeeProfile) : list ValidationError :=
  pushIf (Js.ltb (managementFeeRate fp) 0 || Js.gtb (managementFeeRate fp) 0.05)
    (err "feeProfile.managementFeeRate"
         "Management fee should be between 0% and 5%"
         "INVALID_MGMT_FEE" (Some (managementFeeRate fp))
         (Some "Typical management fees are 2-2.5%"))
  ++ pushIf (Js.ltb (carryRate fp) 0 || Js.gtb (carryRate fp) 0.30)
    (err "feeProfile.carryRate"
         "Carry should be between 0% and 30%"
         "INVALID_CARRY" (Some (carryRate fp))
         (Some "Standard carry is 20%"))
  ++ pushIf (Js.truthy (hurdleRate fp)
             && (Js.ltb (hurdleRate fp) 0 || Js.gtb (hurdleRate fp) 0.15))
    (err "feeProfile.hurdleRate"
         "Hurdle rate should be between 0% and 15%"
         "INVALID_HURDLE" (Some (hurdleRate fp))
         (Some "Typical hurdle rate is 8%"))
  ++ pushIf (Js.ltb (gpCommitment fp) 0 || Js.gtb (gpCommitment fp) 0.10)
    (err "feeProfile.gpCommitment"
         "GP commitment should be between 0% and 10%"
         "INVALID_GP_COMMIT" (Some (gpCommitment fp))
         (Some "Standard GP commitment is 1-2%")).

(** The body of the [forEach] over [Object.entries(matrix)]. *)
Definition validateGraduationRow (row : FundStage * StageObject Q)
  : list ValidationError :=
  let fromStage := stageName (fst row) in
  let total := Js.sum (map snd (snd row)) in
  pushIf (Js.gtbD total 1.0)
    (err ("graduationMatrix." ++ fromStage)
         ("Graduation rates from " ++ fromStage ++ " exceed 100% ("
            ++ Js.toFixedD 1 (total * 100) ++ "%)")
         "EXCESSIVE_GRADUATION" (Js.finite total) None).

Definition validateGraduationMatrix (matrix : GraduationMatrix)
  : list ValidationError :=
  flat_map validateGraduationRow matrix.

(** [strategies.forEach((strategy, index) => errors.push(...))] from [index]. *)
Fixpoint validateStrategiesFrom (index : nat) (l : list StageStrategy)
  : list ValidationError :=
  match l with
  | [] => []
  | s :: rest =>
      validateStageStrategy s index ++ validateStrategiesFrom (S index) rest
  end.

(** [inputs.stageStrategies.reduce((sum, s) => sum + s.allocationPct, 0)] *)
Definition totalAllocation (l : list StageStrategy) : float :=
  fold_left (fun sum s => PrimFloat.add sum (Js.toDouble (allocationPct s)))
    l PrimFloat.zero.

Definition validateFundInputs (inputs : EnhancedFundInputs)
  : list ValidationError :=
  (* Fund size validation *)
  (if negb (Js.truthy (fundSize inputs)) || Js.leb (fundSize inputs) 0 then
     [err "fundSize" "Fund size must be positive" "INVALID_FUND_SIZE"
          (Some (fundSize inputs)) None]
   else if Js.ltb (fundSize inputs) 10_000_000 then
     [err "fundSize"
          "Fund size should be at least $10M for institutional viability"
          "FUND_SIZE_TOO_SMALL" (Some (fundSize inputs))
          (Some "Consider increasing fund size to at least $10M")]
   else if Js.gtb (fundSize inputs) 10_000_000_000 then
     [err "fundSize" "Fund size exceeds $10B maximum" "FUND_SIZE_TOO_LARGE"
          (Some (fundSize inputs)) None]
   else [])
  (* Stage allocation validation *)
  ++ (match stageStrategies inputs with
      | [] =>
          [err "stageStrategies" "At least one stage strategy is required"
               "MISSING_STAGE_STRATEGIES" None None]
      | _ =>
          let total := totalAllocation (stageStrategies inputs) in
          pushIf (Js.gtbD (PrimFloat.abs (total - 1.0)) 0.001)
            (err "stageStrategies"
                 ("Stage allocations must sum to 100% (currently "
                    ++ Js.toFixedD 1 (total * 100) ++ "%)")
                 "INVALID_ALLOCATION_SUM" (Js.finite total)
                 (Some "Adjust allocations to sum to exactly 100%"))
          ++ validateStrategiesFrom 0 (stageStrategies inputs)
      end)
  (* Fee validation *)
  ++ validateFeeProfile (feeProfile inputs)
  (* Graduation matrix validation *)
  ++ validateGraduationMatrix (graduationMatrix inputs)
  (* Timeline validation *)
  ++ pushIf (Js.gtb (investmentPeriodQuarters inputs) (fundLifeQuarters inputs))
       (err "investmentPeriodQuarters"
            "Investment period cannot exceed fund life"
            "INVALID_TIMELINE" (Some (investmentPeriodQuarters inputs)) None)
  ++ pushIf (Js.gtb (fundLifeQuarters inputs) 60)
       (err "fundLifeQuarters"
            "Fund life exceeds typical 15-year maximum"
            "EXCESSIVE_FUND_LIFE" (Some (fundLifeQuarters inputs))
            (Some "Consider reducing fund life to 10-12 years")).

Definition warn (f m c : string) (i : Impact) : ValidationWarning :=
  {| vw_field := f; vw_message := m; vw_code := c; vw_impact := i |}.

Section WithNumberToString.

(** The text a template literal puts for a number, [String(x)]. *)
Variable numberToString : Q -> string.

Fixpoint aggressiveReturnsFrom (index : nat) (l : list StageStrategy)
  : list ValidationWarning :=
  match l with
  | [] => []
  | s :: rest =>
      (if Js.gtb (tr_high (targetReturns s)) 50 then
         [warn ("stageStrategies[" ++ Js.ofIndex index ++ "].targetReturns.high")
               ("Very high target return (" ++ numberToString (tr_high (targetReturns s))
                  ++ "x) for " ++ stageName (stage s))
               "AGGRESSIVE_RETURNS" ImpactMedium]
       else [])
      ++ aggressiveReturnsFrom (S index) rest
  end.

(** [Math.max(...xs)]; [None] stands for the [-Infinity] of an empty list. *)
Definition maxOf (xs : list Q) : option Q :=
  match xs with
  | [] => None
  | x :: rest => Some (fold_left Js.max rest x)
  end.

Definition getWarnings (inputs : EnhancedFundInputs) : list ValidationWarning :=
  aggressiveReturnsFrom 0 (stageStrategies inputs)
  ++ (if (List.length (stageStrategies inputs) <? 2)%nat then
        [warn "stageStrategies"
              "Limited stage diversification may increase risk"
              "LOW_DIVERSIFICATION" ImpactHigh]
      else [])
  ++ (match maxOf (map allocationPct (stageStrategies inputs)) with
      | Some maxAllocation =>
          if Js.gtb maxAllocation 0.6 then
            [warn "stageStrategies"
                  ("High concentration in single stage ("
                     ++ Js.toFixed 0 (maxAllocation * 100) ++ "%)")
                  "HIGH_CONCENTRATION" ImpactMedium]
          else []
      | None => []
      end).

End WithNumberToString.

End ValidationService.

(* ===================================================================== *)
(** ** Forecast results and scenarios (src/shared/enhanced-types.ts)      *)
(* ===================================================================== *)

(** A [Date] value: the instant, and the calendar year that
    [getFullYear()] reads from it. *)
Record Date := { dateMs : Q; getFullYear : Q }.

Record Investment := {
  inv_id : string; inv_stage : FundStage; inv_amount : Q; inv_quarter : Q;
  inv_date : Date; inv_ownership : Q; inv_valuation : Q;
  inv_isFollowOn : bool; inv_round : string
}.

Inductive CompanyStatus := Active | Exited | WrittenOff.

Record PortfolioCompany := {
  pc_id : string; pc_name : string;
  pc_entryStage : FundStage; pc_currentStage : FundStage;
  pc_investments : list Investment; pc_totalInvested : Q;
  pc_currentValuation : option Q; pc_exitValue : option Q;
  pc_exitQuarter : option Q; pc_exitDate : option Date;
  pc_status : CompanyStatus;
  pc_sector : option string; pc_geography : option string;
  pc_foundedYear : option Q;
  pc_lastRoundDate : option Date; pc_lastRoundValuation : option Q
}.

Record CashFlowPoint := {
  cf_quarter : Q; cf_year : Q; cf_yearQuarter : string; cf_date : Date;
  cf_contributions : Q; cf_distributions : Q; cf_managementFees : Q;
  cf_carriedInterest : Q; cf_netCashFlow : Q;
  cf_cumulativeContributions : Q; cf_cumulativeDistributions : Q;
  cf_cumulativeManagementFees : Q; cf_cumulativeCarriedInterest : Q;
  cf_nav : Q;
  cf_dpi : Q; cf_rvpi : Q; cf_tvpi : Q; cf_moic : Q; cf_netMoic : Q;
  cf_grossIrr : Q; cf_netIrr : Q;
  cf_activeCompanies : Q; cf_exitedCompanies : Q; cf_writtenOffCompanies : Q
}.

Record CompanyResult := {
  cr_companyId : string; cr_companyName : string;
  cr_entryStage : FundStage; cr_exitStage : option FundStage;
  cr_invested : Q; cr_exitProceeds : Q; cr_unrealizedValue : Q;
  cr_totalValue : Q; cr_realizedMultiple : Q; cr_totalMultiple : Q;
  cr_irr : option Q; cr_lpProceeds : Q; cr_gpCarry : Q;
  cr_holdingPeriod : Q; cr_exitQuarter : option Q
}.

Record WaterfallCalculation := {
  wc_dealId : string; wc_invested : Q; wc_proceeds : Q;
  wc_lpCapitalReturn : Q; wc_lpPreferredReturn : Q; wc_lpCatchUp : Q;
  wc_lpProfitShare : Q; wc_lpTotal : Q;
  wc_gpCatchUp : Q; wc_gpCarry : Q; wc_gpTotal : Q;
  wc_hurdleAchieved : bool; wc_effectiveCarryRate : Q
}.

Record WaterfallSummary := {
  ws_type : WaterfallType;
  ws_totalInvested : Q; ws_totalProceeds : Q; ws_totalProfit : Q;
  ws_lpCapitalReturned : Q; ws_lpPreferredReturn : Q;
  ws_lpProfitDistribution : Q; ws_totalLpDistribution : Q;
  ws_gpManagementFees : Q; ws_gpCarriedInterest : Q; ws_gpCatchUp : Q;
  ws_totalGpCompensation : Q;
  ws_lpNetMultiple : Q; ws_lpNetIrr : Q; ws_effectiveCarryRate : Q;
  ws_dealWaterfalls : option (list WaterfallCalculation)
}.

Record ByStatus := { bs_active : Q; bs_exited : Q; bs_writtenOff : Q }.

Record PortfolioComposition := {
  byStage : StageObject Q;
  byStatus : ByStatus;
  bySector : option (list (string * Q));
  byGeography : option (list (string * Q))
}.

Record RiskMetrics := {
  jCurveDepth : Q; timeToBreakeven : Q; lossRatio : Q;
  concentrationRisk : Q; diversificationScore : Q
}.

Inductive WarningType := WData | WCalculation | WAssumption.
Inductive Severity := SevError | SevWarning | SevInfo.

Record ForecastWarning := {
  fw_type : WarningType; fw_severity : Severity; fw_message : string;
  fw_field : option string; fw_suggestion : option string
}.

Inductive Methodology := Deterministic | MonteCarlo.

Record MarketAssumptions := {
  riskFreeRate : Q; marketPremium : Q; betaByStage : StageObject Q
}.

Record OperationalAssumptions := {
  defaultFollowOnReserveRatio : Q;
  defaultOwnershipTarget : Q;
  defaultBoardSeatThreshold : Q
}.

Record CalculationParameters := {
  irMaxIterations : Q; irTolerance : Q; navDiscountRate : Q
}.

Record ModelAssumptions := {
  ma_version : string;
  methodology : Methodology;
  randomSeed : option Q;
  marketAssumptions : MarketAssumptions;
  operationalAssumptions : OperationalAssumptions;
  calculationParameters : CalculationParameters
}.

Record ForecastResult := {
  calculationId : string;
  calculationDate : Date;
  fr_fundName : string;
  fr_vintage : Q;
  timeline : list CashFlowPoint;
  portfolio : list PortfolioCompany;
  companyResults : list CompanyResult;
  waterfallSummary : WaterfallSummary;
  totalInvested : Q; totalRealized : Q; totalUnrealized : Q; totalValue : Q;
  totalManagementFees : Q; totalCarriedInterest : Q;
  totalOrganizationalExpenses : Q; totalFundExpenses : Q;
  grossMoic : Q; netMoic : Q; grossIrr : Q; netIrr : Q;
  tvpi : Q; dpi : Q; rvpi : Q;
  portfolioComposition : PortfolioComposition;
  riskMetrics : RiskMetrics;
  warnings : list ForecastWarning;
  assumptions : ModelAssumptions
}.

(** [Partial<FeeProfile>]: [Some v] when the key is present. *)
Record PartialFeeProfile := {
  p_managementFeeRate : option Q;
  p_managementFeeBasis : option FeeBasis;
  p_carryRate : option Q;
  p_hurdleRate : option Q;
  p_catchUp : option bool;
  p_catchUpRate : option Q;
  p_gpCommitment : option Q;
  p_organizationalExpenses : option Q;
  p_fundExpenses : option Q;
  p_annualExpensesCap : option (option Q)
}.

Record PartialExitMultiples := {
  pm_fail : option Q; pm_low : option Q; pm_med : option Q;
  pm_high : option Q; pm_mega : option Q
}.

Record TimingAdjustments := {
  deploymentAcceleration : option Q;
  exitAcceleration : option Q
}.

Record ParameterOverrides := {
  o_fundSize : option Q;
  o_stageAllocations : option (FundStage -> option Q);
  o_exitProbabilities : option (FundStage -> option ExitOutcomes);
  o_exitMultiples : option (FundStage -> option PartialExitMultiples);
  o_feeAdjustments : option PartialFeeProfile;
  o_timingAdjustments : option TimingAdjustments
}.

Inductive ScenarioCategory := CatBase | CatUpside | CatDownside | CatStress | CatCustom.

Record ScenarioDefinition := {
  sd_id : string;
  sd_name : string;
  sd_description : string;
  sd_category : ScenarioCategory;
  parameterOverrides : ParameterOverrides;
  sd_weight : option Q;
  isBaseline : option bool
}.

Record Variance := { v_netMoic : Q; v_netIrr : Q; v_totalValue : Q }.

Record ScenarioResult := {
  scenarioId : string;
  definition : ScenarioDefinition;
  result : ForecastResult;
  varianceFromBaseline : option Variance;
  executionTime : Q;
  sr_warnings : list string
}.

(** Values a [throw] can carry: an [Error] object (the classes of
    enhanced-types.ts extend [Error]; [class ValidationError] also carries the
    findings), or a value that is not an [Error]. *)
Inductive Thrown :=
| ErrorObject (name message : string)
| ValidationFailure (message : string) (errors : list ValidationError)
| NotAnError (shown : string).

(** [error instanceof Error ? error.message : fallback] *)
Definition messageOr (fallback : string) (error : Thrown) : string :=
  match error with
  | ErrorObject _ m => m
  | ValidationFailure m _ => m
  | NotAnError _ => fallback
  end.

(* ===================================================================== *)
(** ** Fund data defaults (src/context/fund-data.context.tsx)             *)
(* ===================================================================== *)

Module FundData.

Record FundDataState := {
  fd_fundName : string;
  fd_fundSize : Q;
  fd_vintage : Q;
  fd_currency : Currency;
  fd_stageStrategies : list StageStrategy;
  fd_graduationMatrix : GraduationMatrix;
  fd_exitProbabilityMatrix : ExitProbabilities;
  fd_feeProfile : FeeProfile;
  fd_investmentPeriodQuarters : Q;
  fd_fundLifeQuarters : Q;
  fd_waterfallType : WaterfallType;
  fd_recyclingEnabled : bool;
  fd_recyclingCap : Q;
  fd_isDirty : bool;
  fd_lastSavedAt : option Date
}.

Definition strategy (s : FundStage) (alloc count check own reserve lo tg hi : Q)
  : StageStrategy :=
  {| stage := s; allocationPct := alloc; checkCount := count;
     avgInitialCheck := check; ownership := own; reserveRatio := reserve;
     targetReturns := {| tr_low := lo; tr_target := tg; tr_high := hi |} |}.

Definition outcomes (f l m h g : Q) : ExitOutcomes :=
  {| fail := f; low := l; med := m; high := h; mega := g |}.

(** [getDefaultState()]; [now] is the value of [new Date()]. *)
Definition getDefaultState (now : Date) : FundDataState :=
  {| fd_fundName := "New Fund";
     fd_fundSize := 100_000_000;
     fd_vintage := getFullYear now;
     fd_currency := USD;
     fd_stageStrategies :=
       [ strategy PreSeed 0.15 20 500_000 0.07 1.0 3 10 50;
         strategy Seed 0.35 25 1_500_000 0.10 0.8 2.5 8 30;
         strategy SeriesA 0.50 15 3_000_000 0.08 0.5 2 5 15 ];
     fd_graduationMatrix :=
       [ (PreSeed, [(Seed, 0.65)]);
         (Seed, [(SeriesA, 0.60)]);
         (SeriesA, [(SeriesB, 0.55)]);
         (SeriesB, [(SeriesC, 0.50)]);
         (SeriesC, [(SeriesDPlus, 0.45)]) ];
     fd_exitProbabilityMatrix := fun s =>
       match s with
       | PreSeed => outcomes 0.90 0.06 0.02 0.01 0.01
       | Seed => outcomes 0.80 0.10 0.05 0.03 0.02
       | SeriesA => outcomes 0.65 0.15 0.10 0.07 0.03
       | SeriesB => outcomes 0.50 0.20 0.15 0.10 0.05
       | SeriesC => outcomes 0.35 0.25 0.20 0.15 0.05
       | SeriesDPlus => outcomes 0.10 0.20 0.30 0.25 0.15
       end;
     fd_feeProfile :=
       {| managementFeeRate := 0.02;
          managementFeeBasis := Committed;
          carryRate := 0.20;
          hurdleRate := 0.08;
          catchUp := true;
          catchUpRate := 1.0;
          gpCommitment := 0.02;
          organizationalExpenses := 500_000;
          fundExpenses := 200_000;
          annualExpensesCap := Some 100_000 |};
     fd_investmentPeriodQuarters := 20;
     fd_fundLifeQuarters := 40;
     fd_waterfallType := American;
     fd_recyclingEnabled := false;
     fd_recyclingCap := 0.15;
     fd_isDirty := false;
     fd_lastSavedAt := None |}.

(** [getInputs()] of the provider, as a function of its state. *)
Definition getInputs (state : FundDataState) : EnhancedFundInputs :=
  {| fundName := fd_fundName state;
     fundSize := fd_fundSize state;
     currency := fd_currency state;
     vintage := fd_vintage state;
     feeProfile := fd_feeProfile state;
     stageStrategies := fd_stageStrategies state;
     graduationMatrix := fd_graduationMatrix state;
     exitProbabilityMatrix := fd_exitProbabilityMatrix state;
     exitMultiples := fun s =>
       match s with
       | PreSeed => outcomes 0 3 10 50 100
       | Seed => outcomes 0 2.5 8 30 75
       | SeriesA => outcomes 0 2 5 15 50
       | SeriesB => outcomes 0 1.5 3 10 30
       | SeriesC => outcomes 0 1.25 2.5 7 20
       | SeriesDPlus => outcomes 0 1 2 5 15
       end;
     investmentPeriodQuarters := fd_investmentPeriodQuarters state;
     fundLifeQuarters := fd_fundLifeQuarters state;
     extensionQuarters := None;
     recycling :=
       if fd_recyclingEnabled state then
         Some {| rc_enabled := true; rc_cap := fd_recyclingCap state;
                 rc_periodYears := 5; rc_sources := [Exits; ManagementFees] |}
       else None;
     waterfallType := fd_waterfallType state;
     lpClawback := true;
     keyPersonProvisions := None |}.

End FundData.

(* ===================================================================== *)
(** ** Effects: exceptions, clock reads and calls of the forecast model   *)
(* ===================================================================== *)

Module Eff.

Inductive Outcome (A : Type) :=
| Returned (a : A)
| Threw (e : Thrown).
Arguments Returned {A} a.
Arguments Threw {A} e.

(** What a run can change: the number of clock reads made so far, the
    arguments of every call of [buildEnhancedFundForecast] (oldest first),
    and the state [C] of the caller (React state, or whatever a callback
    writes to). *)
Record World (C : Type) := {
  clockReads : nat;
  simCalls : list EnhancedFundInputs;
  client : C
}.
Arguments clockReads {C} w.
Arguments simCalls {C} w.
Arguments client {C} w.

(** What a run reads from its surroundings.  [buildEnhancedFundForecast] is
    imported from ../shared/enhanced-fund-model, which is not among the
    sources: it is a parameter here, a function that takes a configuration
    to a forecast or to what it throws.  [performanceNow] and [dateNow] give
    the clock reading at the n-th read. *)
Record Env := {
  buildEnhancedFundForecast : EnhancedFundInputs -> Outcome ForecastResult;
  performanceNow : nat -> Q;
  dateNow : nat -> Date;
  hardwareConcurrency : option Q
}.

Definition M (C A : Type) := World C -> Outcome A * World C.

Definition ret {C A} (a : A) : M C A := fun w => (Returned a, w).

Definition bind {C A B} (c : M C A) (k : A -> M C B) : M C B :=
  fun w =>
    match c w with
    | (Returned a, w') => k a w'
    | (Threw e, w') => (Threw e, w')
    end.

Definition throw {C A} (e : Thrown) : M C A := fun w => (Threw e, w).

(** [try { body } catch (error) { handler(error) }] *)
Definition tryCatch {C A} (body : M C A) (handler : Thrown -> M C A) : M C A :=
  fun w =>
    match body w with
    | (Returned a, w') => (Returned a, w')
    | (Threw e, w') => handler e w'
    end.

Definition tick {C} (w : World C) : World C :=
  {| clockReads := S (clockReads w); simCalls := simCalls w; client := client w |}.

(** [performance.now()] *)
Definition perfNow {C} (env : Env) : M C Q :=
  fun w => (Returned (performanceNow env (clockReads w)), tick w).

(** [new Date()] *)
Definition newDate {C} (env : Env) : M C Date :=
  fun w => (Returned (dateNow env (clockReads w)), tick w).

(** [await buildEnhancedFundForecast(inputs)] *)
Definition awaitBuild {C} (env : Env) (inputs : EnhancedFundInputs)
  : M C ForecastResult :=
  fun w =>
    (buildEnhancedFundForecast env inputs,
     {| clockReads := clockReads w;
        simCalls := simCalls w ++ [inputs];
        client := client w |}).

(** [setState(prev => f(prev))] *)
Definition setState {C} (f : C -> C) : M C unit :=
  fun w =>
    (Returned tt,
     {| clockReads := clockReads w; simCalls := simCalls w;
        client := f (client w) |}).

End Eff.

Import Eff.

Declare Scope eff_scope.
Delimit Scope eff_scope with eff.
Notation "x <- c ;; k" := (Eff.bind c (fun x => k))
  (at level 61, c at next level, right associativity) : eff_scope.
Notation "c ;;; k" := (Eff.bind c (fun _ => k))
  (at level 61, right associativity) : eff_scope.

(* ===================================================================== *)
(** ** FundCalculationProvider (src/context/fund-calculation.context.tsx) *)
(* ===================================================================== *)

Module FundCalculation.

Section WithAnalytics.

(** The analytics record is stored but never inspected by this provider. *)
Variable EnhancedAnalytics : Type.

Record CalculationState := {
  forecastResult : option ForecastResult;
  enhancedAnalytics : option EnhancedAnalytics;
  isCalculating : bool;
  lastCalculatedAt : option Date;
  calculationProgress : Q;
  validationErrors : list ValidationError
}.

Definition initialState : CalculationState :=
  {| forecastResult := None; enhancedAnalytics := None;
     isCalculating := false; lastCalculatedAt := None;
     calculationProgress := 0; validationErrors := [] |}.

(** [calculateForecast(inputs)].  The [setInterval] that bumps
    [calculationProgress] while the model runs is a real-time effect and
    is left out; its last write is overwritten on success. *)
Definition calculateForecast (env : Env) (inputs : EnhancedFundInputs)
  : M CalculationState ForecastResult :=
  (* Validate first *)
  let errors := ValidationService.validateFundInputs inputs in
  if (0 <? List.length errors)%nat then
    (setState (fun prev =>
       {| forecastResult := forecastResult prev;
          enhancedAnalytics := enhancedAnalytics prev;
          isCalculating := isCalculating prev;
          lastCalculatedAt := lastCalculatedAt prev;
          calculationProgress := calculationProgress prev;
          validationErrors := errors |}) ;;;
     throw (ValidationFailure "Validation failed" errors))%eff
  else
    (setState (fun prev =>
       {| forecastResult := forecastResult prev;
          enhancedAnalytics := enhancedAnalytics prev;
          isCalculating := true;
          lastCalculatedAt := lastCalculatedAt prev;
          calculationProgress := 0;
          validationErrors := [] |}) ;;;
     tryCatch
       (result <- awaitBuild env inputs ;;
        now <- newDate env ;;
        setState (fun prev =>
          {| forecastResult := Some result;
             enhancedAnalytics := enhancedAnalytics prev;
             isCalculating := false;
             lastCalculatedAt := Some now;
             calculationProgress := 100;
             validationErrors := validationErrors prev |}) ;;;
        ret result)
       (fun error =>
          setState (fun prev =>
            {| forecastResult := forecastResult prev;
               enhancedAnalytics := enhancedAnalytics prev;
               isCalculating := false;
               lastCalculatedAt := lastCalculatedAt prev;
               calculationProgress := 0;
               validationErrors := validationErrors prev |}) ;;;
          throw error))%eff.

(** [validateInputs(inputs)] *)
Definition validateInputs (inputs : EnhancedFundInputs)
  : M CalculationState (list ValidationError) :=
  let errors := ValidationService.validateFundInputs inputs in
  (setState (fun prev =>
     {| forecastResult := forecastResult prev;
        enhancedAnalytics := enhancedAnalytics prev;
        isCalculating := isCalculating prev;
        lastCalculatedAt := lastCalculatedAt prev;
        calculationProgress := calculationProgress prev;
        validationErrors := errors |}) ;;;
   ret errors)%eff.

End WithAnalytics.

Arguments forecastResult {EnhancedAnalytics} c.
Arguments enhancedAnalytics {EnhancedAnalytics} c.
Arguments isCalculating {EnhancedAnalytics} c.
Arguments lastCalculatedAt {EnhancedAnalytics} c.
Arguments calculationProgress {EnhancedAnalytics} c.
Arguments validationErrors {EnhancedAnalytics} c.
Arguments calculateForecast {EnhancedAnalytics} env inputs.
Arguments validateInputs {EnhancedAnalytics} inputs.

End FundCalculation.

(* ===================================================================== *)
(** ** EnhancedBatchRunner (src/services/batch-runner.service.ts)         *)
(* ===================================================================== *)

Module EnhancedBatchRunner.

Record t := {
  scenarios : list ScenarioDefinition;
  baseInputs : EnhancedFundInputs;
  useWebWorkers : bool;
  maxWorkers : Q
}.

(** [new EnhancedBatchRunner(baseInputs)] *)
Definition create (env : Env) (base : EnhancedFundInputs) : t :=
  {| scenarios := [];
     baseInputs := base;
     useWebWorkers := true;
     maxWorkers :=
       match hardwareConcurrency env with
       | Some n => if Js.truthy n then n else 4
       | None => 4
       end |}.

Definition addScenario (r : t) (scenario : ScenarioDefinition) : t :=
  {| scenarios := scenarios r ++ [scenario];
     baseInputs := baseInputs r;
     useWebWorkers := useWebWorkers r;
     maxWorkers := maxWorkers r |}.

(** The runner after [scs.forEach(s => runner.addScenario(s))]. *)
Definition load (env : Env) (base : EnhancedFundInputs)
    (scs : list ScenarioDefinition) : t :=
  fold_left addScenario scs (create env base).

Definition setFundSize (v : Q) (i : EnhancedFundInputs) : EnhancedFundInputs :=
  {| fundName := fundName i; fundSize := v; currency := currency i;
     vintage := vintage i; feeProfile := feeProfile i;
     stageStrategies := stageStrategies i;
     graduationMatrix := graduationMatrix i;
     exitProbabilityMatrix := exitProbabilityMatrix i;
     exitMultiples := exitMultiples i;
     investmentPeriodQuarters := investmentPeriodQuarters i;
     fundLifeQuarters := fundLifeQuarters i;
     extensionQuarters := extensionQuarters i; recycling := recycling i;
     waterfallType := waterfallType i; lpClawback := lpClawback i;
     keyPersonProvisions := keyPersonProvisions i |}.

Definition setStageStrategies (v : list StageStrategy) (i : EnhancedFundInputs)
  : EnhancedFundInputs :=
  {| fundName := fundName i; fundSize := fundSize i; currency := currency i;
     vintage := vintage i; feeProfile := feeProfile i;
     stageStrategies := v;
     graduationMatrix := graduationMatrix i;
     exitProbabilityMatrix := exitProbabilityMatrix i;
     exitMultiples := exitMultiples i;
     investmentPeriodQuarters := investmentPeriodQuarters i;
     fundLifeQuarters := fundLifeQuarters i;
     extensionQuarters := extensionQuarters i; recycling := recycling i;
     waterfallType := waterfallType i; lpClawback := lpClawback i;
     keyPersonProvisions := keyPersonProvisions i |}.

Definition setExitProbabilityMatrix (v : ExitProbabilities)
    (i : EnhancedFundInputs) : EnhancedFundInputs :=
  {| fundName := fundName i; fundSize := fundSize i; currency := currency i;
     vintage := vintage i; feeProfile := feeProfile i;
     stageStrategies := stageStrategies i;
     graduationMatrix := graduationMatrix i;
     exitProbabilityMatrix := v;
     exitMultiples := exitMultiples i;
     investmentPeriodQuarters := investmentPeriodQuarters i;
     fundLifeQuarters := fundLifeQuarters i;
     extensionQuarters := extensionQuarters i; recycling := recycling i;
     waterfallType := waterfallType i; lpClawback := lpClawback i;
     keyPersonProvisions := keyPersonProvisions i |}.

Definition setFeeProfile (v : FeeProfile) (i : EnhancedFundInputs)
  : EnhancedFundInputs :=
  {| fundName := fundName i; fundSize := fundSize i; currency := currency i;
     vintage := vintage i; feeProfile := v;
     stageStrategies := stageStrategies i;
     graduationMatrix := graduationMatrix i;
     exitProbabilityMatrix := exitProbabilityMatrix i;
     exitMultiples := exitMultiples i;
     investmentPeriodQuarters := investmentPeriodQuarters i;
     fundLifeQuarters := fundLifeQuarters i;
     extensionQuarters := extensionQuarters i; recycling := recycling i;
     waterfallType := waterfallType i; lpClawback := lpClawback i;
     keyPersonProvisions := keyPersonProvisions i |}.

Definition setInvestmentPeriodQuarters (v : Q) (i : EnhancedFundInputs)
  : EnhancedFundInputs :=
  {| fundName := fundName i; fundSize := fundSize i; currency := currency i;
     vintage := vintage i; feeProfile := feeProfile i;
     stageStrategies := stageStrategies i;
     graduationMatrix := graduationMatrix i;
     exitProbabilityMatrix := exitProbabilityMatrix i;
     exitMultiples := exitMultiples i;
     investmentPeriodQuarters := v;
     fundLifeQuarters := fundLifeQuarters i;
     extensionQuarters := extensionQuarters i; recycling := recycling i;
     waterfallType := waterfallType i; lpClawback := lpClawback i;
     keyPersonProvisions := keyPersonProvisions i |}.

(** [{ ...strategy, allocationPct: override }] *)
Definition withAllocation (override : Q) (s : StageStrategy) : StageStrategy :=
  {| stage := stage s; allocationPct := override; checkCount := checkCount s;
     avgInitialCheck := avgInitialCheck s; ownership := ownership s;
     reserveRatio := reserveRatio s; targetReturns := targetReturns s |}.

Definition orElse {A} (o : option A) (d : A) : A :=
  match o with Some a => a | None => d end.

(** [{ ...feeProfile, ...feeAdjustments }] *)
Definition mergeFees (fp : FeeProfile) (adj : PartialFeeProfile) : FeeProfile :=
  {| managementFeeRate := orElse (p_managementFeeRate adj) (managementFeeRate fp);
     managementFeeBasis := orElse (p_managementFeeBasis adj) (managementFeeBasis fp);
     carryRate := orElse (p_carryRate adj) (carryRate fp);
     hurdleRate := orElse (p_hurdleRate adj) (hurdleRate fp);
     catchUp := orElse (p_catchUp adj) (catchUp fp);
     catchUpRate := orElse (p_catchUpRate adj) (catchUpRate fp);
     gpCommitment := orElse (p_gpCommitment adj) (gpCommitment fp);
     organizationalExpenses :=
       orElse (p_organizationalExpenses adj) (organizationalExpenses fp);
     fundExpenses := orElse (p_fundExpenses adj) (fundExpenses fp);
     annualExpensesCap := orElse (p_annualExpensesCap adj) (annualExpensesCap fp) |}.

Definition applyScenarioOverrides (base : EnhancedFundInputs)
    (scenario : ScenarioDefinition) : EnhancedFundInputs :=
  let modified := base in
  let overrides := parameterOverrides scenario in
  (* Apply fund size override *)
  let modified :=
    match o_fundSize overrides with
    | Some v => setFundSize v modified
    | None => modified
    end in
  (* Apply stage allocation overrides *)
  let modified :=
    match o_stageAllocations overrides with
    | Some allocations =>
        setStageStrategies
          (map (fun strategy =>
                  match allocations (stage strategy) with
                  | Some override => withAllocation override strategy
                  | None => strategy
                  end)
               (stageStrategies modified))
          modified
    | None => modified
    end in
  (* Apply exit probability overrides *)
  let modified :=
    match o_exitProbabilities overrides with
    | Some probs =>
        setExitProbabilityMatrix
          (fun s => orElse (probs s) (exitProbabilityMatrix modified s))
          modified
    | None => modified
    end in
  (* Apply fee adjustments *)
  let modified :=
    match o_feeAdjustments overrides with
    | Some adj => setFeeProfile (mergeFees (feeProfile modified) adj) modified
    | None => modified
    end in
  (* Apply timing adjustments *)
  match o_timingAdjustments overrides with
  | Some timing =>
      match deploymentAcceleration timing with
      | Some d =>
          if Js.truthy d then
            setInvestmentPeriodQuarters
              (Js.round (investmentPeriodQuarters modified * (1 - d * 0.2)))
              modified
          else modified
      | None => modified
      end
  | None => modified
  end.

Definition zeroWaterfall : WaterfallSummary :=
  {| ws_type := American;
     ws_totalInvested := 0; ws_totalProceeds := 0; ws_totalProfit := 0;
     ws_lpCapitalReturned := 0; ws_lpPreferredReturn := 0;
     ws_lpProfitDistribution := 0; ws_totalLpDistribution := 0;
     ws_gpManagementFees := 0; ws_gpCarriedInterest := 0; ws_gpCatchUp := 0;
     ws_totalGpCompensation := 0;
     ws_lpNetMultiple := 0; ws_lpNetIrr := 0; ws_effectiveCarryRate := 0;
     ws_dealWaterfalls := None |}.

(** The object literal of [createErrorResult], given the two dates it reads. *)
Definition errorResult (d1 d2 : Date) (error : Thrown) : ForecastResult :=
  {| calculationId := "error";
     calculationDate := d1;
     fr_fundName := "Error";
     fr_vintage := getFullYear d2;
     timeline := [];
     portfolio := [];
     companyResults := [];
     waterfallSummary := zeroWaterfall;
     totalInvested := 0; totalRealized := 0; totalUnrealized := 0;
     totalValue := 0;
     totalManagementFees := 0; totalCarriedInterest := 0;
     totalOrganizationalExpenses := 0; totalFundExpenses := 0;
     grossMoic := 0; netMoic := 0; grossIrr := 0; netIrr := 0;
     tvpi := 0; dpi := 0; rvpi := 0;
     portfolioComposition :=
       {| byStage := [];
          byStatus := {| bs_active := 0; bs_exited := 0; bs_writtenOff := 0 |};
          bySector := None; byGeography := None |};
     riskMetrics :=
       {| jCurveDepth := 0; timeToBreakeven := 0; lossRatio := 0;
          concentrationRisk := 0; diversificationScore := 0 |};
     warnings :=
       [ {| fw_type := WCalculation; fw_severity := SevError;
            fw_message := messageOr "Unknown error" error;
            fw_field := None; fw_suggestion := None |} ];
     assumptions :=
       {| ma_version := "1.0.0";
          methodology := Deterministic;
          randomSeed := None;
          marketAssumptions :=
            {| riskFreeRate := 0.04; marketPremium := 0.08; betaByStage := [] |};
          operationalAssumptions :=
            {| defaultFollowOnReserveRatio := 0.5;
               defaultOwnershipTarget := 0.1;
               defaultBoardSeatThreshold := 0.1 |};
          calculationParameters :=
            {| irMaxIterations := 100; irTolerance := 0.000001;
               navDiscountRate := 0.1 |} |} |}.

(** [createErrorResult(error)]: two [new Date()] reads, in field order. *)
Definition createErrorResult {C} (env : Env) (error : Thrown)
  : M C ForecastResult :=
  (d1 <- newDate env ;;
   d2 <- newDate env ;;
   ret (errorResult d1 d2 error))%eff.

(** [if (onProgress) onProgress(pct)] *)
Definition report {C} (onProgress : option (Q -> M C unit)) (pct : Q)
  : M C unit :=
  match onProgress with
  | Some callback => callback pct
  | None => ret tt
  end.

(** One turn of the [for ... of] loop, up to the [results.push]. *)
Definition runScenario {C} (env : Env) (base : EnhancedFundInputs)
    (scenario : ScenarioDefinition) : M C ScenarioResult :=
  (startTime <- perfNow env ;;
   tryCatch
     (let modifiedInputs := applyScenarioOverrides base scenario in
      result <- awaitBuild env modifiedInputs ;;
      endTime <- perfNow env ;;
      ret {| scenarioId := sd_id scenario;
             definition := scenario;
             result := result;
             varianceFromBaseline := None;
             executionTime := endTime - startTime;
             sr_warnings := [] |})
     (fun error =>
        placeholder <- createErrorResult env error ;;
        endTime <- perfNow env ;;
        ret {| scenarioId := sd_id scenario;
               definition := scenario;
               result := placeholder;
               varianceFromBaseline := None;
               executionTime := endTime - startTime;
               sr_warnings := [messageOr "Calculation failed" error] |}))%eff.

(** The [for ... of] loop over the scenarios still to run; [completed] and
    [results] are the loop's two accumulators. *)
Fixpoint runLoop {C} (env : Env) (base : EnhancedFundInputs)
    (onProgress : option (Q -> M C unit)) (totalScenarios : nat)
    (todo : list ScenarioDefinition) (completed : nat)
    (results : list ScenarioResult) : M C (list ScenarioResult) :=
  match todo with
  | [] => ret results
  | scenario :: rest =>
      (r <- runScenario env base scenario ;;
       let completed' := S completed in
       report onProgress
         (Js.ofNat completed' / Js.ofNat totalScenarios * 100) ;;;
       runLoop env base onProgress totalScenarios rest completed'
         (results ++ [r]))%eff
  end.

(** [r.definition.isBaseline] as a condition. *)
Definition flagged (r : ScenarioResult) : bool :=
  match isBaseline (definition r) with
  | Some b => b
  | None => false
  end.

Definition variance (r baseline : ScenarioResult) : Variance :=
  {| v_netMoic := netMoic (result r) - netMoic (result baseline);
     v_netIrr := netIrr (result r) - netIrr (result baseline);
     v_totalValue := totalValue (result r) - totalValue (result baseline) |}.

Definition setVariance (v : Variance) (r : ScenarioResult) : ScenarioResult :=
  {| scenarioId := scenarioId r; definition := definition r;
     result := result r; varianceFromBaseline := Some v;
     executionTime := executionTime r; sr_warnings := sr_warnings r |}.

(** "Calculate variance from baseline" *)
Definition addVariance (results : list ScenarioResult) : list ScenarioResult :=
  match find flagged results with
  | Some baseline =>
      map (fun r =>
             if negb (String.eqb (scenarioId r) (scenarioId baseline))
             then setVariance (variance r baseline) r
             else r)
          results
  | None => results
  end.

(** The part of [run] after the dispatch on the batch size. *)
Definition runSequential {C} (env : Env) (r : t)
    (onProgress : option (Q -> M C unit)) : M C (list ScenarioResult) :=
  (results <- runLoop env (baseInputs r) onProgress
                (List.length (scenarios r)) (scenarios r) 0%nat [] ;;
   ret (addVariance results))%eff.

(** [run] and [runWithWebWorkers] call each other; every call spends one
    unit of [fuel], and [None] says the fuel ran out before either
    returned. *)
Fixpoint run {C} (fuel : nat) (env : Env) (r : t)
    (onProgress : option (Q -> M C unit)) (w : World C) {struct fuel}
  : option (Outcome (list ScenarioResult) * World C) :=
  match fuel with
  | O => None
  | S fuel' =>
      let totalScenarios := List.length (scenarios r) in
      if useWebWorkers r && (5 <? totalScenarios)%nat then
        runWithWebWorkers fuel' env r onProgress w
      else
        Some (runSequential env r onProgress w)
  end

with runWithWebWorkers {C} (fuel : nat) (env : Env) (r : t)
    (onProgress : option (Q -> M C unit)) (w : World C) {struct fuel}
  : option (Outcome (list ScenarioResult) * World C) :=
  match fuel with
  | O => None
  | S fuel' => run fuel' env r onProgress w
  end.

(** A progress callback that records each percentage it is given. *)
Definition recordProgress : Q -> M (list Q) unit :=
  fun pct => setState (fun seen : list Q => (seen ++ [pct])%list).

End EnhancedBatchRunner.

(* ===================================================================== *)
(** ** The prototype's FundProvider with its mock forecast                *)
(* ===================================================================== *)

Module Mock.

Record StageStrategy := {
  stage : string;
  allocationPct : Q;
  checkCount : Q;
  avgInitialCheck : Q;
  ownership : Q;
  reserveRatio : Q;
  targetReturns : option TargetReturns
}.

Record TimelinePoint := {
  quarter : Q; nav : Q; tp_dpi : Q; tp_tvpi : Q; deployed : Q
}.

Record ForecastResult := {
  grossMoic : Q; netMoic : Q; grossIrr : Q; netIrr : Q;
  tvpi : Q; dpi : Q; rvpi : Q;
  totalInvested : Q; totalValue : Q;
  timeline : list TimelinePoint
}.

Inductive RiskLevel := RiskLow | RiskMedium | RiskHigh.

Record ReserveAnalysis := {
  totalReserveNeeded : Q; currentReserveAllocated : Q;
  sufficiencyRatio : Q; riskLevel : RiskLevel
}.
Record PacingAnalysis := {
  currentPace : Q; targetPace : Q; deviationPercent : Q; isOnTrack : bool
}.
Record MoicAnalysis := {
  currentMOIC : Q; expectedMOIC : Q; initialMOIC : Q; followOnMOIC : Q;
  blendedMOIC : Q; lpMOIC : Q; gpMOIC : Q
}.
Record Concentration := {
  herfindahlIndex : Q; top5ShareOfNAV : Q; diversificationScore : Q
}.
Record EnhancedAnalytics := {
  reserveAnalysis : ReserveAnalysis;
  pacingAnalysis : PacingAnalysis;
  moicAnalysis : MoicAnalysis;
  concentration : Concentration
}.

Inductive Severity := SeverityError | SeverityWarning.

Record ValidationError := {
  field : string; message : string; severity : Severity
}.

Record State := {
  fundName : string;
  fundSize : Q;
  managementFeeRate : Q;
  carryPct : Q;
  investmentPeriodYears : Q;
  fundLifeYears : Q;
  stageStrategies : list StageStrategy;
  forecastResult : option ForecastResult;
  enhancedAnalytics : option EnhancedAnalytics;
  isCalculating : bool;
  validationErrors : list ValidationError
}.

(** The actions that [calculateForecast] and [validateInputs] dispatch, and
    the two scalar setters.  The three actions that edit the strategy list
    are dispatched by form components only and are not part of the model. *)
Inductive Action :=
| SET_FUND_NAME (payload : string)
| SET_FUND_SIZE (payload : Q)
| SET_FORECAST_RESULT (payload : ForecastResult)
| SET_ANALYTICS (payload : EnhancedAnalytics)
| SET_CALCULATING (payload : bool)
| SET_VALIDATION_ERRORS (payload : list ValidationError).

Definition fundReducer (state : State) (action : Action) : State :=
  match action with
  | SET_FUND_NAME p =>
      {| fundName := p; fundSize := fundSize state;
         managementFeeRate := managementFeeRate state; carryPct := carryPct state;
         investmentPeriodYears := investmentPeriodYears state;
         fundLifeYears := fundLifeYears state;
         stageStrategies := stageStrategies state;
         forecastResult := forecastResult state;
         enhancedAnalytics := enhancedAnalytics state;
         isCalculating := isCalculating state;
         validationErrors := validationErrors state |}
  | SET_FUND_SIZE p =>
      {| fundName := fundName state; fundSize := p;
         managementFeeRate := managementFeeRate state; carryPct := carryPct state;
         investmentPeriodYears := investmentPeriodYears state;
         fundLifeYears := fundLifeYears state;
         stageStrategies := stageStrategies state;
         forecastResult := forecastResult state;
         enhancedAnalytics := enhancedAnalytics state;
         isCalculating := isCalculating state;
         validationErrors := validationErrors state |}
  | SET_FORECAST_RESULT p =>
      {| fundName := fundName state; fundSize := fundSize state;
         managementFeeRate := managementFeeRate state; carryPct := carryPct state;
         investmentPeriodYears := investmentPeriodYears state;
         fundLifeYears := fundLifeYears state;
         stageStrategies := stageStrategies state;
         forecastResult := Some p;
         enhancedAnalytics := enhancedAnalytics state;
         isCalculating := isCalculating state;
         validationErrors := validationErrors state |}
  | SET_ANALYTICS p =>
      {| fundName := fundName state; fundSize := fundSize state;
         managementFeeRate := managementFeeRate state; carryPct := carryPct state;
         investmentPeriodYears := investmentPeriodYears state;
         fundLifeYears := fundLifeYears state;
         stageStrategies := stageStrategies state;
         forecastResult := forecastResult state;
         enhancedAnalytics := Some p;
         isCalculating := isCalculating state;
         validationErrors := validationErrors state |}
  | SET_CALCULATING p =>
      {| fundName := fundName state; fundSize := fundSize state;
         managementFeeRate := managementFeeRate state; carryPct := carryPct state;
         investmentPeriodYears := investmentPeriodYears state;
         fundLifeYears := fundLifeYears state;
         stageStrategies := stageStrategies state;
         forecastResult := forecastResult state;
         enhancedAnalytics := enhancedAnalytics state;
         isCalculating := p;
         validationErrors := validationErrors state |}
  | SET_VALIDATION_ERRORS p =>
      {| fundName := fundName state; fundSize := fundSize state;
         managementFeeRate := managementFeeRate state; carryPct := carryPct state;
         investmentPeriodYears := investmentPeriodYears state;
         fundLifeYears := fundLifeYears state;
         stageStrategies := stageStrategies state;
         forecastResult := forecastResult state;
         enhancedAnalytics := enhancedAnalytics state;
         isCalculating := isCalculating state;
         validationErrors := p |}
  end.

Definition strategy (s : string) (alloc count check own reserve lo tg hi : Q)
  : StageStrategy :=
  {| stage := s; allocationPct := alloc; checkCount := count;
     avgInitialCheck := check; ownership := own; reserveRatio := reserve;
     targetReturns := Some {| tr_low := lo; tr_target := tg; tr_high := hi |} |}.

Definition initialState : State :=
  {| fundName := "Sample Fund I";
     fundSize := 100000000;
     managementFeeRate := 2.0;
     carryPct := 20;
     investmentPeriodYears := 5;
     fundLifeYears := 10;
     stageStrategies :=
       [ strategy "Pre-Seed" 0.2 20 500000 0.08 0.5 3 10 30;
         strategy "Seed" 0.5 25 1500000 0.10 0.5 2.5 8 25;
         strategy "Series A" 0.3 10 3000000 0.12 0.4 2 5 15 ];
     forecastResult := None;
     enhancedAnalytics := None;
     isCalculating := false;
     validationErrors := [] |}.

(** [Math.random()]: the values it returns, in call order, and the number
    of calls made so far. *)
Record Rng := { draws : nat -> Q; used : nat }.

Definition random (g : Rng) : Q * Rng :=
  (draws g (used g), {| draws := draws g; used := S (used g) |}).

Section WithExp.

(** [Math.exp], which has no rational closed form. *)
Variable exp : Q -> Q.

(** The element that [Array.from] builds at index [i]. *)
Definition timelinePoint (size : Q) (i : nat) (r : Q) : TimelinePoint :=
  let i' := Js.ofNat i in
  {| quarter := i' + 1;
     nav := Js.max 0 (size * (1 - exp (- i' / 10) + r * 0.3));
     tp_dpi := Js.min 1.5 (i' * 0.04);
     tp_tvpi := Js.min 3 (1 + i' * 0.05);
     deployed :=
       Js.min (size * 0.85) (size * 0.85 * (1 - exp (- i' / 8))) |}.

(** [Array.from({ length }, (_, i) => ...)], from index [i] on. *)
Fixpoint timelineFrom (size : Q) (i length : nat) (g : Rng)
  : list TimelinePoint * Rng :=
  match length with
  | O => ([], g)
  | S length' =>
      let (r, g1) := random g in
      let p := timelinePoint size i r in
      let (rest, g2) := timelineFrom size (S i) length' g1 in
      (p :: rest, g2)
  end.

Definition mockResult (size : Q) (g : Rng) : ForecastResult * Rng :=
  let (points, g') := timelineFrom size 0 40 g in
  ({| grossMoic := 3.2; netMoic := 2.5; grossIrr := 0.28; netIrr := 0.22;
      tvpi := 2.8; dpi := 0.9; rvpi := 1.9;
      totalInvested := size * 0.85;
      totalValue := size * 2.5;
      timeline := points |}, g').

Definition mockAnalytics (size : Q) : EnhancedAnalytics :=
  {| reserveAnalysis :=
       {| totalReserveNeeded := size * 0.45;
          currentReserveAllocated := size * 0.42;
          sufficiencyRatio := 0.93; riskLevel := RiskMedium |};
     pacingAnalysis :=
       {| currentPace := 0.82; targetPace := 0.85;
          deviationPercent := -3.5; isOnTrack := true |};
     moicAnalysis :=
       {| currentMOIC := 1.8; expectedMOIC := 2.5; initialMOIC := 2.8;
          followOnMOIC := 2.2; blendedMOIC := 2.5; lpMOIC := 2.2;
          gpMOIC := 3.8 |};
     concentration :=
       {| herfindahlIndex := 0.15; top5ShareOfNAV := 0.45;
          diversificationScore := 0.85 |} |}.

(** [calculateForecast()]; the callback reads [state.fundSize] of the
    render it was created in, and every dispatch goes through the
    reducer.  The one-second [setTimeout] only delays. *)
Definition calculateForecast (state : State) (g : Rng) : State * Rng :=
  let s1 := fundReducer state (SET_CALCULATING true) in
  let (result, g') := mockResult (fundSize state) g in
  let s2 := fundReducer s1 (SET_FORECAST_RESULT result) in
  let s3 := fundReducer s2 (SET_ANALYTICS (mockAnalytics (fundSize state))) in
  (fundReducer s3 (SET_CALCULATING false), g').

End WithExp.

(** [validateInputs()] *)
Definition validateInputs (state : State) : list ValidationError * State :=
  let errors : list ValidationError :=
    app
    (if Js.ltb (fundSize state) 10000000 then
       [ {| field := "fundSize";
            message := "Fund size should be at least $10M for institutional viability";
            severity := SeverityWarning |} ]
     else [])
    (let totalAllocation :=
          fold_left (fun sum s => PrimFloat.add sum (Js.toDouble (allocationPct s)))
            (stageStrategies state) PrimFloat.zero in
        if Js.gtbD (PrimFloat.abs (totalAllocation - 1.0)) 0.001 then
          [ {| field := "stageStrategies";
               message := "Stage allocations must sum to 100% (currently "
                            ++ Js.toFixedD 1 (totalAllocation * 100) ++ "%)";
               severity := SeverityError |} ]
        else []) in
  (errors, fundReducer state (SET_VALIDATION_ERRORS errors)).

(** Deep equality of forecast values, numbers compared as numbers. *)
Definition TimelinePoint_eq (p q : TimelinePoint) : Prop :=
  quarter p == quarter q /\ nav p == nav q /\ tp_dpi p == tp_dpi q
  /\ tp_tvpi p == tp_tvpi q /\ deployed p == deployed q.

Definition ForecastResult_eq (a b : ForecastResult) : Prop :=
  grossMoic a == grossMoic b /\ netMoic a == netMoic b
  /\ grossIrr a == grossIrr b /\ netIrr a == netIrr b
  /\ tvpi a == tvpi b /\ dpi a == dpi b /\ rvpi a == rvpi b
  /\ totalInvested a == totalInvested b /\ totalValue a == totalValue b
  /\ Forall2 TimelinePoint_eq (timeline a) (timeline b).

Definition stored_eq (a b : option ForecastResult) : Prop :=
  match a, b with
  | Some x, Some y => ForecastResult_eq x y
  | None, None => True
  | _, _ => False
  end.

(** The forecast value with the [nav] of every timeline point blanked. *)
Definition withoutNav (a : ForecastResult) : ForecastResult :=
  {| grossMoic := grossMoic a; netMoic := netMoic a;
     grossIrr := grossIrr a; netIrr := netIrr a;
     tvpi := tvpi a; dpi := dpi a; rvpi := rvpi a;
     totalInvested := totalInvested a; totalValue := totalValue a;
     timeline :=
       map (fun p => {| quarter := quarter p; nav := 0; tp_dpi := tp_dpi p;
                        tp_tvpi := tp_tvpi p; deployed := deployed p |})
           (timeline a) |}.

End Mock.

(* ===================================================================== *)
(** ** Object store: the configuration as JavaScript objects              *)
(* ===================================================================== *)

(** [applyScenarioOverrides] once more, on a store of objects with
    references, so that what is copied and what is shared can be stated.
    An object lives at an address; a field that holds an object holds its
    address.  [None] from an operation says that an address did not hold an
    object of the kind the code expects. *)
Module Store.

Definition Ref := nat.

Record InputsObj := {
  fundName : string;
  fundSize : Q;
  currency : Currency;
  vintage : Q;
  feeProfile : Ref;
  stageStrategies : Ref;
  graduationMatrix : Ref;
  exitProbabilityMatrix : Ref;
  exitMultiples : Ref;
  investmentPeriodQuarters : Q;
  fundLifeQuarters : Q;
  extensionQuarters : option Q;
  recycling : option Ref;
  waterfallType : WaterfallType;
  lpClawback : bool;
  keyPersonProvisions : option Ref
}.

Record StrategyObj := {
  stage : FundStage;
  allocationPct : Q;
  checkCount : Q;
  avgInitialCheck : Q;
  ownership : Q;
  reserveRatio : Q;
  targetReturns : Ref
}.

Inductive Obj :=
| OInputs (o : InputsObj)
| OFeeProfile (o : FeeProfile)
| OArray (elems : list Ref)
| OStrategy (o : StrategyObj)
| OTargetReturns (o : TargetReturns)
| OStageMap (rows : FundStage -> option Ref)
| OOutcomes (o : ExitOutcomes)
| ORates (o : StageObject Q)
| ORecycling (o : RecyclingProfile)
| OKeyPerson (o : KeyPersonProvisions).

Definition Heap := list Obj.

Definition read (h : Heap) (r : Ref) : option Obj := nth_error h r.

(** A new object literal: it gets the next free address. *)
Definition alloc (o : Obj) (h : Heap) : Ref * Heap :=
  (List.length h, (h ++ [o])%list).

(** Assignment to the object at [r]. *)
Fixpoint write (r : Ref) (o : Obj) (h : Heap) : Heap :=
  match h, r with
  | [], _ => []
  | _ :: rest, O => o :: rest
  | x :: rest, S r' => x :: write r' o rest
  end.

(** [scenario.parameterOverrides]; the rows of [exitProbabilities] and of
    [exitMultiples] are objects of the scenario definition. *)
Record Overrides := {
  o_fundSize : option Q;
  o_stageAllocations : option (FundStage -> option Q);
  o_exitProbabilities : option (FundStage -> option Ref);
  o_exitMultiples : option (FundStage -> option Ref);
  o_feeAdjustments : option PartialFeeProfile;
  o_timingAdjustments : option TimingAdjustments
}.

Definition readInputs (h : Heap) (r : Ref) : option InputsObj :=
  match read h r with Some (OInputs o) => Some o | _ => None end.

(** [modified.field = value], as an update [f] of the object at [r]. *)
Definition assign (r : Ref) (f : InputsObj -> InputsObj) (h : Heap)
  : option Heap :=
  match readInputs h r with
  | Some o => Some (write r (OInputs (f o)) h)
  | None => None
  end.

Definition setFundSize (v : Q) (i : InputsObj) : InputsObj :=
  {| fundName := fundName i; fundSize := v; currency := currency i;
     vintage := vintage i; feeProfile := feeProfile i;
     stageStrategies := stageStrategies i;
     graduationMatrix := graduationMatrix i;
     exitProbabilityMatrix := exitProbabilityMatrix i;
     exitMultiples := exitMultiples i;
     investmentPeriodQuarters := investmentPeriodQuarters i;
     fundLifeQuarters := fundLifeQuarters i;
     extensionQuarters := extensionQuarters i; recycling := recycling i;
     waterfallType := waterfallType i; lpClawback := lpClawback i;
     keyPersonProvisions := keyPersonProvisions i |}.

Definition setStageStrategies (v : Ref) (i : InputsObj) : InputsObj :=
  {| fundName := fundName i; fundSize := fundSize i; currency := currency i;
     vintage := vintage i; feeProfile := feeProfile i;
     stageStrategies := v;
     graduationMatrix := graduationMatrix i;
     exitProbabilityMatrix := exitProbabilityMatrix i;
     exitMultiples := exitMultiples i;
     investmentPeriodQuarters := investmentPeriodQuarters i;
     fundLifeQuarters := fundLifeQuarters i;
     extensionQuarters := extensionQuarters i; recycling := recycling i;
     waterfallType := waterfallType i; lpClawback := lpClawback i;
     keyPersonProvisions := keyPersonProvisions i |}.

Definition setExitProbabilityMatrix (v : Ref) (i : InputsObj) : InputsObj :=
  {| fundName := fundName i; fundSize := fundSize i; currency := currency i;
     vintage := vintage i; feeProfile := feeProfile i;
     stageStrategies := stageStrategies i;
     graduationMatrix := graduationMatrix i;
     exitProbabilityMatrix := v;
     exitMultiples := exitMultiples i;
     investmentPeriodQuarters := investmentPeriodQuarters i;
     fundLifeQuarters := fundLifeQuarters i;
     extensionQuarters := extensionQuarters i; recycling := recycling i;
     waterfallType := waterfallType i; lpClawback := lpClawback i;
     keyPersonProvisions := keyPersonProvisions i |}.

Definition setFeeProfile (v : Ref) (i : InputsObj) : InputsObj :=
  {| fundName := fundName i; fundSize := fundSize i; currency := currency i;
     vintage := vintage i; feeProfile := v;
     stageStrategies := stageStrategies i;
     graduationMatrix := graduationMatrix i;
     exitProbabilityMatrix := exitProbabilityMatrix i;
     exitMultiples := exitMultiples i;
     investmentPeriodQuarters := investmentPeriodQuarters i;
     fundLifeQuarters := fundLifeQuarters i;
     extensionQuarters := extensionQuarters i; recycling := recycling i;
     waterfallType := waterfallType i; lpClawback := lpClawback i;
     keyPersonProvisions := keyPersonProvisions i |}.

Definition setInvestmentPeriodQuarters (v : Q) (i : InputsObj) : InputsObj :=
  {| fundName := fundName i; fundSize := fundSize i; currency := currency i;
     vintage := vintage i; feeProfile := feeProfile i;
     stageStrategies := stageStrategies i;
     graduationMatrix := graduationMatrix i;
     exitProbabilityMatrix := exitProbabilityMatrix i;
     exitMultiples := exitMultiples i;
     investmentPeriodQuarters := v;
     fundLifeQuarters := fundLifeQuarters i;
     extensionQuarters := extensionQuarters i; recycling := recycling i;
     waterfallType := waterfallType i; lpClawback := lpClawback i;
     keyPersonProvisions := keyPersonProvisions i |}.

(** [{ ...strategy, allocationPct: override }] *)
Definition withAllocation (override : Q) (s : StrategyObj) : StrategyObj :=
  {| stage := stage s; allocationPct := override; checkCount := checkCount s;
     avgInitialCheck := avgInitialCheck s; ownership := ownership s;
     reserveRatio := reserveRatio s; targetReturns := targetReturns s |}.

(** The callback of [stageStrategies.map], over the elements in order: an
    overridden strategy is a new object, any other keeps its address. *)
Fixpoint mapStrategies (allocations : FundStage -> option Q)
    (elems : list Ref) (h : Heap) : option (list Ref * Heap) :=
  match elems with
  | [] => Some ([], h)
  | e :: rest =>
      match read h e with
      | Some (OStrategy s) =>
          let (e', h1) :=
            match allocations (stage s) with
            | Some override => alloc (OStrategy (withAllocation override s)) h
            | None => (e, h)
            end in
          match mapStrategies allocations rest h1 with
          | Some (rest', h2) => Some (e' :: rest', h2)
          | None => None
          end
      | _ => None
      end
  end.

Definition overrideStrategies (modified : Ref)
    (allocations : FundStage -> option Q) (h : Heap) : option Heap :=
  match readInputs h modified with
  | Some m =>
      match read h (stageStrategies m) with
      | Some (OArray elems) =>
          match mapStrategies allocations elems h with
          | Some (elems', h1) =>
              let (arr, h2) := alloc (OArray elems') h1 in
              assign modified (setStageStrategies arr) h2
          | None => None
          end
      | _ => None
      end
  | None => None
  end.

Definition overrideExitProbabilities (modified : Ref)
    (probs : FundStage -> option Ref) (h : Heap) : option Heap :=
  match readInputs h modified with
  | Some m =>
      match read h (exitProbabilityMatrix m) with
      | Some (OStageMap rows) =>
          let merged := fun s =>
            match probs s with Some r => Some r | None => rows s end in
          let (obj, h1) := alloc (OStageMap merged) h in
          assign modified (setExitProbabilityMatrix obj) h1
      | _ => None
      end
  | None => None
  end.

Definition overrideFees (modified : Ref) (adj : PartialFeeProfile) (h : Heap)
  : option Heap :=
  match readInputs h modified with
  | Some m =>
      match read h (feeProfile m) with
      | Some (OFeeProfile fp) =>
          let (obj, h1) :=
            alloc (OFeeProfile (EnhancedBatchRunner.mergeFees fp adj)) h in
          assign modified (setFeeProfile obj) h1
      | _ => None
      end
  | None => None
  end.

Definition overrideTiming (modified : Ref) (timing : TimingAdjustments)
    (h : Heap) : option Heap :=
  match deploymentAcceleration timing with
  | Some d =>
      if Js.truthy d then
        assign modified
          (fun m => setInvestmentPeriodQuarters
                      (Js.round (investmentPeriodQuarters m * (1 - d * 0.2))) m)
          h
      else Some h
  | None => Some h
  end.

(** [if (field) step] *)
Definition whenSome {A} (o : option A) (step : A -> Heap -> option Heap)
    (h : option Heap) : option Heap :=
  match h, o with
  | Some h', Some a => step a h'
  | Some h', None => Some h'
  | None, _ => None
  end.

Definition applyScenarioOverrides (h : Heap) (base : Ref) (ov : Overrides)
  : option (Ref * Heap) :=
  match readInputs h base with
  | Some b =>
      (* const modified = { ...baseInputs } *)
      let (modified, h0) := alloc (OInputs b) h in
      let h1 := whenSome (o_fundSize ov)
                  (fun v => assign modified (setFundSize v)) (Some h0) in
      let h2 := whenSome (o_stageAllocations ov)
                  (overrideStrategies modified) h1 in
      let h3 := whenSome (o_exitProbabilities ov)
                  (overrideExitProbabilities modified) h2 in
      let h4 := whenSome (o_feeAdjustments ov) (overrideFees modified) h3 in
      let h5 := whenSome (o_timingAdjustments ov) (overrideTiming modified) h4 in
      match h5 with
      | Some h' => Some (modified, h')
      | None => None
      end
  | None => None
  end.

(** The store effect of the scenario loop of [run]: for each scenario the
    overrides are applied to the baseline and the forecast model is run on
    the configuration that results.  [model] is the store effect of the
    forecast model, which is not among the sources. *)
Fixpoint runLoop (model : Heap -> Ref -> Heap) (h : Heap) (base : Ref)
    (todo : list Overrides) : option (list Ref * Heap) :=
  match todo with
  | [] => Some ([], h)
  | ov :: rest =>
      match applyScenarioOverrides h base ov with
      | Some (modified, h1) =>
          match runLoop model (model h1 modified) base rest with
          | Some (ms, h2) => Some (modified :: ms, h2)
          | None => None
          end
      | None => None
      end
  end.

(** Every object of [h] is still there, unchanged, in [h']. *)
Definition preserves (h h' : Heap) : Prop :=
  forall r o, read h r = Some o -> read h' r = Some o.

(** The baseline at [base] has the shape its type promises. *)
Definition wellFormed (h : Heap) (base : Ref) : Prop :=
  exists b elems fp rows,
    read h base = Some (OInputs b)
    /\ read h (stageStrategies b) = Some (OArray elems)
    /\ Forall (fun e => exists s, read h e = Some (OStrategy s)) elems
    /\ read h (feeProfile b) = Some (OFeeProfile fp)
    /\ read h (exitProbabilityMatrix b) = Some (OStageMap rows).

(** Every object below address [k] reads in [h'] as it does in [h]. *)
Definition agreeBelow (k : Ref) (h h' : Heap) : Prop :=
  forall r, (r < k)%nat -> read h' r = read h r.

Definition isSome {A} (o : option A) : bool :=
  match o with Some _ => true | None => false end.

(** A field of the derived configuration: a new object when it was
    replaced, the baseline's own object otherwise. *)
Definition sharedOrFresh (fresh : Ref) (replaced : bool) (old new : Ref) : Prop :=
  if replaced then (fresh <= new)%nat else new = old.

(** What a derived configuration [m] shares with the baseline [b], given
    which of the three replaceable parts were replaced and the first
    address [fresh] that was free. *)
Definition shares (fresh : Ref) (strategies probs fees : bool)
    (b m : InputsObj) : Prop :=
  graduationMatrix m = graduationMatrix b
  /\ exitMultiples m = exitMultiples b
  /\ recycling m = recycling b
  /\ keyPersonProvisions m = keyPersonProvisions b
  /\ sharedOrFresh fresh strategies (stageStrategies b) (stageStrategies m)
  /\ sharedOrFresh fresh probs
       (exitProbabilityMatrix b) (exitProbabilityMatrix m)
  /\ sharedOrFresh fresh fees (feeProfile b) (feeProfile m).

Definition copyOnWrite (fresh : Ref) (ov : Overrides) (b m : InputsObj) : Prop :=
  shares fresh (isSome (o_stageAllocations ov))
    (isSome (o_exitProbabilities ov)) (isSome (o_feeAdjustments ov)) b m.

(** The store [h] while the overrides are applied to the baseline [b] of
    the store [h0]: the old objects are untouched and the copy sits at the
    first address that was free. *)
Definition underway (h0 : Heap) (b : InputsObj) (strategies probs fees : bool)
    (h : Heap) : Prop :=
  agreeBelow (List.length h0) h0 h
  /\ (List.length h0 < List.length h)%nat
  /\ exists m, readInputs h (List.length h0) = Some m
               /\ shares (List.length h0) strategies probs fees b m.

Definition noOverrides : Overrides :=
  {| o_fundSize := None; o_stageAllocations := None;
     o_exitProbabilities := None; o_exitMultiples := None;
     o_feeAdjustments := None; o_timingAdjustments := None |}.

End Store.

(* ===================================================================== *)
(** ** Concrete configurations, scenarios and stores used in examples     *)
(* ===================================================================== *)

Module Samples.

Definition now0 : Date := {| dateMs := 0; getFullYear := 2025 |}.

(** The configuration of a freshly created fund. *)
Definition defaults : EnhancedFundInputs :=
  FundData.getInputs (FundData.getDefaultState now0).

Definition withFundSize (v : Q) : EnhancedFundInputs :=
  EnhancedBatchRunner.setFundSize v defaults.

Definition withFundLife (v : Q) : EnhancedFundInputs :=
  {| fundName := fundName defaults; fundSize := fundSize defaults;
     currency := currency defaults; vintage := vintage defaults;
     feeProfile := feeProfile defaults;
     stageStrategies := stageStrategies defaults;
     graduationMatrix := graduationMatrix defaults;
     exitProbabilityMatrix := exitProbabilityMatrix defaults;
     exitMultiples := exitMultiples defaults;
     investmentPeriodQuarters := investmentPeriodQuarters defaults;
     fundLifeQuarters := v;
     extensionQuarters := extensionQuarters defaults;
     recycling := recycling defaults;
     waterfallType := waterfallType defaults;
     lpClawback := lpClawback defaults;
     keyPersonProvisions := keyPersonProvisions defaults |}.

(** A stand-in for the forecast model: it fails on a fund without capital
    and otherwise reports figures that follow the fund size. *)
Definition flatForecast (i : EnhancedFundInputs) : ForecastResult :=
  {| calculationId := "flat";
     calculationDate := now0;
     fr_fundName := fundName i;
     fr_vintage := vintage i;
     timeline := [];
     portfolio := [];
     companyResults := [];
     waterfallSummary := EnhancedBatchRunner.zeroWaterfall;
     totalInvested := fundSize i; totalRealized := 0;
     totalUnrealized := fundSize i * 2;
     totalValue := fundSize i * 2;
     totalManagementFees := 0; totalCarriedInterest := 0;
     totalOrganizationalExpenses := 0; totalFundExpenses := 0;
     grossMoic := 2; netMoic := fundSize i / 50_000_000;
     grossIrr := 0.15; netIrr := 0.12;
     tvpi := 2; dpi := 0; rvpi := 2;
     portfolioComposition :=
       {| byStage := [];
          byStatus := {| bs_active := 0; bs_exited := 0; bs_writtenOff := 0 |};
          bySector := None; byGeography := None |};
     riskMetrics :=
       {| jCurveDepth := 0; timeToBreakeven := 0; lossRatio := 0;
          concentrationRisk := 0; diversificationScore := 0 |};
     warnings := [];
     assumptions :=
       assumptions (EnhancedBatchRunner.errorResult now0 now0 (NotAnError "")) |}.

Definition flatModel (i : EnhancedFundInputs) : Outcome ForecastResult :=
  if Js.leb (fundSize i) 0 then
    Threw (ErrorObject "CalculationError" "zero total invested")
  else Returned (flatForecast i).

Definition env0 : Env :=
  {| buildEnhancedFundForecast := flatModel;
     performanceNow := fun n => Js.ofNat n;
     dateNow := fun _ => now0;
     hardwareConcurrency := Some 8 |}.

Definition noOverrides : ParameterOverrides :=
  {| o_fundSize := None; o_stageAllocations := None;
     o_exitProbabilities := None; o_exitMultiples := None;
     o_feeAdjustments := None; o_timingAdjustments := None |}.

Definition sizeOverride (v : Q) : ParameterOverrides :=
  {| o_fundSize := Some v; o_stageAllocations := None;
     o_exitProbabilities := None; o_exitMultiples := None;
     o_feeAdjustments := None; o_timingAdjustments := None |}.

Definition scenario (id : string) (ov : ParameterOverrides)
    (baseline : option bool) : ScenarioDefinition :=
  {| sd_id := id; sd_name := id; sd_description := "";
     sd_category := CatCustom; parameterOverrides := ov;
     sd_weight := None; isBaseline := baseline |}.

Definition base : ScenarioDefinition := scenario "base" noOverrides (Some true).
Definition upside : ScenarioDefinition :=
  scenario "upside" (sizeOverride 200_000_000) None.
Definition broken : ScenarioDefinition := scenario "broken" (sizeOverride 0) None.

Definition three : list ScenarioDefinition := [base; broken; upside].

Definition six : list ScenarioDefinition :=
  [ base; broken; upside;
    scenario "s4" (sizeOverride 150_000_000) None;
    scenario "s5" (sizeOverride 250_000_000) None;
    scenario "s6" (sizeOverride 300_000_000) None ].


Definition world0 {C} (c : C) : World C :=
  {| clockReads := 0; simCalls := []; client := c |}.

(** A store that holds the default configuration: nested objects first,
    the configuration object last, at address 13. *)
Definition targets (lo tg hi : Q) : Store.Obj :=
  Store.OTargetReturns {| tr_low := lo; tr_target := tg; tr_high := hi |}.

Definition strategyAt (s : FundStage) (alloc count check own reserve : Q)
    (t : Store.Ref) : Store.Obj :=
  Store.OStrategy
    {| Store.stage := s; Store.allocationPct := alloc;
       Store.checkCount := count; Store.avgInitialCheck := check;
       Store.ownership := own; Store.reserveRatio := reserve;
       Store.targetReturns := t |}.

Definition heap0 : Store.Heap :=
  [ (* 0 *) Store.OFeeProfile (feeProfile defaults);
    (* 1 *) targets 3 10 50;
    (* 2 *) targets 2.5 8 30;
    (* 3 *) targets 2 5 15;
    (* 4 *) strategyAt PreSeed 0.15 20 500_000 0.07 1.0 1%nat;
    (* 5 *) strategyAt Seed 0.35 25 1_500_000 0.10 0.8 2%nat;
    (* 6 *) strategyAt SeriesA 0.50 15 3_000_000 0.08 0.5 3%nat;
    (* 7 *) Store.OArray [4; 5; 6]%nat;
    (* 8 *) Store.ORates [(Seed, 0.65)];
    (* 9 *) Store.OStageMap
              (fun s => match s with PreSeed => Some 8%nat | _ => None end);
    (* 10 *) Store.OOutcomes (exitProbabilityMatrix defaults Seed);
    (* 11 *) Store.OStageMap (fun _ => Some 10%nat);
    (* 12 *) Store.OStageMap (fun _ => Some 10%nat);
    (* 13 *) Store.OInputs
               {| Store.fundName := "New Fund";
                  Store.fundSize := 100_000_000;
                  Store.currency := USD;
                  Store.vintage := 2025;
                  Store.feeProfile := 0%nat;
                  Store.stageStrategies := 7%nat;
                  Store.graduationMatrix := 9%nat;
                  Store.exitProbabilityMatrix := 11%nat;
                  Store.exitMultiples := 12%nat;
                  Store.investmentPeriodQuarters := 20;
                  Store.fundLifeQuarters := 40;
                  Store.extensionQuarters := None;
                  Store.recycling := None;
                  Store.waterfallType := American;
                  Store.lpClawback := true;
                  Store.keyPersonProvisions := None |} ].

Definition baseRef : Store.Ref := 13%nat.

(** A fee profile some later code might store through a reference. *)
Definition otherFees : FeeProfile :=
  EnhancedBatchRunner.mergeFees (feeProfile defaults)
    {| p_managementFeeRate := Some 0.03; p_managementFeeBasis := None;
       p_carryRate := None; p_hurdleRate := None; p_catchUp := None;
       p_catchUpRate := None; p_gpCommitment := None;
       p_organizationalExpenses := None; p_fundExpenses := None;
       p_annualExpensesCap := None |}.

(** Overrides that touch every part [applyScenarioOverrides] can replace. *)
Definition allOverrides : Store.Overrides :=
  {| Store.o_fundSize := Some 200_000_000;
     Store.o_stageAllocations :=
       Some (fun s => match s with Seed => Some 0.40 | _ => None end);
     Store.o_exitProbabilities :=
       Some (fun s => match s with SeriesA => Some 10%nat | _ => None end);
     Store.o_exitMultiples := None;
     Store.o_feeAdjustments :=
       Some {| p_managementFeeRate := Some 0.025; p_managementFeeBasis := None;
               p_carryRate := None; p_hurdleRate := None; p_catchUp := None;
               p_catchUpRate := None; p_gpCommitment := None;
               p_organizationalExpenses := None; p_fundExpenses := None;
               p_annualExpensesCap := None |};
     Store.o_timingAdjustments :=
       Some {| deploymentAcceleration := Some 0.5; exitAcceleration := None |} |}.

(** Two runs of [Math.random]: one that always draws 0 and one that
    always draws 1/2. *)
Definition allZero : Mock.Rng := {| Mock.draws := fun _ => 0; Mock.used := 0 |}.
(** A run that draws 0 forty times and 1/2 from then on. *)
Definition zeroThenHalf : Mock.Rng :=
  {| Mock.draws := fun n => if (n <? 40)%nat then 0 else 1 # 2;
     Mock.used := 0 |}.
Definition allHalf : Mock.Rng := {| Mock.draws := fun _ => 1 # 2; Mock.used := 0 |}.

End Samples.

(* ===================================================================== *)
(** ** Vocabulary of the properties                                       *)
(* ===================================================================== *)

(** The list [l] holds a finding with code [c] that satisfies [P]. *)
Definition emits (c : string) (P : ValidationError -> Prop)
    (l : list ValidationError) : Prop :=
  exists e, In e l /\ ve_code e = c /\ P e.

(** A progress callback, if one is given, returns normally. *)
Definition returnsNormally {C} (onProgress : option (Q -> M C unit)) : Prop :=
  forall callback, onProgress = Some callback ->
  forall pct w, exists w', callback pct w = (Returned tt, w').

(** [r] is the entry the scenario loop pushes for scenario [s]: the forecast
    when the model returns one, and otherwise the placeholder together with
    the message of what was thrown. *)
Definition resultFor (env : Env) (base : EnhancedFundInputs)
    (s : ScenarioDefinition) (r : ScenarioResult) : Prop :=
  scenarioId r = sd_id s
  /\ definition r = s
  /\ match buildEnhancedFundForecast env
            (EnhancedBatchRunner.applyScenarioOverrides base s) with
     | Returned forecast => result r = forecast /\ sr_warnings r = []
     | Threw e =>
         (exists d1 d2, result r = EnhancedBatchRunner.errorResult d1 d2 e)
         /\ sr_warnings r = [messageOr "Calculation failed" e]
     end.

(** [s.isBaseline] as a condition. *)
Definition flaggedBaseline (s : ScenarioDefinition) : bool :=
  match isBaseline s with Some b => b | None => false end.




(** The percentage reported after [k] of [n] scenarios. *)
Definition percentAfter (n k : nat) : Q := Js.ofNat k / Js.ofNat n * 100.

(** *** Validation *)

(** The findings of the first block of [validateFundInputs], on fund size. *)
Definition fundSizeFindings (inputs : EnhancedFundInputs) : list ValidationError :=
  if negb (Js.truthy (fundSize inputs)) || Js.leb (fundSize inputs) 0 then
    [ValidationService.err "fundSize" "Fund size must be positive"
       "INVALID_FUND_SIZE" (Some (fundSize inputs)) None]
  else if Js.ltb (fundSize inputs) 10_000_000 then
    [ValidationService.err "fundSize"
       "Fund size should be at least $10M for institutional viability"
       "FUND_SIZE_TOO_SMALL" (Some (fundSize inputs))
       (Some "Consider increasing fund size to at least $10M")]
  else if Js.gtb (fundSize inputs) 10_000_000_000 then
    [ValidationService.err "fundSize" "Fund size exceeds $10B maximum"
       "FUND_SIZE_TOO_LARGE" (Some (fundSize inputs)) None]
  else [].

(** The bounds [validateStageStrategy] checks. *)
Definition strategyInBounds (s : StageStrategy) : Prop :=
  (0 <= allocationPct s /\ allocationPct s <= 1)
  /\ (0 < checkCount s /\ checkCount s <= 100)
  /\ 0 < avgInitialCheck s
  /\ (0 <= ownership s /\ ownership s <= 0.5)
  /\ (0 <= reserveRatio s /\ reserveRatio s <= 3).

(** The bounds [validateFeeProfile] checks. *)
Definition feesInBounds (fp : FeeProfile) : Prop :=
  (0 <= managementFeeRate fp /\ managementFeeRate fp <= 0.05)
  /\ (0 <= carryRate fp /\ carryRate fp <= 0.30)
  /\ (0 <= hurdleRate fp /\ hurdleRate fp <= 0.15)
  /\ (0 <= gpCommitment fp /\ gpCommitment fp <= 0.10).

(** The first [n] of the numbers [xs] added up in double arithmetic from
    the left, starting from 0: [((0 + x1) + x2) + ... + xn], every [+]
    rounded to the nearest double. *)
Fixpoint addedUp (xs : list Q) (n : nat) : float :=
  match n with
  | O => 0%float
  | S k => (addedUp xs k + Js.toDouble (nth k xs 0%Q))%float
  end.

(** All of [xs] added up so. *)
Definition doubleSum (xs : list Q) : float := addedUp xs (List.length xs).

(** More sample data: a model that always fails. *)
Module MoreSamples.

Definition failure : Thrown := ErrorObject "CalculationError" "no convergence".

Definition failingEnv : Env :=
  {| buildEnhancedFundForecast := fun _ => Threw failure;
     performanceNow := fun n => Js.ofNat n;
     dateNow := fun _ => Samples.now0;
     hardwareConcurrency := Some 8 |}.

(** The default fund with two stage strategies, allocated [a] and [b]. *)
Definition allocated (a b : Q) : EnhancedFundInputs :=
  EnhancedBatchRunner.setStageStrategies
    [ FundData.strategy Seed a 25 1_500_000 0.10 0.8 2.5 8 30;
      FundData.strategy SeriesA b 15 3_000_000 0.08 0.5 2 5 15 ]
    Samples.defaults.

(** A Pre-Seed row whose five rates are 61, 5, 19, 6 and 9 per cent. *)
Definition fullRow : StageObject Q :=
  [ (Seed, 0.61); (SeriesA, 0.05); (SeriesB, 0.19); (SeriesC, 0.06);
    (SeriesDPlus, 0.09) ].

(** The default fund with the graduation matrix [m]. *)
Definition graduating (m : GraduationMatrix) : EnhancedFundInputs :=
  {| fundName := fundName Samples.defaults;
     fundSize := fundSize Samples.defaults;
     currency := currency Samples.defaults;
     vintage := vintage Samples.defaults;
     feeProfile := feeProfile Samples.defaults;
     stageStrategies := stageStrategies Samples.defaults;
     graduationMatrix := m;
     exitProbabilityMatrix := exitProbabilityMatrix Samples.defaults;
     exitMultiples := exitMultiples Samples.defaults;
     investmentPeriodQuarters := investmentPeriodQuarters Samples.defaults;
     fundLifeQuarters := fundLifeQuarters Samples.defaults;
     extensionQuarters := extensionQuarters Samples.defaults;
     recycling := recycling Samples.defaults;
     waterfallType := waterfallType Samples.defaults;
     lpClawback := lpClawback Samples.defaults;
     keyPersonProvisions := keyPersonProvisions Samples.defaults |}.

End MoreSamples.

(** *** Batch runs *)


(** A progress callback that throws [e] whenever it is called. *)
Definition throwingCallback {C} (e : Thrown) : Q -> M C unit :=
  fun _ => throw e.

(** The deployment acceleration a scenario asks for; 0 when it asks for none. *)
Definition accelerationOf (scenario : ScenarioDefinition) : Q :=
  match o_timingAdjustments (parameterOverrides scenario) with
  | Some timing =>
      match deploymentAcceleration timing with
      | Some d => d
      | None => 0
      end
  | None => 0
  end.

(* ===================================================================== *)
(** ** The prototype's FundSetup component                                *)
(* ===================================================================== *)

Module FundSetup.

(** [stageStrategies.reduce((sum, s) => sum + s.allocationPct, 0)] *)
Definition totalAllocation (stageStrategies : list Mock.StageStrategy) : float :=
  fold_left (fun sum s => PrimFloat.add sum (Js.toDouble (Mock.allocationPct s)))
    stageStrategies PrimFloat.zero.

Definition isError (e : Mock.ValidationError) : bool :=
  match Mock.severity e with
  | Mock.SeverityError => true
  | Mock.SeverityWarning => false
  end.

(** [validationErrors.filter(e => e.severity === 'error').length > 0]; the
    Calculate button is disabled while it holds. *)
Definition hasErrors (validationErrors : list Mock.ValidationError) : bool :=
  (0 <? List.length (filter isError validationErrors))%nat.

End FundSetup.

(* ===================================================================== *)
(** ** AnalyticsService (src/services/analytics.service.ts)               *)
(* ===================================================================== *)

(** Division and the operators the analytics use.  A quotient with divisor 0
    is NaN or an infinity, which no rational stands for: [Num.div] gives
    [None] for it, and a value computed from [None] is [None]. *)
Module Num.

(** [a / b] *)
Definition div (a b : Q) : option Q :=
  if Qeq_bool b 0 then None else Some (a / b).

(** [a >= b] *)
Definition geb (a b : Q) : bool := Js.leb b a.

(** [x || 0] for an optional number. *)
Definition orZero (x : option Q) : Q :=
  match x with
  | Some v => if Js.truthy v then v else 0
  | None => 0
  end.

(** [n || 1] for a length. *)
Definition orOne (n : nat) : Q :=
  if Js.truthy (Js.ofNat n) then Js.ofNat n else 1.

(** [Math.pow(x, 2)] *)
Definition sqr (x : Q) : Q := x * x.

(** One turn of [xs.sort(cmp)]: [x], which stood before every element of
    [sorted], goes in front of the first element it does not have to
    follow. *)
Fixpoint insertBy {A} (cmp : A -> A -> Q) (x : A) (sorted : list A) : list A :=
  match sorted with
  | [] => [x]
  | y :: rest =>
      if Js.leb (cmp x y) 0 then x :: sorted else y :: insertBy cmp x rest
  end.

(** [xs.sort(cmp)], which is a stable sort. *)
Definition sort {A} (cmp : A -> A -> Q) (xs : list A) : list A :=
  fold_right (insertBy cmp) [] xs.

(** A [Map<number, number>] in insertion order. *)
Definition NumberMap := list (Q * Q).

Definition get (m : NumberMap) (k : Q) : option Q :=
  match find (fun e => Qeq_bool (fst e) k) m with
  | Some e => Some (snd e)
  | None => None
  end.

Fixpoint set (m : NumberMap) (k v : Q) : NumberMap :=
  match m with
  | [] => [(k, v)]
  | e :: rest =>
      if Qeq_bool (fst e) k then (fst e, v) :: rest else e :: set rest k v
  end.

End Num.

(** The values a multiple of [calculateStageExitAnalysis] can take: it is a
    quotient by [c.totalInvested], which can be 0. *)
Module Quotient.

Inductive t := Finite (q : Q) | PlusInfinity | MinusInfinity | NotANumber.

(** [a / b] *)
Definition div (a b : Q) : t :=
  if Qeq_bool b 0 then
    if Js.gtb a 0 then PlusInfinity
    else if Js.ltb a 0 then MinusInfinity
    else NotANumber
  else Finite (a / b).

(** [m > 0] *)
Definition positive (m : t) : bool :=
  match m with
  | Finite q => Js.gtb q 0
  | PlusInfinity => true
  | MinusInfinity | NotANumber => false
  end.

(** The sign of [a - b] as a comparator result; a NaN difference counts
    as 0. *)
Definition compare (a b : t) : Q :=
  match a, b with
  | Finite x, Finite y => x - y
  | NotANumber, _ | _, NotANumber => 0
  | PlusInfinity, PlusInfinity | MinusInfinity, MinusInfinity => 0
  | PlusInfinity, _ | _, MinusInfinity => 1
  | MinusInfinity, _ | _, PlusInfinity => -1
  end.

(** [a + b] *)
Definition add (a b : t) : t :=
  match a, b with
  | Finite x, Finite y => Finite (x + y)
  | NotANumber, _ | _, NotANumber => NotANumber
  | PlusInfinity, MinusInfinity | MinusInfinity, PlusInfinity => NotANumber
  | PlusInfinity, _ | _, PlusInfinity => PlusInfinity
  | MinusInfinity, _ | _, MinusInfinity => MinusInfinity
  end.

(** [a / n] for a length [n > 0]. *)
Definition over (a : t) (n : nat) : t :=
  match a with
  | Finite x => Finite (x / Js.ofNat n)
  | other => other
  end.

End Quotient.

Module AnalyticsService.

Definition stages : list FundStage :=
  [PreSeed; Seed; SeriesA; SeriesB; SeriesC; SeriesDPlus].

Definition isActive (c : PortfolioCompany) : bool :=
  match pc_status c with Active => true | _ => false end.

Definition isExited (c : PortfolioCompany) : bool :=
  match pc_status c with Exited => true | _ => false end.

(** *** calculateReserveAnalysis *)

Record StageReserves := {
  companiesNeedingReserves : nat;
  estimatedReserveNeed : Q;
  allocatedReserves : Q;
  sufficiencyRatio : Q
}.

Inductive Level := High | Medium | Low.

Record ReserveOpportunity := {
  companyId : string;
  companyName : string;
  currentStage : FundStage;
  recommendedReserve : Q;
  expectedReturn : Q;
  priority : Level;
  rationale : string
}.

Inductive ReserveRiskType := InsufficientReserves | OverReserved | Concentration.

Record ReserveRisk := {
  rr_type : ReserveRiskType;
  rr_severity : Level;
  rr_description : string;
  affectedCompanies : list string;
  recommendedAction : string
}.

Record ReserveAnalysis := {
  totalReservesNeeded : Q;
  totalReservesAllocated : Q;
  reserveSufficiencyRatio : Q;
  ra_byStage : StageObject StageReserves;
  opportunities : list ReserveOpportunity;
  risks : list ReserveRisk
}.

(** The body of [stages.forEach] in [calculateReserveAnalysis]. *)
Definition stageReserves (activeCompanies : list PortfolioCompany)
    (stage : FundStage) : StageReserves :=
  let companiesInStage :=
    filter (fun c => FundStage_eqb (pc_currentStage c) stage) activeCompanies in
  let avgInvestment :=
    fold_left (fun sum c => sum + pc_totalInvested c) companiesInStage 0
    / Num.orOne (List.length companiesInStage) in
  {| companiesNeedingReserves := List.length companiesInStage;
     estimatedReserveNeed :=
       avgInvestment * 0.5 * Js.ofNat (List.length companiesInStage);
     allocatedReserves := 0;
     sufficiencyRatio := 0 |}.

Definition opportunityFor (company : PortfolioCompany) : ReserveOpportunity :=
  {| companyId := pc_id company;
     companyName := pc_name company;
     currentStage := pc_currentStage company;
     recommendedReserve := pc_totalInvested company * 0.5;
     expectedReturn := 3.0;
     priority := Medium;
     rationale :=
       "Follow-on opportunity for " ++ stageName (pc_currentStage company)
         ++ " company" |}.

Definition calculateReserveAnalysis (result : ForecastResult) : ReserveAnalysis :=
  let activeCompanies := filter isActive (portfolio result) in
  (* Calculate reserve needs by stage *)
  let byStage :=
    map (fun stage => (stage, stageReserves activeCompanies stage)) stages in
  (* Calculate opportunities *)
  let opportunities :=
    firstn 10
      (Num.sort (fun a b => expectedReturn b - expectedReturn a)
         (map opportunityFor
            (filter (fun c => negb (FundStage_eqb (pc_currentStage c) SeriesDPlus))
               activeCompanies))) in
  let totalReservesNeeded :=
    fold_left (fun sum stage => sum + estimatedReserveNeed stage)
      (map snd byStage) 0 in
  {| totalReservesNeeded := totalReservesNeeded;
     totalReservesAllocated := 0;
     reserveSufficiencyRatio := 0;
     ra_byStage := byStage;
     opportunities := opportunities;
     risks := [] |}.

(** *** calculatePacingAnalysis *)

Record QuarterlyDeployment := {
  qd_quarter : Q;
  planned : Q;
  actual : Q;
  variance : Q;
  cumulativeVariance : Q
}.

Inductive RecommendationType := SpeedUp | SlowDown | Maintain.

Record PacingRecommendation := {
  pr_type : RecommendationType;
  urgency : Level;
  pr_description : string;
  suggestedActions : list string
}.

(** [deploymentRate] is a quotient whose divisor can be 0. *)
Record PacingAnalysis := {
  deploymentRate : option Q;
  projectedDeploymentCompletion : Q;
  pacingScore : Q;
  isOnTrack : bool;
  quarterlyDeployment : list QuarterlyDeployment;
  recommendations : list PacingRecommendation
}.

(** The two nested [forEach] loops that fill [deploymentByQuarter]. *)
Definition recordInvestment (m : Num.NumberMap) (inv : Investment)
  : Num.NumberMap :=
  let current := Num.orZero (Num.get m (inv_quarter inv)) in
  Num.set m (inv_quarter inv) (current + inv_amount inv).

Definition deploymentByQuarter (portfolio : list PortfolioCompany)
  : Num.NumberMap :=
  fold_left (fun m company => fold_left recordInvestment (pc_investments company) m)
    portfolio [].

(** [Array.from({ length }, (_, i) => ...)] from index [i] on, with the
    running [cumulativeVariance]. *)
Fixpoint deploymentRows (m : Num.NumberMap) (targetQuarterlyDeployment : Q)
    (i length : nat) (cumulativeVariance : Q) : list QuarterlyDeployment :=
  match length with
  | O => []
  | S length' =>
      let actual := Num.orZero (Num.get m (Js.ofNat i)) in
      let planned := targetQuarterlyDeployment in
      let variance := actual - planned in
      let cumulativeVariance := cumulativeVariance + variance in
      {| qd_quarter := Js.ofNat i;
         planned := planned;
         actual := actual;
         variance := variance;
         cumulativeVariance := cumulativeVariance |}
      :: deploymentRows m targetQuarterlyDeployment (S i) length'
           cumulativeVariance
  end.

Definition calculatePacingAnalysis (result : ForecastResult) : PacingAnalysis :=
  let deploymentByQuarter := deploymentByQuarter (portfolio result) in
  (* Calculate pacing metrics *)
  let totalDeployed := totalInvested result in
  let investmentPeriod := 20%nat in
  let targetQuarterlyDeployment :=
    totalInvested result / Js.ofNat investmentPeriod in
  let quarterlyDeployment :=
    deploymentRows deploymentByQuarter targetQuarterlyDeployment
      0 investmentPeriod 0 in
  let deploymentRate := Num.div totalDeployed (totalInvested result * 1.1) in
  let isOnTrack :=
    match deploymentRate with
    | Some rate => Js.ltb (Js.abs (rate - 0.5)) 0.1
    | None => false
    end in
  {| deploymentRate := deploymentRate;
     projectedDeploymentCompletion := Js.ofNat investmentPeriod;
     pacingScore := if isOnTrack then 80 else 60;
     isOnTrack := isOnTrack;
     quarterlyDeployment := quarterlyDeployment;
     recommendations := [] |}.

(** *** calculateConcentrationAnalysis *)

(** [herfindahlIndex] and [diversificationScore] are computed from quotients
    by [totalNAV], which can be 0. *)
Record ConcentrationAnalysis := {
  top5ShareOfNAV : Q;
  top10ShareOfNAV : Q;
  herfindahlIndex : option Q;
  diversificationScore : option Q
}.

Definition valuation (c : PortfolioCompany) : Q :=
  Num.orZero (pc_currentValuation c).

Definition sumValuations (l : list PortfolioCompany) : Q :=
  fold_left (fun sum c => sum + valuation c) l 0.

Definition calculateConcentrationAnalysis (result : ForecastResult)
  : ConcentrationAnalysis :=
  let activeCompanies :=
    Num.sort (fun a b => valuation b - valuation a)
      (filter isActive (portfolio result)) in
  let totalNAV := sumValuations activeCompanies in
  let top5NAV := sumValuations (firstn 5 activeCompanies) in
  let top10NAV := sumValuations (firstn 10 activeCompanies) in
  (* Calculate Herfindahl Index *)
  let herfindahlIndex :=
    fold_left
      (fun sum c =>
         match sum, Num.div (valuation c) totalNAV with
         | Some sum, Some share => Some (sum + Num.sqr share)
         | _, _ => None
         end)
      activeCompanies (Some 0) in
  {| top5ShareOfNAV :=
       if Js.gtb totalNAV 0 then top5NAV / totalNAV else 0;
     top10ShareOfNAV :=
       if Js.gtb totalNAV 0 then top10NAV / totalNAV else 0;
     herfindahlIndex := herfindahlIndex;
     diversificationScore :=
       match herfindahlIndex with
       | Some h => Some (1 - h)
       | None => None
       end |}.

(** *** calculateVintageComparison *)

Inductive Benchmark := TopQuartile | Median | BottomQuartile.

Record VintageComparison := {
  currentFundPercentile : Q;
  benchmark : Benchmark;
  versusMarket : Q
}.

Record BenchmarkLevel := { moic : Q; irr : Q }.

Definition topQuartile : BenchmarkLevel := {| moic := 3.0; irr := 0.25 |}.
Definition median : BenchmarkLevel := {| moic := 2.0; irr := 0.15 |}.
Definition bottomQuartile : BenchmarkLevel := {| moic := 1.3; irr := 0.08 |}.

Definition calculateVintageComparison (result : ForecastResult)
  : VintageComparison :=
  let (benchmark, percentile) :=
    if Num.geb (netMoic result) (moic topQuartile) then
      (TopQuartile,
       75 + (netMoic result - moic topQuartile)
            / (moic topQuartile * 0.5) * 25)
    else if Num.geb (netMoic result) (moic median) then
      (Median,
       50 + (netMoic result - moic median)
            / (moic topQuartile - moic median) * 25)
    else
      (BottomQuartile,
       (netMoic result - moic bottomQuartile)
       / (moic median - moic bottomQuartile) * 50) in
  let versusMarket := (netIrr result - irr median) * 10000 in
  {| currentFundPercentile := Js.max 0 (Js.min 100 percentile);
     benchmark := benchmark;
     versusMarket := versusMarket |}.

(** *** calculateStageExitAnalysis *)

Record StageExits := {
  se_totalInvested : Q;
  totalExited : Q;
  averageMultiple : Quotient.t;
  medianMultiple : Quotient.t;
  successRate : Q;
  averageHoldPeriod : Q
}.

Record Performance := {
  invested : Q; realized : Q; unrealized : Q; multiple : Q; pf_irr : Q
}.

Record VintageRow := { year : Q; performance : Performance }.

Record StageExitAnalysis := {
  se_byStage : StageObject StageExits;
  byVintage : list VintageRow
}.

(** The body of [stages.forEach] in [calculateStageExitAnalysis]. *)
Definition stageExits (portfolio : list PortfolioCompany) (stage : FundStage)
  : StageExits :=
  let companiesInStage :=
    filter (fun c => FundStage_eqb (pc_entryStage c) stage) portfolio in
  let exitedCompanies := filter isExited companiesInStage in
  let totalInvested :=
    fold_left (fun sum c => sum + pc_totalInvested c) companiesInStage 0 in
  let totalExited :=
    fold_left (fun sum c => sum + Num.orZero (pc_exitValue c)) exitedCompanies 0 in
  let multiples :=
    Num.sort Quotient.compare
      (filter Quotient.positive
         (map (fun c => Quotient.div (Num.orZero (pc_exitValue c))
                          (pc_totalInvested c))
            exitedCompanies)) in
  {| se_totalInvested := totalInvested;
     totalExited := totalExited;
     averageMultiple :=
       if (0 <? List.length multiples)%nat then
         Quotient.over
           (fold_left Quotient.add multiples (Quotient.Finite 0))
           (List.length multiples)
       else Quotient.Finite 0;
     medianMultiple :=
       if (0 <? List.length multiples)%nat then
         nth (List.length multiples / 2) multiples Quotient.NotANumber
       else Quotient.Finite 0;
     successRate :=
       if (0 <? List.length companiesInStage)%nat then
         Js.ofNat (List.length exitedCompanies)
         / Js.ofNat (List.length companiesInStage)
       else 0;
     averageHoldPeriod :=
       if (0 <? List.length exitedCompanies)%nat then
         fold_left (fun sum c => sum + Num.orZero (pc_exitQuarter c))
           exitedCompanies 0
         / Js.ofNat (List.length exitedCompanies) / 4
       else 0 |}.

Definition vintageRow (result : ForecastResult) (currentYear : Q) (i : nat)
  : VintageRow :=
  {| year := currentYear - 4 + Js.ofNat i;
     performance :=
       {| invested := totalInvested result / 5;
          realized := totalRealized result / 5;
          unrealized := totalUnrealized result / 5;
          multiple := grossMoic result;
          pf_irr := grossIrr result |} |}.

Definition calculateStageExitAnalysis {C} (env : Env) (result : ForecastResult)
  : M C StageExitAnalysis :=
  let byStage :=
    map (fun stage => (stage, stageExits (portfolio result) stage)) stages in
  (* Simple vintage analysis *)
  (now <- newDate env ;;
   let currentYear := getFullYear now in
   let byVintage := map (vintageRow result currentYear) (seq 0 5) in
   ret {| se_byStage := byStage; byVintage := byVintage |})%eff.

(** *** calculateEnhancedAnalytics *)

Record EnhancedAnalytics := {
  reserveAnalysis : ReserveAnalysis;
  pacingAnalysis : PacingAnalysis;
  stageExitAnalysis : StageExitAnalysis;
  concentrationAnalysis : ConcentrationAnalysis;
  vintageComparison : VintageComparison;
  lastUpdated : Date
}.

(** [AnalyticsService.calculateEnhancedAnalytics(result)]; the three calls
    inside [Promise.all] are made in the order written. *)
Definition calculateEnhancedAnalytics {C} (env : Env) (result : ForecastResult)
  : M C EnhancedAnalytics :=
  (let reserveAnalysis := calculateReserveAnalysis result in
   let pacingAnalysis := calculatePacingAnalysis result in
   stageExitAnalysis <- calculateStageExitAnalysis env result ;;
   let concentrationAnalysis := calculateConcentrationAnalysis result in
   let vintageComparison := calculateVintageComparison result in
   now <- newDate env ;;
   ret {| reserveAnalysis := reserveAnalysis;
          pacingAnalysis := pacingAnalysis;
          stageExitAnalysis := stageExitAnalysis;
          concentrationAnalysis := concentrationAnalysis;
          vintageComparison := vintageComparison;
          lastUpdated := now |})%eff.

End AnalyticsService.

(** The remaining callbacks of [FundCalculationProvider]
    (src/context/fund-calculation.context.tsx). *)
Module FundCalculationProvider.

Definition State := FundCalculation.CalculationState AnalyticsService.EnhancedAnalytics.

(** [calculateAnalytics(result)] *)
Definition calculateAnalytics (env : Env) (result : ForecastResult)
  : M State AnalyticsService.EnhancedAnalytics :=
  (analytics <- AnalyticsService.calculateEnhancedAnalytics env result ;;
   setState (fun prev : State =>
     {| FundCalculation.forecastResult := FundCalculation.forecastResult prev;
        FundCalculation.enhancedAnalytics := Some analytics;
        FundCalculation.isCalculating := FundCalculation.isCalculating prev;
        FundCalculation.lastCalculatedAt := FundCalculation.lastCalculatedAt prev;
        FundCalculation.calculationProgress :=
          FundCalculation.calculationProgress prev;
        FundCalculation.validationErrors :=
          FundCalculation.validationErrors prev |}) ;;;
   ret analytics)%eff.

(** [clearResults()] *)
Definition clearResults : M State unit :=
  setState (fun _ : State => FundCalculation.initialState AnalyticsService.EnhancedAnalytics).

End FundCalculationProvider.

(** Sample portfolios for the analytics. *)
Module AnalyticsSamples.

Definition investment (id : string) (s : FundStage) (amount quarter : Q)
  : Investment :=
  {| inv_id := id; inv_stage := s; inv_amount := amount;
     inv_quarter := quarter; inv_date := Samples.now0;
     inv_ownership := 0.1; inv_valuation := amount * 10;
     inv_isFollowOn := false; inv_round := stageName s |}.

Definition company (id : string) (entry current : FundStage)
    (status : CompanyStatus) (investments : list Investment) (invested : Q)
    (valuation exitValue exitQuarter : option Q) : PortfolioCompany :=
  {| pc_id := id; pc_name := id;
     pc_entryStage := entry; pc_currentStage := current;
     pc_investments := investments; pc_totalInvested := invested;
     pc_currentValuation := valuation; pc_exitValue := exitValue;
     pc_exitQuarter := exitQuarter; pc_exitDate := None;
     pc_status := status;
     pc_sector := None; pc_geography := None; pc_foundedYear := None;
     pc_lastRoundDate := None; pc_lastRoundValuation := None |}.

Definition alpha : PortfolioCompany :=
  company "alpha" Seed SeriesA Active
    [investment "a1" Seed 1_000_000 0; investment "a2" SeriesA 1_000_000 2]
    2_000_000 (Some 6_000_000) None None.

Definition beta : PortfolioCompany :=
  company "beta" SeriesC SeriesDPlus Active
    [investment "b1" SeriesC 5_000_000 2] 5_000_000 (Some 4_000_000) None None.

Definition gamma : PortfolioCompany :=
  company "gamma" Seed SeriesB Exited
    [investment "c1" Seed 1_000_000 1] 1_000_000 None (Some 3_000_000) (Some 12).

Definition delta : PortfolioCompany :=
  company "delta" PreSeed PreSeed WrittenOff
    [investment "d1" PreSeed 500_000 25] 500_000 None None None.

(** An active company that has not been valued. *)
Definition epsilon : PortfolioCompany :=
  company "epsilon" Seed Seed Active
    [investment "e1" Seed 750_000 3] 750_000 None None None.

Definition withPortfolio (companies : list PortfolioCompany)
    (moic : Q) : ForecastResult :=
  let flat := Samples.flatForecast Samples.defaults in
  {| calculationId := calculationId flat;
     calculationDate := calculationDate flat;
     fr_fundName := fr_fundName flat;
     fr_vintage := fr_vintage flat;
     timeline := timeline flat;
     portfolio := companies;
     companyResults := companyResults flat;
     waterfallSummary := waterfallSummary flat;
     totalInvested := 8_500_000; totalRealized := 3_000_000;
     totalUnrealized := 10_000_000; totalValue := 13_000_000;
     totalManagementFees := totalManagementFees flat;
     totalCarriedInterest := totalCarriedInterest flat;
     totalOrganizationalExpenses := totalOrganizationalExpenses flat;
     totalFundExpenses := totalFundExpenses flat;
     grossMoic := grossMoic flat; netMoic := moic;
     grossIrr := grossIrr flat; netIrr := netIrr flat;
     tvpi := tvpi flat; dpi := dpi flat; rvpi := rvpi flat;
     portfolioComposition := portfolioComposition flat;
     riskMetrics := riskMetrics flat;
     warnings := warnings flat;
     assumptions := assumptions flat |}.

Definition forecast0 : ForecastResult :=
  withPortfolio [alpha; beta; gamma; delta] 2.4.

Definition unvalued : ForecastResult := withPortfolio [epsilon; gamma] 1.

End AnalyticsSamples.

(** *** Analytics *)

(** The sum of [f] over a list. *)
Definition total {A} (f : A -> Q) (l : list A) : Q :=
  fold_right (fun a s => f a + s) 0 l.



(* ===================================================================== *)
(** ** FundDataProvider: the reducer (src/context/fund-data.context.tsx)  *)
(* ===================================================================== *)

Module FundDataProvider.

Import FundData.

(** An optional key of a [Partial<...>] object: the object lacks the key,
    has it with the value [undefined], or has it with a value. *)
Inductive Key (A : Type) : Type :=
| Absent
| Undefined
| Holds (v : A).

Arguments Absent {A}.
Arguments Undefined {A}.
Arguments Holds {A} v.

(** [Partial<StageStrategy>] *)
Record PartialStageStrategy := {
  ps_stage : Key FundStage;
  ps_allocationPct : Key Q;
  ps_checkCount : Key Q;
  ps_avgInitialCheck : Key Q;
  ps_ownership : Key Q;
  ps_reserveRatio : Key Q;
  ps_targetReturns : Key TargetReturns
}.

Inductive FundDataAction :=
| SET_FUND_NAME (payload : string)
| SET_FUND_SIZE (payload : Q)
| SET_VINTAGE (payload : Q)
| UPDATE_STAGE_STRATEGY (index : Q) (strategy : PartialStageStrategy)
| ADD_STAGE_STRATEGY (payload : StageStrategy)
| REMOVE_STAGE_STRATEGY (payload : Q)
| UPDATE_GRADUATION_RATE (from to : FundStage) (rate : Q)
| UPDATE_FEE_PROFILE (payload : PartialFeeProfile)
| SET_DIRTY (payload : bool)
| RESET_TO_DEFAULTS
| LOAD_STATE (payload : FundDataState).

(** [{ ...state, isDirty }] and the like. *)
Definition setDirty (v : bool) (s : FundDataState) : FundDataState :=
  {| fd_fundName := fd_fundName s; fd_fundSize := fd_fundSize s;
     fd_vintage := fd_vintage s; fd_currency := fd_currency s;
     fd_stageStrategies := fd_stageStrategies s;
     fd_graduationMatrix := fd_graduationMatrix s;
     fd_exitProbabilityMatrix := fd_exitProbabilityMatrix s;
     fd_feeProfile := fd_feeProfile s;
     fd_investmentPeriodQuarters := fd_investmentPeriodQuarters s;
     fd_fundLifeQuarters := fd_fundLifeQuarters s;
     fd_waterfallType := fd_waterfallType s;
     fd_recyclingEnabled := fd_recyclingEnabled s;
     fd_recyclingCap := fd_recyclingCap s;
     fd_isDirty := v; fd_lastSavedAt := fd_lastSavedAt s |}.

Definition setFundName (v : string) (s : FundDataState) : FundDataState :=
  {| fd_fundName := v; fd_fundSize := fd_fundSize s;
     fd_vintage := fd_vintage s; fd_currency := fd_currency s;
     fd_stageStrategies := fd_stageStrategies s;
     fd_graduationMatrix := fd_graduationMatrix s;
     fd_exitProbabilityMatrix := fd_exitProbabilityMatrix s;
     fd_feeProfile := fd_feeProfile s;
     fd_investmentPeriodQuarters := fd_investmentPeriodQuarters s;
     fd_fundLifeQuarters := fd_fundLifeQuarters s;
     fd_waterfallType := fd_waterfallType s;
     fd_recyclingEnabled := fd_recyclingEnabled s;
     fd_recyclingCap := fd_recyclingCap s;
     fd_isDirty := fd_isDirty s; fd_lastSavedAt := fd_lastSavedAt s |}.

Definition setFundSize (v : Q) (s : FundDataState) : FundDataState :=
  {| fd_fundName := fd_fundName s; fd_fundSize := v;
     fd_vintage := fd_vintage s; fd_currency := fd_currency s;
     fd_stageStrategies := fd_stageStrategies s;
     fd_graduationMatrix := fd_graduationMatrix s;
     fd_exitProbabilityMatrix := fd_exitProbabilityMatrix s;
     fd_feeProfile := fd_feeProfile s;
     fd_investmentPeriodQuarters := fd_investmentPeriodQuarters s;
     fd_fundLifeQuarters := fd_fundLifeQuarters s;
     fd_waterfallType := fd_waterfallType s;
     fd_recyclingEnabled := fd_recyclingEnabled s;
     fd_recyclingCap := fd_recyclingCap s;
     fd_isDirty := fd_isDirty s; fd_lastSavedAt := fd_lastSavedAt s |}.

Definition setVintage (v : Q) (s : FundDataState) : FundDataState :=
  {| fd_fundName := fd_fundName s; fd_fundSize := fd_fundSize s;
     fd_vintage := v; fd_currency := fd_currency s;
     fd_stageStrategies := fd_stageStrategies s;
     fd_graduationMatrix := fd_graduationMatrix s;
     fd_exitProbabilityMatrix := fd_exitProbabilityMatrix s;
     fd_feeProfile := fd_feeProfile s;
     fd_investmentPeriodQuarters := fd_investmentPeriodQuarters s;
     fd_fundLifeQuarters := fd_fundLifeQuarters s;
     fd_waterfallType := fd_waterfallType s;
     fd_recyclingEnabled := fd_recyclingEnabled s;
     fd_recyclingCap := fd_recyclingCap s;
     fd_isDirty := fd_isDirty s; fd_lastSavedAt := fd_lastSavedAt s |}.

Definition setStageStrategies (v : list StageStrategy) (s : FundDataState)
  : FundDataState :=
  {| fd_fundName := fd_fundName s; fd_fundSize := fd_fundSize s;
     fd_vintage := fd_vintage s; fd_currency := fd_currency s;
     fd_stageStrategies := v;
     fd_graduationMatrix := fd_graduationMatrix s;
     fd_exitProbabilityMatrix := fd_exitProbabilityMatrix s;
     fd_feeProfile := fd_feeProfile s;
     fd_investmentPeriodQuarters := fd_investmentPeriodQuarters s;
     fd_fundLifeQuarters := fd_fundLifeQuarters s;
     fd_waterfallType := fd_waterfallType s;
     fd_recyclingEnabled := fd_recyclingEnabled s;
     fd_recyclingCap := fd_recyclingCap s;
     fd_isDirty := fd_isDirty s; fd_lastSavedAt := fd_lastSavedAt s |}.

Definition setGraduationMatrix (v : GraduationMatrix) (s : FundDataState)
  : FundDataState :=
  {| fd_fundName := fd_fundName s; fd_fundSize := fd_fundSize s;
     fd_vintage := fd_vintage s; fd_currency := fd_currency s;
     fd_stageStrategies := fd_stageStrategies s;
     fd_graduationMatrix := v;
     fd_exitProbabilityMatrix := fd_exitProbabilityMatrix s;
     fd_feeProfile := fd_feeProfile s;
     fd_investmentPeriodQuarters := fd_investmentPeriodQuarters s;
     fd_fundLifeQuarters := fd_fundLifeQuarters s;
     fd_waterfallType := fd_waterfallType s;
     fd_recyclingEnabled := fd_recyclingEnabled s;
     fd_recyclingCap := fd_recyclingCap s;
     fd_isDirty := fd_isDirty s; fd_lastSavedAt := fd_lastSavedAt s |}.

Definition setFeeProfile (v : FeeProfile) (s : FundDataState) : FundDataState :=
  {| fd_fundName := fd_fundName s; fd_fundSize := fd_fundSize s;
     fd_vintage := fd_vintage s; fd_currency := fd_currency s;
     fd_stageStrategies := fd_stageStrategies s;
     fd_graduationMatrix := fd_graduationMatrix s;
     fd_exitProbabilityMatrix := fd_exitProbabilityMatrix s;
     fd_feeProfile := v;
     fd_investmentPeriodQuarters := fd_investmentPeriodQuarters s;
     fd_fundLifeQuarters := fd_fundLifeQuarters s;
     fd_waterfallType := fd_waterfallType s;
     fd_recyclingEnabled := fd_recyclingEnabled s;
     fd_recyclingCap := fd_recyclingCap s;
     fd_isDirty := fd_isDirty s; fd_lastSavedAt := fd_lastSavedAt s |}.

(** What the spread [{ ...current, ...updates }] leaves under one key,
    [None] for [undefined]: a key of [updates] overwrites, also when it
    holds [undefined]. *)
Definition spread {A} (current : option A) (update : Key A) : option A :=
  match update with
  | Absent => current
  | Undefined => None
  | Holds v => Some v
  end.

(** [{ ...current, ...updates }], where [current] is [undefined] beyond the
    end of the array; the object is a [StageStrategy] only when every key
    comes out with a value. *)
Definition mergeStrategy (current : option StageStrategy)
    (updates : PartialStageStrategy) : option StageStrategy :=
  match spread (option_map stage current) (ps_stage updates),
        spread (option_map allocationPct current) (ps_allocationPct updates),
        spread (option_map checkCount current) (ps_checkCount updates),
        spread (option_map avgInitialCheck current) (ps_avgInitialCheck updates),
        spread (option_map ownership current) (ps_ownership updates),
        spread (option_map reserveRatio current) (ps_reserveRatio updates),
        spread (option_map targetReturns current) (ps_targetReturns updates)
  with
  | Some st, Some al, Some cc, Some ck, Some ow, Some rr, Some tr =>
      Some {| stage := st; allocationPct := al; checkCount := cc;
              avgInitialCheck := ck; ownership := ow; reserveRatio := rr;
              targetReturns := tr |}
  | _, _, _, _, _, _, _ => None
  end.

(** The array index a number names, if it names one: a whole number that is
    not negative. *)
Definition asIndex (x : Q) : option nat :=
  if Qeq_bool (inject_Z (Qfloor x)) x && (0 <=? Qfloor x)%Z
  then Some (Z.to_nat (Qfloor x))
  else None.

(** [xs[i] = v] for [i < xs.length]. *)
Fixpoint replaceAt {A} (i : nat) (v : A) (xs : list A) : list A :=
  match xs, i with
  | [], _ => []
  | _ :: rest, O => v :: rest
  | x :: rest, S i' => x :: replaceAt i' v rest
  end.

(** The [UPDATE_STAGE_STRATEGY] case.  A write at an index inside the array
    replaces the element by the merge; a write at [length] appends it; a
    write beyond it leaves holes, and a merge with a key that is missing or
    [undefined] leaves an element that is not a [StageStrategy]: for these
    the result is [None].  A write at a number that is no index makes a
    property that is not an element, so the strategies stay as they are. *)
Definition updateStageStrategy (strategies : list StageStrategy) (index : Q)
    (updates : PartialStageStrategy) : option (list StageStrategy) :=
  match asIndex index with
  | Some i =>
      match mergeStrategy (nth_error strategies i) updates with
      | Some merged =>
          if (i <? List.length strategies)%nat then
            Some (replaceAt i merged strategies)
          else if (i =? List.length strategies)%nat then
            Some (strategies ++ [merged])%list
          else None
      | None => None
      end
  | None => Some strategies
  end.

(** [strategies.filter((_, i) => i !== payload)], from index [i] on. *)
Fixpoint removeFrom (payload : Q) (i : nat) (strategies : list StageStrategy)
  : list StageStrategy :=
  match strategies with
  | [] => []
  | s :: rest =>
      if negb (Qeq_bool (Js.ofNat i) payload)
      then s :: removeFrom payload (S i) rest
      else removeFrom payload (S i) rest
  end.

(** [o[k]] and [{ ...o, [k]: v }] for an object keyed by stage. *)
Definition getKey {A} (o : StageObject A) (k : FundStage) : option A :=
  match find (fun e => FundStage_eqb (fst e) k) o with
  | Some e => Some (snd e)
  | None => None
  end.

Fixpoint setKey {A} (o : StageObject A) (k : FundStage) (v : A) : StageObject A :=
  match o with
  | [] => [(k, v)]
  | e :: rest =>
      if FundStage_eqb (fst e) k then (fst e, v) :: rest
      else e :: setKey rest k v
  end.

(** [fundDataReducer(state, action)]; [now] is the value [new Date()] has
    when [getDefaultState] runs. *)
Definition fundDataReducer (now : Date) (state : FundDataState)
    (action : FundDataAction) : option FundDataState :=
  match action with
  | SET_FUND_NAME payload => Some (setDirty true (setFundName payload state))
  | SET_FUND_SIZE payload => Some (setDirty true (setFundSize payload state))
  | SET_VINTAGE payload => Some (setDirty true (setVintage payload state))
  | UPDATE_STAGE_STRATEGY index strategy =>
      match updateStageStrategy (fd_stageStrategies state) index strategy with
      | Some newStrategies =>
          Some (setDirty true (setStageStrategies newStrategies state))
      | None => None
      end
  | ADD_STAGE_STRATEGY payload =>
      Some (setDirty true
              (setStageStrategies (fd_stageStrategies state ++ [payload])%list state))
  | REMOVE_STAGE_STRATEGY payload =>
      Some (setDirty true
              (setStageStrategies
                 (removeFrom payload 0 (fd_stageStrategies state)) state))
  | UPDATE_GRADUATION_RATE from to rate =>
      let row :=
        match getKey (fd_graduationMatrix state) from with
        | Some row => row
        | None => []
        end in
      Some (setDirty true
              (setGraduationMatrix
                 (setKey (fd_graduationMatrix state) from (setKey row to rate))
                 state))
  | UPDATE_FEE_PROFILE payload =>
      Some (setDirty true
              (setFeeProfile
                 (EnhancedBatchRunner.mergeFees (fd_feeProfile state) payload)
                 state))
  | SET_DIRTY payload => Some (setDirty payload state)
  | RESET_TO_DEFAULTS => Some (setDirty false (getDefaultState now))
  | LOAD_STATE payload => Some (setDirty false payload)
  end.

End FundDataProvider.

(** [useFund().calculate] (src/context/use-fund.hook.ts) *)
Module UseFund.

Definition calculate {A} (env : Env) (data : FundData.FundDataState)
  : M (FundCalculation.CalculationState A) ForecastResult :=
  let inputs := FundData.getInputs data in
  FundCalculation.calculateForecast env inputs.

End UseFund.

(** *** Fund data *)

(** Under one key the merged strategy has the update's value when the update
    holds one, and the old value when the update lacks the key. *)
Definition overwrites {A} (update : FundDataProvider.Key A) (old new : A)
  : Prop :=
  match update with
  | FundDataProvider.Holds v => new = v
  | FundDataProvider.Absent => new = old
  | FundDataProvider.Undefined => False
  end.

(** No key of the update holds [undefined]. *)
Definition definite (u : FundDataProvider.PartialStageStrategy) : Prop :=
  FundDataProvider.ps_stage u <> FundDataProvider.Undefined
  /\ FundDataProvider.ps_allocationPct u <> FundDataProvider.Undefined
  /\ FundDataProvider.ps_checkCount u <> FundDataProvider.Undefined
  /\ FundDataProvider.ps_avgInitialCheck u <> FundDataProvider.Undefined
  /\ FundDataProvider.ps_ownership u <> FundDataProvider.Undefined
  /\ FundDataProvider.ps_reserveRatio u <> FundDataProvider.Undefined
  /\ FundDataProvider.ps_targetReturns u <> FundDataProvider.Undefined.

(** [matrix[from]?.[to]] *)
Definition rateOf (matrix : GraduationMatrix) (from to : FundStage) : option Q :=
  match FundDataProvider.getKey matrix from with
  | Some row => FundDataProvider.getKey row to
  | None => None
  end.

(** No key occurs twice, in the matrix or in a row of it: what being a
    JavaScript object gives. *)
Definition uniqueKeys (matrix : GraduationMatrix) : Prop :=
  NoDup (map fst matrix)
  /\ Forall (fun row => NoDup (map fst (snd row))) matrix.

(* ===================================================================== *)
(** ** FundScenarioProvider (src/context/fund-scenario.context.tsx)       *)
(* ===================================================================== *)

Module FundScenarioProvider.

(** A [Map<string, ScenarioResult>], in insertion order. *)
Definition ResultMap := list (string * ScenarioResult).

Definition get (m : ResultMap) (id : string) : option ScenarioResult :=
  match find (fun e => String.eqb (fst e) id) m with
  | Some e => Some (snd e)
  | None => None
  end.

Fixpoint set (m : ResultMap) (id : string) (r : ScenarioResult) : ResultMap :=
  match m with
  | [] => [(id, r)]
  | e :: rest =>
      if String.eqb (fst e) id then (fst e, r) :: rest else e :: set rest id r
  end.

Record ScenarioState := {
  scenarios : list ScenarioDefinition;
  activeScenarioId : option string;
  results : ResultMap;
  isRunning : bool;
  runProgress : Q
}.

(** [Partial<ScenarioDefinition>]: [Some v] when the key is present. *)
Record PartialScenarioDefinition := {
  u_id : option string;
  u_name : option string;
  u_description : option string;
  u_category : option ScenarioCategory;
  u_parameterOverrides : option ParameterOverrides;
  u_weight : option (option Q);
  u_isBaseline : option (option bool)
}.

Inductive ScenarioAction :=
| ADD_SCENARIO (payload : ScenarioDefinition)
| UPDATE_SCENARIO (id : string) (updates : PartialScenarioDefinition)
| DELETE_SCENARIO (payload : string)
| SET_ACTIVE_SCENARIO (payload : option string)
| SET_RESULTS (payload : list ScenarioResult)
| SET_IS_RUNNING (payload : bool)
| SET_PROGRESS (payload : Q).

(** [{ ...s, ...updates }] *)
Definition mergeScenario (s : ScenarioDefinition)
    (updates : PartialScenarioDefinition) : ScenarioDefinition :=
  {| sd_id := EnhancedBatchRunner.orElse (u_id updates) (sd_id s);
     sd_name := EnhancedBatchRunner.orElse (u_name updates) (sd_name s);
     sd_description :=
       EnhancedBatchRunner.orElse (u_description updates) (sd_description s);
     sd_category := EnhancedBatchRunner.orElse (u_category updates) (sd_category s);
     parameterOverrides :=
       EnhancedBatchRunner.orElse (u_parameterOverrides updates)
         (parameterOverrides s);
     sd_weight := EnhancedBatchRunner.orElse (u_weight updates) (sd_weight s);
     isBaseline := EnhancedBatchRunner.orElse (u_isBaseline updates) (isBaseline s) |}.

Definition scenarioReducer (state : ScenarioState) (action : ScenarioAction)
  : ScenarioState :=
  match action with
  | ADD_SCENARIO payload =>
      {| scenarios := (scenarios state ++ [payload])%list;
         activeScenarioId := activeScenarioId state;
         results := results state;
         isRunning := isRunning state; runProgress := runProgress state |}
  | UPDATE_SCENARIO id updates =>
      {| scenarios :=
           map (fun s => if String.eqb (sd_id s) id
                         then mergeScenario s updates else s)
             (scenarios state);
         activeScenarioId := activeScenarioId state;
         results := results state;
         isRunning := isRunning state; runProgress := runProgress state |}
  | DELETE_SCENARIO payload =>
      {| scenarios :=
           filter (fun s => negb (String.eqb (sd_id s) payload)) (scenarios state);
         activeScenarioId := activeScenarioId state;
         results :=
           filter (fun e => negb (String.eqb (fst e) payload)) (results state);
         isRunning := isRunning state; runProgress := runProgress state |}
  | SET_ACTIVE_SCENARIO payload =>
      {| scenarios := scenarios state;
         activeScenarioId := payload;
         results := results state;
         isRunning := isRunning state; runProgress := runProgress state |}
  | SET_RESULTS payload =>
      let newResults :=
        fold_left (fun m result => set m (scenarioId result) result)
          payload (results state) in
      {| scenarios := scenarios state;
         activeScenarioId := activeScenarioId state;
         results := newResults;
         isRunning := isRunning state; runProgress := runProgress state |}
  | SET_IS_RUNNING payload =>
      {| scenarios := scenarios state;
         activeScenarioId := activeScenarioId state;
         results := results state;
         isRunning := payload; runProgress := runProgress state |}
  | SET_PROGRESS payload =>
      {| scenarios := scenarios state;
         activeScenarioId := activeScenarioId state;
         results := results state;
         isRunning := isRunning state; runProgress := payload |}
  end.

Definition initialState : ScenarioState :=
  {| scenarios := []; activeScenarioId := None; results := [];
     isRunning := false; runProgress := 0 |}.

Definition dispatch (action : ScenarioAction) : M ScenarioState unit :=
  setState (fun state => scenarioReducer state action).

(** [state.scenarios.find(s => s.id === state.activeScenarioId) || null] *)
Definition activeScenario (state : ScenarioState) : option ScenarioDefinition :=
  match activeScenarioId state with
  | Some id => find (fun s => String.eqb (sd_id s) id) (scenarios state)
  | None => None
  end.

(** [createScenario(name, description)]; [id] is what [uuidv4()] returns. *)
Definition createScenario (id : string) (name : string)
    (description : option string) : M ScenarioState string :=
  let scenario :=
    {| sd_id := id;
       sd_name := name;
       sd_description :=
         match description with
         | Some d => d
         | None => ""
         end;
       sd_category := CatCustom;
       parameterOverrides :=
         {| o_fundSize := None; o_stageAllocations := None;
            o_exitProbabilities := None; o_exitMultiples := None;
            o_feeAdjustments := None; o_timingAdjustments := None |};
       sd_weight := None;
       isBaseline := None |} in
  (dispatch (ADD_SCENARIO scenario) ;;; ret id)%eff.

Definition updateScenario (id : string) (updates : PartialScenarioDefinition)
  : M ScenarioState unit :=
  dispatch (UPDATE_SCENARIO id updates).

Definition deleteScenario (id : string) : M ScenarioState unit :=
  dispatch (DELETE_SCENARIO id).

(** [duplicateScenario(id, newName)]; [newId] is what [uuidv4()] returns. *)
Definition duplicateScenario (newId : string) (id : string) (newName : string)
  : M ScenarioState string :=
  fun w =>
    let original :=
      find (fun s => String.eqb (sd_id s) id) (scenarios (client w)) in
    match original with
    | None => throw (ErrorObject "Error" "Scenario not found") w
    | Some original =>
        let duplicate :=
          {| sd_id := newId;
             sd_name := newName;
             sd_description := sd_description original;
             sd_category := sd_category original;
             parameterOverrides := parameterOverrides original;
             sd_weight := sd_weight original;
             isBaseline := isBaseline original |} in
        (dispatch (ADD_SCENARIO duplicate) ;;; ret newId)%eff w
    end.

Definition setActiveScenario (id : option string) : M ScenarioState unit :=
  dispatch (SET_ACTIVE_SCENARIO id).

(** [scenarioIds.includes(s.id)] *)
Definition includes (scenarioIds : list string) (id : string) : bool :=
  existsb (fun x => String.eqb x id) scenarioIds.

(** The scenarios [runScenarios] hands to the runner. *)
Definition scenariosToRun (state : ScenarioState)
    (scenarioIds : option (list string)) : list ScenarioDefinition :=
  match scenarioIds with
  | Some ids => filter (fun s => includes ids (sd_id s)) (scenarios state)
  | None => scenarios state
  end.

(** The [finally] block of [runScenarios]. *)
Definition finish : M ScenarioState unit :=
  (dispatch (SET_IS_RUNNING false) ;;; dispatch (SET_PROGRESS 100))%eff.

(** [runScenarios(baseInputs, scenarioIds)]; it reads [state.scenarios] as
    they are when it is called.  [None] says that [runner.run] did not return
    within the fuel. *)
Definition runScenarios (fuel : nat) (env : Env) (baseInputs : EnhancedFundInputs)
    (scenarioIds : option (list string)) (w : World ScenarioState)
  : option (Outcome (list ScenarioResult) * World ScenarioState) :=
  let state := client w in
  let w1 :=
    snd ((dispatch (SET_IS_RUNNING true) ;;; dispatch (SET_PROGRESS 0))%eff w) in
  let runner :=
    EnhancedBatchRunner.load env baseInputs (scenariosToRun state scenarioIds) in
  match
    EnhancedBatchRunner.run fuel env runner
      (Some (fun progress => dispatch (SET_PROGRESS progress))) w1
  with
  | None => None
  | Some (Returned results, w2) =>
      let w3 := snd (dispatch (SET_RESULTS results) w2) in
      Some (Returned results, snd (finish w3))
  | Some (Threw error, w2) =>
      Some (Threw error, snd (finish w2))
  end.

(** [clearResults()] *)
Definition clearResults : M ScenarioState unit :=
  dispatch (SET_RESULTS []).

End FundScenarioProvider.

(** A scenario store that holds the three sample scenarios and no results. *)
Module ScenarioSamples.

Definition loaded : FundScenarioProvider.ScenarioState :=
  {| FundScenarioProvider.scenarios := Samples.three;
     FundScenarioProvider.activeScenarioId := Some "base";
     FundScenarioProvider.results := [];
     FundScenarioProvider.isRunning := false;
     FundScenarioProvider.runProgress := 0 |}.

End ScenarioSamples.

(* ===================================================================== *)
(** * Properties                                                          *)
(* ===================================================================== *)

(** ** Comparisons *)

Lemma gtb_true_iff (a b : Q) : Js.gtb a b = true <-> ~ a <= b.
Proof.
  unfold Js.gtb, Js.ltb. rewrite negb_true_iff.
  split.
  - intros H Hle. apply Qle_bool_iff in Hle. congruence.
  - intros H. destruct (Qle_bool a b) eqn:E; [|reflexivity].
    exfalso. apply H. now apply Qle_bool_iff.
Qed.

Lemma gtb_false_iff (a b : Q) : Js.gtb a b = false <-> a <= b.
Proof.
  unfold Js.gtb, Js.ltb. rewrite negb_false_iff. apply Qle_bool_iff.
Qed.

(** ** Validation: which findings a run of the validator emits *)

Section Emits.

Import ValidationService.

Lemma emits_app c P l1 l2 :
  emits c P (l1 ++ l2) <-> emits c P l1 \/ emits c P l2.
Proof.
  unfold emits. split.
  - intros (e & Hin & Hc). apply in_app_or in Hin.
    destruct Hin; [left | right]; eauto.
  - intros [(e & Hin & Hc) | (e & Hin & Hc)]; exists e; split; auto;
      apply in_or_app; auto.
Qed.

Lemma emits_nil c P : ~ emits c P [].
Proof. intros (e & [] & _). Qed.

Lemma emits_pushIf c P b e :
  emits c P (pushIf b e) <-> b = true /\ ve_code e = c /\ P e.
Proof.
  unfold emits, pushIf. destruct b; simpl.
  - split.
    + intros (e' & [<- | []] & Hc). auto.
    + intros (_ & Hc). exists e. auto.
  - split.
    + intros (e' & [] & _).
    + intros (H & _). discriminate.
Qed.

Lemma emits_other_code c c' P b f m v s :
  c' <> c -> ~ emits c P (pushIf b (err f m c' v s)).
Proof.
  intros Hne H. apply emits_pushIf in H. destruct H as (_ & Hc & _).
  simpl in Hc. contradiction.
Qed.

End Emits.

(** Findings of the per-section validators carry their own codes. *)
Ltac other_codes :=
  repeat match goal with
         | H : emits _ _ (_ ++ _) |- _ =>
             apply emits_app in H; destruct H as [H | H]
         | H : emits _ _ (ValidationService.pushIf _ _) |- _ =>
             apply emits_pushIf in H; simpl in H;
             destruct H as (_ & H & _); discriminate H
         | H : emits _ _ [] |- _ => exact (emits_nil _ _ H)
         end.

Lemma stage_strategy_codes c P s i :
  c = "INVALID_ALLOCATION_SUM" \/ c = "EXCESSIVE_GRADUATION" ->
  ~ emits c P (ValidationService.validateStageStrategy s i).
Proof.
  intros Hc H. unfold ValidationService.validateStageStrategy in H.
  destruct Hc; subst c; other_codes.
Qed.

Lemma strategies_codes c P l : forall i,
  c = "INVALID_ALLOCATION_SUM" \/ c = "EXCESSIVE_GRADUATION" ->
  ~ emits c P (ValidationService.validateStrategiesFrom i l).
Proof.
  induction l as [|s l IH]; intros i Hc H; simpl in H.
  - exact (emits_nil _ _ H).
  - apply emits_app in H. destruct H as [H | H].
    + exact (stage_strategy_codes c P s i Hc H).
    + exact (IH (S i) Hc H).
Qed.

Lemma fee_profile_codes c P fp :
  c = "INVALID_ALLOCATION_SUM" \/ c = "EXCESSIVE_GRADUATION" ->
  ~ emits c P (ValidationService.validateFeeProfile fp).
Proof.
  intros Hc H. unfold ValidationService.validateFeeProfile in H.
  destruct Hc; subst c; other_codes.
Qed.

Lemma graduation_codes P m :
  ~ emits "INVALID_ALLOCATION_SUM" P (ValidationService.validateGraduationMatrix m).
Proof.
  unfold ValidationService.validateGraduationMatrix.
  induction m as [|row m IH]; simpl; intros H.
  - exact (emits_nil _ _ H).
  - apply emits_app in H. destruct H as [H | H]; [|exact (IH H)].
    unfold ValidationService.validateGraduationRow in H. other_codes.
Qed.

(** ** Sums in double arithmetic *)

Lemma addedUp_app (xs ys : list Q) (n : nat) :
  (n <= List.length xs)%nat -> addedUp (xs ++ ys) n = addedUp xs n.
Proof.
  induction n as [|n IH]; intros Hn; [reflexivity|].
  cbn [addedUp]. rewrite IH by lia. rewrite app_nth1 by lia. reflexivity.
Qed.

(** The [reduce] of the source is the sum from the left. *)
Lemma reduce_doubleSum {A} (f : A -> Q) (l : list A) :
  fold_left (fun sum a => PrimFloat.add sum (Js.toDouble (f a))) l PrimFloat.zero
  = doubleSum (map f l).
Proof.
  unfold doubleSum. induction l as [|a l IH] using rev_ind; [reflexivity|].
  rewrite fold_left_app, map_app, length_app. cbn [fold_left map List.length].
  rewrite Nat.add_1_r. cbn [addedUp].
  rewrite addedUp_app by lia. rewrite nth_middle. rewrite IH. reflexivity.
Qed.

Lemma totalAllocation_doubleSum (l : list StageStrategy) :
  ValidationService.totalAllocation l = doubleSum (map allocationPct l).
Proof. apply reduce_doubleSum. Qed.

Lemma sum_doubleSum (xs : list Q) : Js.sum xs = doubleSum xs.
Proof.
  unfold Js.sum. rewrite (reduce_doubleSum (fun x => x)). now rewrite map_id.
Qed.

(** The conversion and the sums on the numbers used as examples below: the
    default allocations add up to 1; 0.9 and 0.099 add up to the double
    0.999, whose distance from 1 is a double above 0.001; the five rates of
    the sample row add up to the double next above 1; a number beyond the
    largest double enters as an infinity, and opposite infinities add up to
    NaN. *)
Lemma sums_of_the_examples :
  Js.toDouble 0.001 = 0.001%float
  /\ Js.toDouble (1 # 3) = 0.33333333333333331%float
  /\ Js.toDouble (3 # 8) = 0.375%float
  /\ doubleSum [0.15; 0.35; 0.50] = 1%float
  /\ doubleSum [0.9; 0.099] = 0.999%float
  /\ abs (0.999 - 1)%float = 0.0010000000000000009%float
  /\ doubleSum (map snd MoreSamples.fullRow) = 1.0000000000000002%float
  /\ Js.toDouble 1e400 = infinity
  /\ is_nan (doubleSum [1e400; - 1e400]) = true.
Proof. repeat split; vm_compute; reflexivity. Qed.

(** The findings of a validation run, section by section. *)
Lemma validateFundInputs_sections inputs :
  exists sizeFindings : list ValidationError,
    ValidationService.validateFundInputs inputs =
      (sizeFindings ++
         (match stageStrategies inputs with
          | [] =>
              [ValidationService.err "stageStrategies"
                 "At least one stage strategy is required"
                 "MISSING_STAGE_STRATEGIES" None None]
          | _ =>
              let total :=
                ValidationService.totalAllocation (stageStrategies inputs) in
              ValidationService.pushIf (Js.gtbD (PrimFloat.abs (total - 1.0)) 0.001)
                (ValidationService.err "stageStrategies"
                   ("Stage allocations must sum to 100% (currently "
                      ++ Js.toFixedD 1 (total * 100) ++ "%)")
                   "INVALID_ALLOCATION_SUM" (Js.finite total)
                   (Some "Adjust allocations to sum to exactly 100%"))
              ++ ValidationService.validateStrategiesFrom 0 (stageStrategies inputs)
          end)
      ++ ValidationService.validateFeeProfile (feeProfile inputs)
      ++ ValidationService.validateGraduationMatrix (graduationMatrix inputs)
      ++ ValidationService.pushIf
           (Js.gtb (investmentPeriodQuarters inputs) (fundLifeQuarters inputs))
           (ValidationService.err "investmentPeriodQuarters"
              "Investment period cannot exceed fund life"
              "INVALID_TIMELINE" (Some (investmentPeriodQuarters inputs)) None)
      ++ ValidationService.pushIf (Js.gtb (fundLifeQuarters inputs) 60)
           (ValidationService.err "fundLifeQuarters"
              "Fund life exceeds typical 15-year maximum"
              "EXCESSIVE_FUND_LIFE" (Some (fundLifeQuarters inputs))
              (Some "Consider reducing fund life to 10-12 years")))%list
    /\ (forall c P,
          c = "INVALID_ALLOCATION_SUM" \/ c = "EXCESSIVE_GRADUATION" ->
          ~ emits c P sizeFindings).
Proof.
  unfold ValidationService.validateFundInputs.
  eexists. split; [reflexivity|].
  intros c P Hc H.
  destruct (negb (Js.truthy (fundSize inputs)) || Js.leb (fundSize inputs) 0);
    [|destruct (Js.ltb (fundSize inputs) 10_000_000);
      [|destruct (Js.gtb (fundSize inputs) 10_000_000_000)]];
    destruct H as (e & Hin & Hcode & _); simpl in Hin;
    try contradiction;
    destruct Hin as [<- | []]; simpl in Hcode;
    destruct Hc; subst c; discriminate.
Qed.

Lemma stageName_field_inj (a b : FundStage) :
  "graduationMatrix." ++ stageName a = "graduationMatrix." ++ stageName b ->
  a = b.
Proof. destruct a, b; simpl; intros H; (reflexivity || discriminate H). Qed.

Lemma unique_row {A} (m : StageObject A) (k : FundStage) (a b : A) :
  NoDup (map fst m) -> In (k, a) m -> In (k, b) m -> a = b.
Proof.
  induction m as [|[k' c] m IH]; simpl; intros Hnd Ha Hb; [contradiction|].
  inversion Hnd as [|? ? Hnotin Hnd']; subst.
  destruct Ha as [Ha | Ha], Hb as [Hb | Hb].
  - congruence.
  - inversion Ha; subst. exfalso. apply Hnotin.
    change k with (fst (k, b)). now apply in_map.
  - inversion Hb; subst. exfalso. apply Hnotin.
    change k with (fst (k, a)). now apply in_map.
  - now apply IH.
Qed.

(** An EXCESSIVE_GRADUATION finding for a stage comes from a row of that
    stage whose rates sum to more than 1. *)
Lemma graduation_matrix_emits (m : GraduationMatrix) (from : FundStage)
    (P : ValidationError -> Prop) :
  emits "EXCESSIVE_GRADUATION"
    (fun e => ve_field e = "graduationMatrix." ++ stageName from /\ P e)
    (ValidationService.validateGraduationMatrix m)
  <-> exists row,
        In (from, row) m
        /\ (1 <? doubleSum (map snd row))%float = true
        /\ P (ValidationService.err
                ("graduationMatrix." ++ stageName from)
                ("Graduation rates from " ++ stageName from ++ " exceed 100% ("
                   ++ Js.toFixedD 1 (doubleSum (map snd row) * 100) ++ "%)")
                "EXCESSIVE_GRADUATION" (Js.finite (doubleSum (map snd row))) None).
Proof.
  unfold ValidationService.validateGraduationMatrix.
  induction m as [|[k row] m IH]; cbn [flat_map].
  - split.
    + intros H. destruct (emits_nil _ _ H).
    + intros (row & [] & _).
  - rewrite emits_app, IH.
    unfold ValidationService.validateGraduationRow at 1. cbv zeta.
    cbn [fst snd]. rewrite sum_doubleSum.
    rewrite emits_pushIf. unfold Js.gtbD.
    cbn [ValidationService.err ve_code ve_field]. split.
    + intros [(Hb & _ & Hf & HP) | (row' & Hin & Hb & HP)].
      * apply stageName_field_inj in Hf. subst k.
        exists row. split; [left; reflexivity|]. auto.
      * exists row'. split; [right; exact Hin|]. auto.
    + intros (row' & [Heq | Hin] & Hb & HP).
      * inversion Heq; subst. left. auto.
      * right. exists row'. auto.
Qed.

(** C7, as the code has it.  For a non-empty list of stage strategies,
    validation emits an INVALID_ALLOCATION_SUM finding exactly when the
    allocations, added up in double arithmetic from the left starting from
    0, give a sum that is more than 0.001 away from 1 by the double
    subtraction and comparison; the finding is then for [stageStrategies]
    and carries that sum.  Otherwise no finding has that code. *)
Theorem allocation_sum_rule (inputs : EnhancedFundInputs) :
  stageStrategies inputs <> [] ->
  let total := doubleSum (map allocationPct (stageStrategies inputs)) in
  let findings := ValidationService.validateFundInputs inputs in
  (emits "INVALID_ALLOCATION_SUM" (fun _ => True) findings
   <-> (0.001 <? abs (total - 1))%float = true)
  /\ ((0.001 <? abs (total - 1))%float = true ->
      emits "INVALID_ALLOCATION_SUM"
        (fun e => ve_field e = "stageStrategies"
                  /\ ve_value e = Js.finite total)
        findings).
Proof.
  intros Hne total findings.
  destruct (validateFundInputs_sections inputs) as (sz & Heq & Hsz).
  fold findings in Heq.
  rewrite totalAllocation_doubleSum in Heq. fold total in Heq.
  destruct (stageStrategies inputs) as [|s0 rest] eqn:Hs; [contradiction|].
  assert (Hemit : forall P,
             emits "INVALID_ALLOCATION_SUM" P findings ->
             (0.001 <? abs (total - 1))%float = true).
  { intros P H. rewrite Heq in H.
    apply emits_app in H. destruct H as [H | H].
    { destruct (Hsz _ P (or_introl eq_refl) H). }
    apply emits_app in H. destruct H as [H | H].
    { cbv zeta in H. apply emits_app in H. destruct H as [H | H].
      - apply emits_pushIf in H. destruct H as (H & _). exact H.
      - destruct (strategies_codes _ P _ _ (or_introl eq_refl) H). }
    apply emits_app in H. destruct H as [H | H].
    { destruct (fee_profile_codes _ P _ (or_introl eq_refl) H). }
    apply emits_app in H. destruct H as [H | H].
    { destruct (graduation_codes P _ H). }
    other_codes. }
  assert (Hback : (0.001 <? abs (total - 1))%float = true ->
                  emits "INVALID_ALLOCATION_SUM"
                    (fun e => ve_field e = "stageStrategies"
                              /\ ve_value e = Js.finite total) findings).
  { intros Hb. rewrite Heq.
    apply emits_app. right. apply emits_app. left.
    cbv zeta. apply emits_app. left.
    apply emits_pushIf. split; [exact Hb|].
    cbn [ValidationService.err ve_code ve_field ve_value]. auto. }
  split; [split|].
  - apply Hemit.
  - intros Hb. destruct (Hback Hb) as (e & Hin & Hc & _). exists e. auto.
  - exact Hback.
Qed.

Lemma allocation_sum_rule_witness :
  let inputs := MoreSamples.allocated 0.9 0.099 in
  let total := doubleSum (map allocationPct (stageStrategies inputs)) in
  let findings := ValidationService.validateFundInputs inputs in
  (0.001 <? abs (total - 1))%float = true
  /\ emits "INVALID_ALLOCATION_SUM"
       (fun e => ve_field e = "stageStrategies" /\ ve_value e = Js.finite total)
       findings.
Proof.
  cbv zeta. split; [vm_compute; reflexivity|].
  apply (allocation_sum_rule (MoreSamples.allocated 0.9 0.099)).
  - discriminate.
  - vm_compute. reflexivity.
Defined.

(** C7 as stated fails, in both directions.  Allocations of 0.9 and 0.099
    sum to 0.999, which is within 0.001 of 1, and validation still emits
    INVALID_ALLOCATION_SUM, because the doubles add up to a sum whose
    distance from 1 is a double above the double 0.001.  Allocations of
    1e400 and -1e400, which are the doubles +Infinity and -Infinity, are not
    within 0.001 of 1, neither by their exact sum 0 nor by their double sum,
    which is NaN, and validation emits no INVALID_ALLOCATION_SUM. *)
Lemma allocation_sum_is_rounded :
  let close := MoreSamples.allocated 0.9 0.099 in
  let wild := MoreSamples.allocated 1e400 (- 1e400) in
  (stageStrategies close <> []
   /\ Qabs (total allocationPct (stageStrategies close) - 1.0) <= 0.001
   /\ emits "INVALID_ALLOCATION_SUM" (fun _ => True)
        (ValidationService.validateFundInputs close))
  /\ (stageStrategies wild <> []
      /\ ~ Qabs (total allocationPct (stageStrategies wild) - 1.0) <= 0.001
      /\ (abs (doubleSum (map allocationPct (stageStrategies wild)) - 1)
          <=? 0.001)%float = false
      /\ ~ emits "INVALID_ALLOCATION_SUM" (fun _ => True)
            (ValidationService.validateFundInputs wild)).
Proof.
  cbv zeta. split.
  - split; [discriminate|]. split; [vm_compute; discriminate|].
    eexists. split; [vm_compute; left; reflexivity|]. split; reflexivity.
  - split; [discriminate|].
    split; [intros H; vm_compute in H; apply H; reflexivity|].
    split; [vm_compute; reflexivity|].
    intros (e & Hin & Hc & _). vm_compute in Hin.
    repeat (destruct Hin as [<- | Hin]; [vm_compute in Hc; discriminate Hc|]).
    exact Hin.
Qed.

(** C8, as the code has it.  For every row of the graduation matrix,
    validation emits an EXCESSIVE_GRADUATION finding for the row's stage
    exactly when the outgoing probabilities of the row, added up in double
    arithmetic from the left starting from 0, give a sum greater than 1;
    the finding then carries that sum.  The matrix is an object, so no stage
    occurs twice among its keys. *)
Theorem graduation_row_rule (inputs : EnhancedFundInputs)
    (from : FundStage) (row : StageObject Q) :
  NoDup (map fst (graduationMatrix inputs)) ->
  In (from, row) (graduationMatrix inputs) ->
  let total := doubleSum (map snd row) in
  let findings := ValidationService.validateFundInputs inputs in
  let forStage e := ve_field e = "graduationMatrix." ++ stageName from in
  (emits "EXCESSIVE_GRADUATION" forStage findings <-> (1 <? total)%float = true)
  /\ ((1 <? total)%float = true ->
      emits "EXCESSIVE_GRADUATION"
        (fun e => forStage e /\ ve_value e = Js.finite total) findings).
Proof.
  intros Hnd Hin total findings forStage.
  destruct (validateFundInputs_sections inputs) as (sz & Heq & Hsz).
  fold findings in Heq.
  assert (Hemit : forall P,
             emits "EXCESSIVE_GRADUATION" (fun e => forStage e /\ P e) findings ->
             (1 <? total)%float = true).
  { intros P H. rewrite Heq in H.
    apply emits_app in H. destruct H as [H | H].
    { destruct (Hsz _ _ (or_intror eq_refl) H). }
    apply emits_app in H. destruct H as [H | H].
    { destruct (stageStrategies inputs); cbv zeta in H.
      - destruct H as (e & [<- | []] & Hc & _). discriminate Hc.
      - apply emits_app in H. destruct H as [H | H].
        + other_codes.
        + destruct (strategies_codes _ _ _ _ (or_intror eq_refl) H). }
    apply emits_app in H. destruct H as [H | H].
    { destruct (fee_profile_codes _ _ _ (or_intror eq_refl) H). }
    apply emits_app in H. destruct H as [H | H].
    { apply graduation_matrix_emits in H.
      destruct H as (row' & Hin' & Hb & _).
      pose proof (unique_row _ _ _ _ Hnd Hin Hin') as Hrow.
      subst row'. exact Hb. }
    other_codes. }
  assert (Hback : (1 <? total)%float = true ->
                  emits "EXCESSIVE_GRADUATION"
                    (fun e => forStage e /\ ve_value e = Js.finite total) findings).
  { intros Hb. rewrite Heq.
    apply emits_app. right. apply emits_app. right.
    apply emits_app. right. apply emits_app. left.
    apply graduation_matrix_emits. exists row.
    cbn [ValidationService.err ve_value]. auto. }
  split; [split|].
  - intros H.
    apply (Hemit (fun _ => True)).
    destruct H as (e & He & Hc & Hf). exists e. auto.
  - intros Hb. destruct (Hback Hb) as (e & He & Hc & Hf & _).
    exists e. auto.
  - exact Hback.
Qed.

Lemma graduation_row_rule_witness :
  let inputs := MoreSamples.graduating [(PreSeed, MoreSamples.fullRow)] in
  let total := doubleSum (map snd MoreSamples.fullRow) in
  let findings := ValidationService.validateFundInputs inputs in
  let forStage e := ve_field e = "graduationMatrix." ++ stageName PreSeed in
  (1 <? total)%float = true
  /\ emits "EXCESSIVE_GRADUATION"
       (fun e => forStage e /\ ve_value e = Js.finite total) findings.
Proof.
  cbv zeta. split; [vm_compute; reflexivity|].
  apply (graduation_row_rule
           (MoreSamples.graduating [(PreSeed, MoreSamples.fullRow)])
           PreSeed MoreSamples.fullRow).
  - cbn. repeat constructor; simpl; intuition discriminate.
  - left. reflexivity.
  - vm_compute. reflexivity.
Defined.

(** C8 as stated fails, in both directions.  The rates 0.61, 0.05, 0.19,
    0.06 and 0.09 of a row sum to 1, and validation still emits
    EXCESSIVE_GRADUATION for the row's stage, because the doubles add up to
    the double next above 1.  The rates 1e400 and -1e400 of a row, which are
    the doubles +Infinity and -Infinity, add up to NaN, which is not at most
    1, and validation emits no EXCESSIVE_GRADUATION for the row's stage. *)
Lemma graduation_row_is_rounded :
  let full := MoreSamples.graduating [(PreSeed, MoreSamples.fullRow)] in
  let wildRow := [(Seed, 1e400); (SeriesA, - 1e400)] in
  let wild := MoreSamples.graduating [(PreSeed, wildRow)] in
  (In (PreSeed, MoreSamples.fullRow) (graduationMatrix full)
   /\ total snd MoreSamples.fullRow <= 1.0
   /\ emits "EXCESSIVE_GRADUATION"
        (fun e => ve_field e = "graduationMatrix." ++ stageName PreSeed)
        (ValidationService.validateFundInputs full))
  /\ (In (PreSeed, wildRow) (graduationMatrix wild)
      /\ (doubleSum (map snd wildRow) <=? 1)%float = false
      /\ ~ emits "EXCESSIVE_GRADUATION"
            (fun e => ve_field e = "graduationMatrix." ++ stageName PreSeed)
            (ValidationService.validateFundInputs wild)).
Proof.
  cbv zeta. split.
  - split; [left; reflexivity|]. split; [vm_compute; discriminate|].
    eexists. split; [vm_compute; left; reflexivity|]. split; reflexivity.
  - split; [left; reflexivity|]. split; [vm_compute; reflexivity|].
    intros (e & Hin & Hc & _). vm_compute in Hin.
    repeat (destruct Hin as [<- | Hin]; [vm_compute in Hc; discriminate Hc|]).
    exact Hin.
Qed.

(** The findings for the two samples in full: the message shows the sum
    times 100 to one decimal, the value is the exact value of the double
    sum. *)
Lemma findings_of_the_examples :
  ValidationService.validateFundInputs (MoreSamples.allocated 0.9 0.099)
  = [ ValidationService.err "stageStrategies"
        "Stage allocations must sum to 100% (currently 99.9%)"
        "INVALID_ALLOCATION_SUM"
        (Some (8998192055486251 # 9007199254740992))
        (Some "Adjust allocations to sum to exactly 100%") ]
  /\ ValidationService.validateFundInputs
       (MoreSamples.graduating [(PreSeed, MoreSamples.fullRow)])
     = [ ValidationService.err "graduationMatrix.Pre-Seed"
           "Graduation rates from Pre-Seed exceed 100% (100.0%)"
           "EXCESSIVE_GRADUATION"
           (Some (4503599627370497 # 4503599627370496)) None ].
Proof. split; vm_compute; reflexivity. Qed.

(** ** The gate in front of the forecast model *)

(** With a non-empty list of findings, [calculateForecast] stores the
    findings and throws before anything else happens. *)
Lemma calculateForecast_blocked {A} (env : Env) (inputs : EnhancedFundInputs)
    (w : World (FundCalculation.CalculationState A)) :
  ValidationService.validateFundInputs inputs <> [] ->
  FundCalculation.calculateForecast env inputs w =
    (Threw (ValidationFailure "Validation failed"
              (ValidationService.validateFundInputs inputs)),
     {| clockReads := clockReads w;
        simCalls := simCalls w;
        client :=
          {| FundCalculation.forecastResult :=
               FundCalculation.forecastResult (client w);
             FundCalculation.enhancedAnalytics :=
               FundCalculation.enhancedAnalytics (client w);
             FundCalculation.isCalculating :=
               FundCalculation.isCalculating (client w);
             FundCalculation.lastCalculatedAt :=
               FundCalculation.lastCalculatedAt (client w);
             FundCalculation.calculationProgress :=
               FundCalculation.calculationProgress (client w);
             FundCalculation.validationErrors :=
               ValidationService.validateFundInputs inputs |} |}).
Proof.
  intros Hne. unfold FundCalculation.calculateForecast.
  destruct (ValidationService.validateFundInputs inputs) as [|e l] eqn:He;
    [contradiction|].
  reflexivity.
Qed.

(** C3.  When validation returns at least one finding, [calculateForecast]
    throws a ValidationFailure that carries the whole list of findings, the
    forecast model is not called, and the stored forecast result stays as it
    was. *)
Theorem validation_gate {A} (env : Env) (inputs : EnhancedFundInputs)
    (w : World (FundCalculation.CalculationState A)) :
  ValidationService.validateFundInputs inputs <> [] ->
  let errors := ValidationService.validateFundInputs inputs in
  let after := FundCalculation.calculateForecast env inputs w in
  fst after = Threw (ValidationFailure "Validation failed" errors)
  /\ simCalls (snd after) = simCalls w
  /\ FundCalculation.forecastResult (client (snd after))
     = FundCalculation.forecastResult (client w)
  /\ FundCalculation.validationErrors (client (snd after)) = errors.
Proof.
  intros Hne errors after. subst after errors.
  rewrite (calculateForecast_blocked env inputs w Hne). simpl. auto.
Qed.

Lemma validation_gate_witness :
  let inputs := Samples.withFundSize (-1) in
  let w := Samples.world0 (FundCalculation.initialState unit) in
  let errors := ValidationService.validateFundInputs inputs in
  let after := FundCalculation.calculateForecast Samples.env0 inputs w in
  fst after = Threw (ValidationFailure "Validation failed" errors)
  /\ simCalls (snd after) = simCalls w
  /\ FundCalculation.forecastResult (client (snd after))
     = FundCalculation.forecastResult (client w)
  /\ FundCalculation.validationErrors (client (snd after)) = errors.
Proof.
  apply (validation_gate Samples.env0 (Samples.withFundSize (-1))
           (Samples.world0 (FundCalculation.initialState unit))).
  vm_compute. discriminate.
Defined.

(** With no finding the model is called, exactly once, on the inputs given. *)
Lemma calculateForecast_runs_model {A} (env : Env) (inputs : EnhancedFundInputs)
    (w : World (FundCalculation.CalculationState A)) :
  ValidationService.validateFundInputs inputs = [] ->
  simCalls (snd (FundCalculation.calculateForecast env inputs w))
  = (simCalls w ++ [inputs])%list.
Proof.
  intros He. unfold FundCalculation.calculateForecast. rewrite He. simpl.
  unfold bind, setState, tryCatch, awaitBuild, newDate, ret, throw. simpl.
  destruct (buildEnhancedFundForecast env inputs); reflexivity.
Qed.

Lemma ltb_true (a b : Q) : a < b -> Js.ltb a b = true.
Proof.
  intros H. unfold Js.ltb. apply negb_true_iff.
  destruct (Qle_bool b a) eqn:E; [|reflexivity].
  apply Qle_bool_iff in E. exfalso. exact (Qlt_not_le _ _ H E).
Qed.

Lemma emits_nonempty c P l : emits c P l -> l <> [].
Proof. intros (e & Hin & _) ->. exact Hin. Qed.

(** Any positive fund size below $10M puts FUND_SIZE_TOO_SMALL among the
    findings, and with it [calculateForecast] throws before the model runs. *)
Lemma small_fund_is_blocked {A} (env : Env) (inputs : EnhancedFundInputs)
    (w : World (FundCalculation.CalculationState A)) :
  0 < fundSize inputs -> fundSize inputs < 10_000_000 ->
  emits "FUND_SIZE_TOO_SMALL" (fun e => ve_field e = "fundSize")
    (ValidationService.validateFundInputs inputs)
  /\ fst (FundCalculation.calculateForecast env inputs w)
     = Threw (ValidationFailure "Validation failed"
                (ValidationService.validateFundInputs inputs))
  /\ simCalls (snd (FundCalculation.calculateForecast env inputs w)) = simCalls w.
Proof.
  intros Hpos Hsmall.
  assert (He : emits "FUND_SIZE_TOO_SMALL" (fun e => ve_field e = "fundSize")
                 (ValidationService.validateFundInputs inputs)).
  { unfold ValidationService.validateFundInputs.
    apply emits_app. left.
    replace (negb (Js.truthy (fundSize inputs)) || Js.leb (fundSize inputs) 0)
      with false.
    - rewrite (ltb_true _ _ Hsmall). eexists. split; [left; reflexivity|].
      split; reflexivity.
    - symmetry. apply orb_false_iff. split.
      + unfold Js.truthy. rewrite negb_involutive.
        destruct (Qeq_bool (fundSize inputs) 0) eqn:E; [|reflexivity].
        apply Qeq_bool_iff in E. rewrite E in Hpos.
        exfalso. exact (Qlt_irrefl _ Hpos).
      + unfold Js.leb. destruct (Qle_bool (fundSize inputs) 0) eqn:E; [|reflexivity].
        apply Qle_bool_iff in E. exfalso. exact (Qlt_not_le _ _ Hpos E). }
  split; [exact He|].
  rewrite (calculateForecast_blocked env inputs w (emits_nonempty _ _ _ He)).
  split; reflexivity.
Qed.

(** Any fund life above 60 quarters puts EXCESSIVE_FUND_LIFE among the
    findings, and with it [calculateForecast] throws before the model runs. *)
Lemma long_fund_life_is_blocked {A} (env : Env) (inputs : EnhancedFundInputs)
    (w : World (FundCalculation.CalculationState A)) :
  60 < fundLifeQuarters inputs ->
  emits "EXCESSIVE_FUND_LIFE" (fun e => ve_field e = "fundLifeQuarters")
    (ValidationService.validateFundInputs inputs)
  /\ fst (FundCalculation.calculateForecast env inputs w)
     = Threw (ValidationFailure "Validation failed"
                (ValidationService.validateFundInputs inputs))
  /\ simCalls (snd (FundCalculation.calculateForecast env inputs w)) = simCalls w.
Proof.
  intros Hlong.
  assert (He : emits "EXCESSIVE_FUND_LIFE" (fun e => ve_field e = "fundLifeQuarters")
                 (ValidationService.validateFundInputs inputs)).
  { destruct (validateFundInputs_sections inputs) as (sz & Heq & _).
    rewrite Heq. do 5 (apply emits_app; right).
    apply emits_pushIf. split; [|split; reflexivity].
    exact (ltb_true _ _ Hlong). }
  split; [exact He|].
  rewrite (calculateForecast_blocked env inputs w (emits_nonempty _ _ _ He)).
  split; reflexivity.
Qed.

(** C2.  The validator at the three documented inputs.  A fund size of -1
    gives INVALID_FUND_SIZE.  A fund size of 5,000,000 and a fund life of 61
    quarters each give one finding, FUND_SIZE_TOO_SMALL and
    EXCESSIVE_FUND_LIFE, in the same list; [getWarnings] reports neither, and
    [calculateForecast] throws on both inputs without calling the model.
    The prototype's validator reports the small fund with severity
    warning. *)
Theorem advisory_findings_block {A} (env : Env)
    (w : World (FundCalculation.CalculationState A))
    (numberToString : Q -> string) :
  let negative := Samples.withFundSize (-1) in
  let small := Samples.withFundSize 5_000_000 in
  let long := Samples.withFundLife 61 in
  let blocked inputs :=
    fst (FundCalculation.calculateForecast env inputs w)
    = Threw (ValidationFailure "Validation failed"
               (ValidationService.validateFundInputs inputs))
    /\ simCalls (snd (FundCalculation.calculateForecast env inputs w))
       = simCalls w in
  map ve_code (ValidationService.validateFundInputs negative)
    = ["INVALID_FUND_SIZE"]
  /\ map ve_code (ValidationService.validateFundInputs small)
     = ["FUND_SIZE_TOO_SMALL"]
  /\ map ve_code (ValidationService.validateFundInputs long)
     = ["EXCESSIVE_FUND_LIFE"]
  /\ ValidationService.getWarnings numberToString small = []
  /\ ValidationService.getWarnings numberToString long = []
  /\ blocked small
  /\ blocked long
  /\ map Mock.severity
       (fst (Mock.validateInputs
               (Mock.fundReducer Mock.initialState (Mock.SET_FUND_SIZE 5000000))))
     = [Mock.SeverityWarning].
Proof.
  cbv zeta.
  assert (Hs : ValidationService.validateFundInputs (Samples.withFundSize 5_000_000) <> [])
    by (vm_compute; discriminate).
  assert (Hl : ValidationService.validateFundInputs (Samples.withFundLife 61) <> [])
    by (vm_compute; discriminate).
  repeat split; try (vm_compute; reflexivity);
    try (rewrite (calculateForecast_blocked env _ w Hs); reflexivity);
    rewrite (calculateForecast_blocked env _ w Hl); reflexivity.
Qed.

(** ** The scenario batch runner *)

Lemma fold_addScenario (scs : list ScenarioDefinition) :
  forall r : EnhancedBatchRunner.t,
    EnhancedBatchRunner.scenarios (fold_left EnhancedBatchRunner.addScenario scs r)
    = (EnhancedBatchRunner.scenarios r ++ scs)%list
    /\ EnhancedBatchRunner.baseInputs (fold_left EnhancedBatchRunner.addScenario scs r)
       = EnhancedBatchRunner.baseInputs r
    /\ EnhancedBatchRunner.useWebWorkers (fold_left EnhancedBatchRunner.addScenario scs r)
       = EnhancedBatchRunner.useWebWorkers r.
Proof.
  induction scs as [|s scs IH]; intros r; simpl.
  - rewrite app_nil_r. auto.
  - destruct (IH (EnhancedBatchRunner.addScenario r s)) as (H1 & H2 & H3).
    rewrite H1, H2, H3. simpl. rewrite <- app_assoc. auto.
Qed.

Lemma load_fields (env : Env) (base : EnhancedFundInputs)
    (scs : list ScenarioDefinition) :
  EnhancedBatchRunner.scenarios (EnhancedBatchRunner.load env base scs) = scs
  /\ EnhancedBatchRunner.baseInputs (EnhancedBatchRunner.load env base scs) = base
  /\ EnhancedBatchRunner.useWebWorkers (EnhancedBatchRunner.load env base scs) = true.
Proof.
  unfold EnhancedBatchRunner.load.
  destruct (fold_addScenario scs (EnhancedBatchRunner.create env base))
    as (H1 & H2 & H3).
  rewrite H1, H2, H3. simpl. auto.
Qed.

(** [runWithWebWorkers] hands over to [run]. *)
Lemma runWithWebWorkers_delegates {C} (fuel : nat) (env : Env)
    (r : EnhancedBatchRunner.t) (cb : option (Q -> M C unit)) (w : World C) :
  EnhancedBatchRunner.runWithWebWorkers (S fuel) env r cb w
  = EnhancedBatchRunner.run fuel env r cb w.
Proof. reflexivity. Qed.

(** Up to five scenarios: [run] is the sequential loop. *)
Lemma run_small {C} (fuel : nat) (env : Env) (r : EnhancedBatchRunner.t)
    (cb : option (Q -> M C unit)) (w : World C) :
  (List.length (EnhancedBatchRunner.scenarios r) <= 5)%nat ->
  EnhancedBatchRunner.run (S fuel) env r cb w
  = Some (EnhancedBatchRunner.runSequential env r cb w).
Proof.
  intros Hle. simpl.
  replace (5 <? List.length (EnhancedBatchRunner.scenarios r))%nat with false.
  - now rewrite andb_false_r.
  - symmetry. apply Nat.ltb_ge. exact Hle.
Qed.

(** More than five scenarios: [run] and [runWithWebWorkers] keep calling
    each other, whatever the fuel. *)
Lemma run_large {C} (env : Env) (r : EnhancedBatchRunner.t)
    (cb : option (Q -> M C unit)) (w : World C) :
  EnhancedBatchRunner.useWebWorkers r = true ->
  (5 < List.length (EnhancedBatchRunner.scenarios r))%nat ->
  forall fuel,
    EnhancedBatchRunner.run fuel env r cb w = None
    /\ EnhancedBatchRunner.runWithWebWorkers fuel env r cb w = None.
Proof.
  intros Hw Hlt.
  assert (Hb : (5 <? List.length (EnhancedBatchRunner.scenarios r))%nat = true)
    by now apply Nat.ltb_lt.
  induction fuel as [|fuel [IHr IHw]].
  - split; reflexivity.
  - split.
    + simpl. rewrite Hw, Hb. simpl. exact IHw.
    + simpl. exact IHr.
Qed.

(** One turn of the loop always yields an entry, whatever the model does. *)
Lemma runScenario_spec {C} (env : Env) (base : EnhancedFundInputs)
    (s : ScenarioDefinition) (w : World C) :
  exists r w',
    EnhancedBatchRunner.runScenario env base s w = (Returned r, w')
    /\ resultFor env base s r
    /\ varianceFromBaseline r = None
    /\ client w' = client w
    /\ simCalls w'
       = (simCalls w ++ [EnhancedBatchRunner.applyScenarioOverrides base s])%list.
Proof.
  unfold EnhancedBatchRunner.runScenario, resultFor,
    EnhancedBatchRunner.createErrorResult,
    bind, tryCatch, perfNow, newDate, awaitBuild, ret.
  simpl.
  destruct (buildEnhancedFundForecast env
              (EnhancedBatchRunner.applyScenarioOverrides base s)) as [f | e];
    simpl; eexists; eexists; (split; [reflexivity|]); simpl;
    repeat split; eauto.
Qed.

Lemma report_returns {C} (cb : option (Q -> M C unit)) (pct : Q) (w : World C) :
  returnsNormally cb ->
  exists w', EnhancedBatchRunner.report cb pct w = (Returned tt, w').
Proof.
  intros Hcb. destruct cb as [callback|]; simpl.
  - exact (Hcb callback eq_refl pct w).
  - eexists. reflexivity.
Qed.

(** The loop pushes one entry per scenario, in order, and returns. *)
Lemma runLoop_spec {C} (env : Env) (base : EnhancedFundInputs)
    (cb : option (Q -> M C unit)) (total : nat) :
  returnsNormally cb ->
  forall (todo : list ScenarioDefinition) (completed : nat)
         (results : list ScenarioResult) (w : World C),
  exists rs w',
    EnhancedBatchRunner.runLoop env base cb total todo completed results w
    = (Returned (results ++ rs)%list, w')
    /\ Forall2 (resultFor env base) todo rs
    /\ Forall (fun r => varianceFromBaseline r = None) rs.
Proof.
  intros Hcb. induction todo as [|s rest IH]; intros completed results w.
  - exists [], w. simpl. rewrite app_nil_r. repeat split; constructor.
  - simpl. unfold bind at 1.
    destruct (runScenario_spec env base s w) as (r & w1 & Hr & Hfor & Hv & _).
    rewrite Hr. unfold bind at 1.
    destruct (report_returns cb
                (Js.ofNat (S completed) / Js.ofNat total * 100) w1 Hcb)
      as (w2 & Hrep).
    rewrite Hrep.
    destruct (IH (S completed) (results ++ [r])%list w2)
      as (rs & w3 & Hloop & Hall & Hnone).
    exists (r :: rs), w3. rewrite Hloop.
    rewrite <- app_assoc. simpl. repeat split; constructor; auto.
Qed.

(** With the recording callback, the loop appends one percentage per
    scenario to the record, in order. *)
Lemma runLoop_progress (env : Env) (base : EnhancedFundInputs) (total : nat) :
  forall (todo : list ScenarioDefinition) (completed : nat)
         (results : list ScenarioResult) (w : World (list Q)),
    client (snd (EnhancedBatchRunner.runLoop env base
                   (Some EnhancedBatchRunner.recordProgress) total
                   todo completed results w))
    = (client w
       ++ map (percentAfter total) (seq (S completed) (List.length todo)))%list.
Proof.
  induction todo as [|s rest IH]; intros completed results w.
  - simpl. now rewrite app_nil_r.
  - simpl. unfold bind at 1.
    destruct (runScenario_spec env base s w) as (r & w1 & Hr & _ & _ & Hc & _).
    rewrite Hr. unfold bind at 1. simpl.
    rewrite IH. simpl. rewrite Hc. rewrite <- app_assoc. reflexivity.
Qed.

Lemma recordProgress_returns :
  returnsNormally (Some EnhancedBatchRunner.recordProgress).
Proof.
  intros callback Heq pct w. inversion Heq; subst.
  eexists. reflexivity.
Qed.

Lemma no_callback_returns {C} : returnsNormally (@None (Q -> M C unit)).
Proof. intros callback Heq. discriminate Heq. Qed.

(** The variance pass keeps every entry in place and only fills in
    [varianceFromBaseline]. *)
Lemma addVariance_keeps (rs : list ScenarioResult) :
  Forall2 (fun r r' =>
             scenarioId r' = scenarioId r /\ definition r' = definition r
             /\ result r' = result r /\ sr_warnings r' = sr_warnings r)
          rs (EnhancedBatchRunner.addVariance rs).
Proof.
  unfold EnhancedBatchRunner.addVariance.
  destruct (find EnhancedBatchRunner.flagged rs) as [b|].
  - induction rs as [|r rs IH]; simpl; constructor; auto.
    destruct (negb (scenarioId r =? scenarioId b)%string); simpl; auto.
  - induction rs as [|r rs IH]; constructor; auto.
Qed.

Lemma resultFor_keeps (env : Env) (base : EnhancedFundInputs)
    (scs : list ScenarioDefinition) :
  forall rs rs',
    Forall2 (resultFor env base) scs rs ->
    Forall2 (fun r r' =>
               scenarioId r' = scenarioId r /\ definition r' = definition r
               /\ result r' = result r /\ sr_warnings r' = sr_warnings r)
            rs rs' ->
    Forall2 (resultFor env base) scs rs'.
Proof.
  induction scs as [|s scs IH]; intros rs rs' H1 H2.
  - inversion H1; subst. inversion H2; subst. constructor.
  - inversion H1 as [|? r ? rs0 Hr Hrest]; subst.
    inversion H2 as [|? r' ? rs0' (Hid & Hdef & Hres & Hw) Hrest']; subst.
    constructor; [|eapply IH; eauto].
    unfold resultFor in *. rewrite Hid, Hdef, Hres, Hw. exact Hr.
Qed.

(** Up to five scenarios: the run returns one entry per scenario, each the
    forecast of its scenario or, when the model threw, the placeholder with
    the message; a failure leaves the other entries as they are. *)
Lemma small_batch_isolates_failures {C} (env : Env) (base : EnhancedFundInputs)
    (scs : list ScenarioDefinition) (cb : option (Q -> M C unit))
    (w : World C) (fuel : nat) :
  (List.length scs <= 5)%nat ->
  returnsNormally cb ->
  exists rs w',
    EnhancedBatchRunner.run (S fuel) env (EnhancedBatchRunner.load env base scs) cb w
    = Some (Returned rs, w')
    /\ Forall2 (resultFor env base) scs rs
    /\ List.length rs = List.length scs.
Proof.
  intros Hle Hcb.
  destruct (load_fields env base scs) as (Hs & Hb & _).
  rewrite run_small by (rewrite Hs; exact Hle).
  unfold EnhancedBatchRunner.runSequential. rewrite Hs, Hb.
  unfold bind.
  destruct (runLoop_spec env base cb (List.length scs) Hcb scs 0%nat [] w)
    as (rs & w' & Hloop & Hall & _).
  rewrite Hloop. simpl.
  exists (EnhancedBatchRunner.addVariance rs), w'.
  assert (H2 : Forall2 (resultFor env base) scs (EnhancedBatchRunner.addVariance rs))
    by (eapply resultFor_keeps; [exact Hall | apply addVariance_keeps]).
  repeat split; auto.
  symmetry. eapply Forall2_length; eauto.
Qed.

Lemma ofNat_lt (a b : nat) : (a < b)%nat -> Js.ofNat a < Js.ofNat b.
Proof.
  intros H. unfold Js.ofNat. rewrite <- Zlt_Qlt. lia.
Qed.

Lemma percentAfter_lt (n k k' : nat) :
  (0 < n)%nat -> (k < k')%nat -> percentAfter n k < percentAfter n k'.
Proof.
  intros Hn Hk. unfold percentAfter.
  apply Qmult_lt_r; [reflexivity|].
  unfold Qdiv. apply Qmult_lt_r.
  - apply Qinv_lt_0_compat. apply (ofNat_lt 0 n Hn).
  - now apply ofNat_lt.
Qed.

Lemma percentAfter_all (n : nat) : (0 < n)%nat -> percentAfter n n == 100.
Proof.
  intros Hn. unfold percentAfter. field.
  intros H0. pose proof (ofNat_lt 0 n Hn) as Hlt.
  rewrite H0 in Hlt. exact (Qlt_irrefl _ Hlt).
Qed.

(** One to five scenarios, with the recording callback: the record grows by
    one percentage per scenario, the percentages rise strictly, and the last
    one is 100. *)
Lemma small_batch_progress (env : Env) (base : EnhancedFundInputs)
    (scs : list ScenarioDefinition) (w : World (list Q)) (fuel : nat) :
  let n := List.length scs in
  (1 <= n <= 5)%nat ->
  exists rs w',
    EnhancedBatchRunner.run (S fuel) env (EnhancedBatchRunner.load env base scs)
      (Some EnhancedBatchRunner.recordProgress) w
    = Some (Returned rs, w')
    /\ client w' = (client w ++ map (percentAfter n) (seq 1 n))%list
    /\ (forall k, (1 <= k < n)%nat -> percentAfter n k < percentAfter n (S k))
    /\ percentAfter n n == 100.
Proof.
  intros n [Hlo Hhi].
  destruct (load_fields env base scs) as (Hs & Hb & _).
  rewrite run_small by (rewrite Hs; exact Hhi).
  unfold EnhancedBatchRunner.runSequential. rewrite Hs, Hb.
  unfold bind.
  pose proof (runLoop_progress env base n scs 0%nat [] w) as Hprog.
  destruct (runLoop_spec env base (Some EnhancedBatchRunner.recordProgress) n
              recordProgress_returns scs 0%nat [] w)
    as (rs & w' & Hloop & _ & _).
  fold n. rewrite Hloop in *. simpl in *.
  exists (EnhancedBatchRunner.addVariance rs), w'.
  repeat split; auto.
  - intros k Hk. apply percentAfter_lt; lia.
  - apply percentAfter_all. lia.
Qed.

(** C6.  Progress of a batch run, evaluated.  With three scenarios the
    callback receives 100/3, 200/3 and 100, one value after each scenario.
    With six scenarios [run] hands over to [runWithWebWorkers], which hands
    back to [run]: no amount of fuel lets the run return, and the callback is
    never reached. *)
Theorem progress_of_three_and_six :
  (exists rs w',
      EnhancedBatchRunner.run 1 Samples.env0
        (EnhancedBatchRunner.load Samples.env0 Samples.defaults Samples.three)
        (Some EnhancedBatchRunner.recordProgress) (Samples.world0 [])
      = Some (Returned rs, w')
      /\ client w' = [100 # 3; 200 # 3; 300 # 3])
  /\ (forall fuel,
        EnhancedBatchRunner.run fuel Samples.env0
          (EnhancedBatchRunner.load Samples.env0 Samples.defaults Samples.six)
          (Some EnhancedBatchRunner.recordProgress) (Samples.world0 [])
        = None).
Proof.
  split.
  - eexists. eexists. split; [vm_compute; reflexivity | reflexivity].
  - intros fuel. apply run_large; vm_compute; reflexivity.
Qed.

(** C4.  Failure isolation, evaluated.  The model throws on the scenario
    named broken.  In a batch of three the run returns three entries, and the
    entry of the broken scenario carries the message and the zeroed
    placeholder while its neighbours carry forecasts.  In a batch of six the
    run never returns, so no entry is produced for any scenario. *)
Theorem isolation_of_three_and_six :
  buildEnhancedFundForecast Samples.env0
    (EnhancedBatchRunner.applyScenarioOverrides Samples.defaults Samples.broken)
  = Threw (ErrorObject "CalculationError" "zero total invested")
  /\ (exists r1 r2 r3 w',
        EnhancedBatchRunner.run 1 Samples.env0
          (EnhancedBatchRunner.load Samples.env0 Samples.defaults Samples.three)
          None (Samples.world0 tt)
        = Some (Returned [r1; r2; r3], w')
        /\ sr_warnings r1 = [] /\ sr_warnings r3 = []
        /\ sr_warnings r2 = ["zero total invested"]
        /\ result r2
           = EnhancedBatchRunner.errorResult Samples.now0 Samples.now0
               (ErrorObject "CalculationError" "zero total invested")
        /\ result r3
           = Samples.flatForecast
               (EnhancedBatchRunner.applyScenarioOverrides
                  Samples.defaults Samples.upside))
  /\ (forall fuel,
        EnhancedBatchRunner.run fuel Samples.env0
          (EnhancedBatchRunner.load Samples.env0 Samples.defaults Samples.six)
          None (Samples.world0 tt)
        = None).
Proof.
  split; [reflexivity|]. split.
  - do 4 eexists. split; [vm_compute; reflexivity|].
    repeat split; reflexivity.
  - intros fuel. apply run_large; vm_compute; reflexivity.
Qed.

(** C10.  For a batch of more than five scenarios neither [run] nor
    [runWithWebWorkers] returns, whatever the fuel and the callback: each
    call of one is a call of the other, and the sequential loop is never
    entered. *)
Theorem web_worker_path_never_returns {C} (env : Env)
    (base : EnhancedFundInputs) (scs : list ScenarioDefinition)
    (cb : option (Q -> M C unit)) (w : World C) :
  (5 < List.length scs)%nat ->
  forall fuel,
    EnhancedBatchRunner.runWithWebWorkers (S fuel) env
      (EnhancedBatchRunner.load env base scs) cb w
    = EnhancedBatchRunner.run fuel env (EnhancedBatchRunner.load env base scs) cb w
    /\ EnhancedBatchRunner.run fuel env
         (EnhancedBatchRunner.load env base scs) cb w = None
    /\ EnhancedBatchRunner.runWithWebWorkers fuel env
         (EnhancedBatchRunner.load env base scs) cb w = None.
Proof.
  intros Hlt fuel.
  destruct (load_fields env base scs) as (Hs & _ & Hw).
  split; [reflexivity|].
  apply run_large; [exact Hw | rewrite Hs; exact Hlt].
Qed.

Lemma web_worker_path_never_returns_witness :
  let r := EnhancedBatchRunner.load Samples.env0 Samples.defaults Samples.six in
  let cb := Some EnhancedBatchRunner.recordProgress in
  EnhancedBatchRunner.runWithWebWorkers 11 Samples.env0 r cb (Samples.world0 [])
  = EnhancedBatchRunner.run 10 Samples.env0 r cb (Samples.world0 [])
  /\ EnhancedBatchRunner.run 10 Samples.env0 r cb (Samples.world0 []) = None
  /\ EnhancedBatchRunner.runWithWebWorkers 10 Samples.env0 r cb (Samples.world0 [])
     = None.
Proof.
  apply (web_worker_path_never_returns Samples.env0 Samples.defaults Samples.six
           (Some EnhancedBatchRunner.recordProgress) (Samples.world0 [])).
  unfold lt. simpl. apply le_n.
Defined.

(** ** Variance from the baseline *)









(** ** The prototype's mock forecast *)

Lemma max_proper : Proper (Qeq ==> Qeq ==> Qeq) Js.max.
Proof.
  intros a a' Ha b b' Hb. unfold Js.max, Js.ltb.
  rewrite (Qleb_comp b b' Hb a a' Ha).
  destruct (Qle_bool b' a'); simpl; assumption.
Qed.

Lemma timelineFrom_fst (exp : Q -> Q) (size : Q) (n : nat) :
  forall (i : nat) (g : Mock.Rng),
    fst (Mock.timelineFrom exp size i n g)
    = map (fun k => Mock.timelinePoint exp size (i + k)
                      (Mock.draws g (Mock.used g + k)))
          (seq 0 n).
Proof.
  induction n as [|n IH]; intros i g; [reflexivity|].
  cbn [Mock.timelineFrom]. unfold Mock.random at 1.
  specialize (IH (S i) {| Mock.draws := Mock.draws g; Mock.used := S (Mock.used g) |}).
  destruct (Mock.timelineFrom exp size (S i) n
              {| Mock.draws := Mock.draws g; Mock.used := S (Mock.used g) |})
    as [rest g2].
  simpl in IH. cbn [fst seq map]. rewrite !Nat.add_0_r. f_equal.
  rewrite IH, <- seq_shift, map_map.
  apply map_ext. intros k. now rewrite !Nat.add_succ_r.
Qed.

Lemma calculateForecast_stored (exp : Q -> Q) (s : Mock.State) (g : Mock.Rng) :
  Mock.forecastResult (fst (Mock.calculateForecast exp s g))
  = Some (fst (Mock.mockResult exp (Mock.fundSize s) g)).
Proof.
  unfold Mock.calculateForecast.
  destruct (Mock.mockResult exp (Mock.fundSize s) g). reflexivity.
Qed.

Lemma mockResult_timeline (exp : Q -> Q) (size : Q) (g : Mock.Rng) :
  fst (Mock.mockResult exp size g)
  = {| Mock.grossMoic := 3.2; Mock.netMoic := 2.5; Mock.grossIrr := 0.28;
       Mock.netIrr := 0.22; Mock.tvpi := 2.8; Mock.dpi := 0.9; Mock.rvpi := 1.9;
       Mock.totalInvested := size * 0.85;
       Mock.totalValue := size * 2.5;
       Mock.timeline := fst (Mock.timelineFrom exp size 0 40 g) |}.
Proof.
  unfold Mock.mockResult.
  destruct (Mock.timelineFrom exp size 0 40 g). reflexivity.
Qed.

Ltac mock_fields :=
  cbn [Mock.grossMoic Mock.netMoic Mock.grossIrr Mock.netIrr Mock.tvpi
       Mock.dpi Mock.rvpi Mock.totalInvested Mock.totalValue Mock.timeline].

Ltac mock_fields_in H :=
  cbn [Mock.grossMoic Mock.netMoic Mock.grossIrr Mock.netIrr Mock.tvpi
       Mock.dpi Mock.rvpi Mock.totalInvested Mock.totalValue Mock.timeline] in H.

(** C1, as the code has it.  Two runs of the mock [calculateForecast] on the
    same state store forecasts that agree in every field except the [nav] of
    the forty timeline points, whatever [Math.random] returns; and when the
    two runs see the same forty draws, the stored forecasts are deep-equal. *)
Theorem mock_forecast_up_to_draws (exp : Q -> Q) (s : Mock.State)
    (g1 g2 : Mock.Rng) :
  let r1 := Mock.forecastResult (fst (Mock.calculateForecast exp s g1)) in
  let r2 := Mock.forecastResult (fst (Mock.calculateForecast exp s g2)) in
  (exists f1 f2,
      r1 = Some f1 /\ r2 = Some f2
      /\ Mock.withoutNav f1 = Mock.withoutNav f2
      /\ List.length (Mock.timeline f1) = 40%nat
      /\ List.length (Mock.timeline f2) = 40%nat)
  /\ ((forall i, (i < 40)%nat ->
         Mock.draws g1 (Mock.used g1 + i) == Mock.draws g2 (Mock.used g2 + i)) ->
      Mock.stored_eq r1 r2).
Proof.
  cbv zeta. rewrite !calculateForecast_stored, !mockResult_timeline,
    !timelineFrom_fst.
  split.
  - do 2 eexists. split; [reflexivity|]. split; [reflexivity|].
    split; [|split; mock_fields; now rewrite length_map, length_seq].
    unfold Mock.withoutNav. mock_fields. rewrite !map_map. reflexivity.
  - intros Hdraws. unfold Mock.stored_eq, Mock.ForecastResult_eq. mock_fields.
    repeat (split; [reflexivity|]).
    assert (H : forall l : list nat,
               (forall i, In i l -> (i < 40)%nat) ->
               Forall2 Mock.TimelinePoint_eq
                 (map (fun k => Mock.timelinePoint exp (Mock.fundSize s) (0 + k)
                                  (Mock.draws g1 (Mock.used g1 + k))) l)
                 (map (fun k => Mock.timelinePoint exp (Mock.fundSize s) (0 + k)
                                  (Mock.draws g2 (Mock.used g2 + k))) l)).
    { induction l as [|k l IH]; intros Hl; simpl; constructor.
      - unfold Mock.TimelinePoint_eq, Mock.timelinePoint. simpl.
        repeat split; try reflexivity.
        apply max_proper; [reflexivity|].
        rewrite (Hdraws k (Hl k (or_introl eq_refl))). reflexivity.
      - apply IH. intros i Hi. apply Hl. now right. }
    apply H. intros i Hi. apply in_seq in Hi. lia.
Qed.

Lemma mock_forecast_up_to_draws_witness :
  let exp := fun _ : Q => 1 in
  let r1 := Mock.forecastResult
              (fst (Mock.calculateForecast exp Mock.initialState Samples.allZero)) in
  let r2 := Mock.forecastResult
              (fst (Mock.calculateForecast exp Mock.initialState
                      Samples.zeroThenHalf)) in
  (exists f1 f2,
      r1 = Some f1 /\ r2 = Some f2
      /\ Mock.withoutNav f1 = Mock.withoutNav f2
      /\ List.length (Mock.timeline f1) = 40%nat
      /\ List.length (Mock.timeline f2) = 40%nat)
  /\ Mock.stored_eq r1 r2.
Proof.
  destruct (mock_forecast_up_to_draws (fun _ => 1) Mock.initialState
              Samples.allZero Samples.zeroThenHalf) as [Hfields Hequal].
  split; [exact Hfields|].
  apply Hequal. intros i Hi. simpl.
  apply Nat.ltb_lt in Hi. rewrite Hi. reflexivity.
Defined.

(** C1 as stated fails on the mock: with the same state, a run whose draws
    are all 0 and a run whose draws are all 1/2 store forecasts that differ
    in the first [nav], for every function standing for [Math.exp] that maps
    0 to 1. *)
Lemma mock_forecast_depends_on_draws :
  ~ exists exp : Q -> Q,
      Proper (Qeq ==> Qeq) exp /\ exp 0 == 1
      /\ Mock.stored_eq
           (Mock.forecastResult
              (fst (Mock.calculateForecast exp Mock.initialState Samples.allZero)))
           (Mock.forecastResult
              (fst (Mock.calculateForecast exp Mock.initialState Samples.allHalf))).
Proof.
  intros (exp & Hp & H0 & Heq).
  rewrite !calculateForecast_stored, !mockResult_timeline, !timelineFrom_fst in Heq.
  unfold Mock.stored_eq, Mock.ForecastResult_eq in Heq. mock_fields_in Heq.
  destruct Heq as (_ & _ & _ & _ & _ & _ & _ & _ & _ & Htl).
  change (seq 0 40) with (0%nat :: seq 1 39) in Htl. cbn [map] in Htl.
  inversion Htl as [|p q l l' (_ & Hnav & _) _]; subst. clear Htl.
  cbn [Mock.nav Mock.timelinePoint Mock.draws Mock.used Mock.fundSize
       Mock.initialState Samples.allZero Samples.allHalf Nat.add] in Hnav.
  assert (He : exp (- Js.ofNat 0 / 10) == 1).
  { rewrite <- H0. apply Hp. reflexivity. }
  assert (Hz : Js.max 0 (100000000 * (1 - exp (- Js.ofNat 0 / 10) + 0 * 0.3))
               == Js.max 0 (100000000 * (1 - 1 + 0 * 0.3))).
  { apply max_proper; [reflexivity|]. rewrite He. reflexivity. }
  assert (Hh : Js.max 0 (100000000 * (1 - exp (- Js.ofNat 0 / 10) + (1 # 2) * 0.3))
               == Js.max 0 (100000000 * (1 - 1 + (1 # 2) * 0.3))).
  { apply max_proper; [reflexivity|]. rewrite He. reflexivity. }
  rewrite Hz, Hh in Hnav. vm_compute in Hnav. discriminate Hnav.
Qed.

(** ** The object store *)

Section StoreFacts.

Import Store.

Lemma read_lt (h : Heap) (r : Ref) (o : Obj) :
  read h r = Some o -> (r < List.length h)%nat.
Proof.
  unfold read. intros H. apply nth_error_Some. congruence.
Qed.

Lemma read_alloc_old (h : Heap) (o : Obj) (r : Ref) :
  (r < List.length h)%nat -> read (snd (alloc o h)) r = read h r.
Proof. intros H. unfold read, alloc. simpl. now apply nth_error_app1. Qed.

Lemma read_alloc_new (h : Heap) (o : Obj) :
  read (snd (alloc o h)) (fst (alloc o h)) = Some o.
Proof.
  unfold read, alloc. simpl.
  rewrite nth_error_app2 by lia. now rewrite Nat.sub_diag.
Qed.

Lemma length_alloc (h : Heap) (o : Obj) :
  List.length (snd (alloc o h)) = S (List.length h).
Proof. unfold alloc. simpl. rewrite length_app. simpl. lia. Qed.

Lemma length_write (r : Ref) (o : Obj) (h : Heap) :
  List.length (write r o h) = List.length h.
Proof.
  revert r. induction h as [|x h IH]; intros [|r]; simpl; auto.
Qed.

Lemma read_write_same (r : Ref) (o : Obj) (h : Heap) :
  (r < List.length h)%nat -> read (write r o h) r = Some o.
Proof.
  unfold read. revert r.
  induction h as [|x h IH]; intros [|r] H; simpl in *; try lia; auto.
  apply IH. lia.
Qed.

Lemma read_write_other (r r' : Ref) (o : Obj) (h : Heap) :
  r' <> r -> read (write r o h) r' = read h r'.
Proof.
  unfold read. revert r r'.
  induction h as [|x h IH]; intros [|r] [|r'] H; simpl; auto; try congruence.
Qed.

Lemma agreeBelow_refl (k : Ref) (h : Heap) : agreeBelow k h h.
Proof. intros r _. reflexivity. Qed.

Lemma agreeBelow_trans (k : Ref) (h1 h2 h3 : Heap) :
  agreeBelow k h1 h2 -> agreeBelow k h2 h3 -> agreeBelow k h1 h3.
Proof. intros H12 H23 r Hr. rewrite (H23 r Hr). now apply H12. Qed.

Lemma agreeBelow_alloc (k : Ref) (h : Heap) (o : Obj) :
  (k <= List.length h)%nat -> agreeBelow k h (snd (alloc o h)).
Proof. intros Hk r Hr. apply read_alloc_old. lia. Qed.

Lemma agreeBelow_write (k r : Ref) (o : Obj) (h : Heap) :
  (k <= r)%nat -> agreeBelow k h (write r o h).
Proof. intros Hk r' Hr'. apply read_write_other. lia. Qed.

Lemma agreeBelow_preserves (h h' : Heap) :
  agreeBelow (List.length h) h h' -> preserves h h'.
Proof.
  intros H r o Hr. rewrite (H r (read_lt h r o Hr)). exact Hr.
Qed.

Lemma preserves_refl (h : Heap) : preserves h h.
Proof. intros r o H. exact H. Qed.

Lemma preserves_trans (h1 h2 h3 : Heap) :
  preserves h1 h2 -> preserves h2 h3 -> preserves h1 h3.
Proof. intros H12 H23 r o H. apply H23, H12, H. Qed.

Lemma preserves_length (h h' : Heap) :
  preserves h h' -> (List.length h <= List.length h')%nat.
Proof.
  intros H. destruct h as [|x h0] eqn:E; [simpl; lia|]. rewrite <- E in *.
  assert (Hlast : exists o, read h (List.length h - 1)%nat = Some o).
  { unfold read. destruct (nth_error h (List.length h - 1)%nat) eqn:En; eauto.
    apply nth_error_None in En. rewrite E in En. simpl in En. lia. }
  destruct Hlast as (o & Ho). apply H in Ho. apply read_lt in Ho. lia.
Qed.

Lemma preserves_wellFormed (h h' : Heap) (base : Ref) :
  preserves h h' -> wellFormed h base -> wellFormed h' base.
Proof.
  intros Hp (b & elems & fp & rows & Hb & Ha & He & Hf & Hr).
  exists b, elems, fp, rows. repeat split; auto.
  eapply Forall_impl; [|exact He].
  intros e (s & Hs). exists s. auto.
Qed.

(** Assignment to a field of the copy. *)
Lemma assign_spec (m : Ref) (f : InputsObj -> InputsObj) (h : Heap)
    (mo : InputsObj) :
  readInputs h m = Some mo ->
  exists h',
    assign m f h = Some h'
    /\ agreeBelow m h h'
    /\ List.length h' = List.length h
    /\ readInputs h' m = Some (f mo).
Proof.
  intros Hm. unfold assign. rewrite Hm. eexists. split; [reflexivity|].
  split; [apply agreeBelow_write; lia|].
  split; [apply length_write|].
  unfold readInputs in *. rewrite read_write_same; [reflexivity|].
  destruct (read h m) eqn:E; [|discriminate]. eapply read_lt; eauto.
Qed.

End StoreFacts.

Section StoreSteps.

Import Store.

Lemma preserves_agreeBelow (k : Ref) (h h' : Heap) :
  preserves h h' -> (k <= List.length h)%nat -> agreeBelow k h h'.
Proof.
  intros Hp Hk r Hr.
  destruct (read h r) as [o|] eqn:E; [now apply Hp|].
  unfold read in E. apply nth_error_None in E. lia.
Qed.

Lemma preserves_alloc (h : Heap) (o : Obj) : preserves h (snd (alloc o h)).
Proof.
  intros r o' Hr. rewrite read_alloc_old; [exact Hr|]. eapply read_lt; eauto.
Qed.

(** The strategies are mapped without touching any object of the store. *)
Lemma mapStrategies_spec (allocations : FundStage -> option Q)
    (elems : list Ref) :
  forall h : Heap,
    Forall (fun e => exists s, read h e = Some (OStrategy s)) elems ->
    exists elems' h',
      mapStrategies allocations elems h = Some (elems', h')
      /\ preserves h h'.
Proof.
  induction elems as [|e rest IH]; intros h Hall.
  - exists [], h. split; [reflexivity | apply preserves_refl].
  - inversion Hall as [|? ? (s & Hs) Hrest]; subst.
    simpl. rewrite Hs.
    destruct (allocations (stage s)) as [override|].
    + destruct (IH (snd (alloc (OStrategy (withAllocation override s)) h)))
        as (rest' & h' & Hmap & Hp).
      { eapply Forall_impl; [|exact Hrest].
        intros e' (s' & Hs'). exists s'. now apply preserves_alloc. }
      unfold alloc in *. simpl in *. rewrite Hmap.
      eexists. eexists. split; [reflexivity|].
      eapply preserves_trans; [|exact Hp].
      apply (preserves_alloc h (OStrategy (withAllocation override s))).
    + destruct (IH h Hrest) as (rest' & h' & Hmap & Hp).
      rewrite Hmap. eexists. eexists. split; [reflexivity | exact Hp].
Qed.

Variable h0 : Heap.
Variable b : InputsObj.

Local Abbreviation m := (List.length h0).

Lemma underway_start : underway h0 b false false false (snd (alloc (OInputs b) h0)).
Proof.
  split; [apply agreeBelow_alloc; lia|].
  split; [rewrite length_alloc; lia|].
  exists b. split.
  - unfold readInputs.
    change (List.length h0) with (fst (alloc (OInputs b) h0)).
    now rewrite read_alloc_new.
  - unfold shares, sharedOrFresh. repeat split.
Qed.

(** An assignment that leaves the object-valued fields alone. *)
Lemma underway_assign (f : InputsObj -> InputsObj) (sS sE sF : bool) (h : Heap) :
  (forall i, graduationMatrix (f i) = graduationMatrix i
             /\ exitMultiples (f i) = exitMultiples i
             /\ recycling (f i) = recycling i
             /\ keyPersonProvisions (f i) = keyPersonProvisions i
             /\ stageStrategies (f i) = stageStrategies i
             /\ exitProbabilityMatrix (f i) = exitProbabilityMatrix i
             /\ feeProfile (f i) = feeProfile i) ->
  underway h0 b sS sE sF h ->
  exists h', assign m f h = Some h' /\ underway h0 b sS sE sF h'.
Proof.
  intros Hf (Hagree & Hlen & mo & Hmo & Hsh).
  destruct (assign_spec m f h mo Hmo) as (h' & Ha & Hag' & Hl' & Hm').
  exists h'. split; [exact Ha|].
  split; [eapply agreeBelow_trans; eauto|].
  split; [rewrite Hl'; exact Hlen|].
  exists (f mo). split; [exact Hm'|].
  destruct (Hf mo) as (F1 & F2 & F3 & F4 & F5 & F6 & F7).
  destruct Hsh as (S1 & S2 & S3 & S4 & S5 & S6 & S7).
  unfold shares. rewrite F1, F2, F3, F4, F5, F6, F7. repeat split; assumption.
Qed.

Lemma underway_read_old (sS sE sF : bool) (h : Heap) (r : Ref) (o : Obj) :
  underway h0 b sS sE sF h -> read h0 r = Some o -> read h r = Some o.
Proof.
  intros (Hagree & _) Hr. rewrite (Hagree r (read_lt h0 r o Hr)). exact Hr.
Qed.

(** Replacing one object-valued field of the copy by a new object [o]. *)
Lemma underway_replace (o : Obj) (set : Ref -> InputsObj -> InputsObj)
    (sS sE sF sS' sE' sF' : bool) (h h1 : Heap) :
  underway h0 b sS sE sF h ->
  preserves h h1 ->
  (forall mo, shares m sS sE sF b mo ->
              forall r, (m <= r)%nat -> shares m sS' sE' sF' b (set r mo)) ->
  exists h',
    assign m (set (fst (alloc o h1))) (snd (alloc o h1)) = Some h'
    /\ underway h0 b sS' sE' sF' h'.
Proof.
  intros (Hagree & Hlen & mo & Hmo & Hsh) Hp Hset.
  pose proof (preserves_length h h1 Hp) as Hl1.
  assert (Hmo1 : readInputs (snd (alloc o h1)) m = Some mo).
  { unfold readInputs in *. destruct (read h m) as [x|] eqn:E; [|discriminate].
    rewrite (preserves_alloc h1 o m x (Hp m x E)). exact Hmo. }
  destruct (assign_spec m (set (fst (alloc o h1))) _ mo Hmo1)
    as (h' & Ha & Hag' & Hl' & Hm').
  exists h'. split; [exact Ha|].
  split.
  { eapply agreeBelow_trans; [exact Hagree|].
    eapply agreeBelow_trans; [apply (preserves_agreeBelow m h h1 Hp); lia|].
    eapply agreeBelow_trans; [apply (agreeBelow_alloc m h1 o); lia|].
    exact Hag'. }
  split; [rewrite Hl', length_alloc; lia|].
  eexists. split; [exact Hm'|].
  apply Hset; [exact Hsh|]. simpl. lia.
Qed.

Lemma underway_strategies (allocations : FundStage -> option Q)
    (elems : list Ref) (sE sF : bool) (h : Heap) :
  read h0 (stageStrategies b) = Some (OArray elems) ->
  Forall (fun e => exists s, read h0 e = Some (OStrategy s)) elems ->
  underway h0 b false sE sF h ->
  exists h',
    overrideStrategies m allocations h = Some h'
    /\ underway h0 b true sE sF h'.
Proof.
  intros Harr Hel Hu.
  pose proof Hu as (Hagree & Hlen & mo & Hmo & Hsh).
  unfold overrideStrategies. rewrite Hmo.
  destruct Hsh as (S1 & S2 & S3 & S4 & S5 & S6 & S7).
  simpl in S5. rewrite S5.
  rewrite (underway_read_old _ _ _ h _ _ Hu Harr).
  destruct (mapStrategies_spec allocations elems h) as (elems' & h1 & Hmap & Hp).
  { eapply Forall_impl; [|exact Hel].
    intros e (s & Hs). exists s. eapply underway_read_old; eauto. }
  rewrite Hmap.
  destruct (underway_replace (OArray elems') setStageStrategies
              false sE sF true sE sF h h1 Hu Hp) as (h' & Ha & Hu').
  { intros mo' (T1 & T2 & T3 & T4 & T5 & T6 & T7) r Hr.
    unfold shares. simpl. repeat split; assumption. }
  exists h'. split; [|exact Hu'].
  unfold alloc in *. simpl in *. exact Ha.
Qed.

Lemma underway_probs (probs : FundStage -> option Ref)
    (rows : FundStage -> option Ref) (sS sF : bool) (h : Heap) :
  read h0 (exitProbabilityMatrix b) = Some (OStageMap rows) ->
  underway h0 b sS false sF h ->
  exists h',
    overrideExitProbabilities m probs h = Some h'
    /\ underway h0 b sS true sF h'.
Proof.
  intros Hrows Hu.
  pose proof Hu as (Hagree & Hlen & mo & Hmo & Hsh).
  unfold overrideExitProbabilities. rewrite Hmo.
  destruct Hsh as (S1 & S2 & S3 & S4 & S5 & S6 & S7).
  simpl in S6. rewrite S6.
  rewrite (underway_read_old _ _ _ h _ _ Hu Hrows).
  destruct (underway_replace
              (OStageMap (fun s => match probs s with
                                   | Some r => Some r
                                   | None => rows s
                                   end))
              setExitProbabilityMatrix
              sS false sF sS true sF h h Hu (preserves_refl h))
    as (h' & Ha & Hu').
  { intros mo' (T1 & T2 & T3 & T4 & T5 & T6 & T7) r Hr.
    unfold shares. simpl. repeat split; assumption. }
  exists h'. split; [|exact Hu'].
  unfold alloc in *. simpl in *. exact Ha.
Qed.

Lemma underway_fees (adj : PartialFeeProfile) (fp : FeeProfile)
    (sS sE : bool) (h : Heap) :
  read h0 (feeProfile b) = Some (OFeeProfile fp) ->
  underway h0 b sS sE false h ->
  exists h',
    overrideFees m adj h = Some h' /\ underway h0 b sS sE true h'.
Proof.
  intros Hfp Hu.
  pose proof Hu as (Hagree & Hlen & mo & Hmo & Hsh).
  unfold overrideFees. rewrite Hmo.
  destruct Hsh as (S1 & S2 & S3 & S4 & S5 & S6 & S7).
  simpl in S7. rewrite S7.
  rewrite (underway_read_old _ _ _ h _ _ Hu Hfp).
  destruct (underway_replace
              (OFeeProfile (EnhancedBatchRunner.mergeFees fp adj))
              setFeeProfile
              sS sE false sS sE true h h Hu (preserves_refl h))
    as (h' & Ha & Hu').
  { intros mo' (T1 & T2 & T3 & T4 & T5 & T6 & T7) r Hr.
    unfold shares. simpl. repeat split; assumption. }
  exists h'. split; [|exact Hu'].
  unfold alloc in *. simpl in *. exact Ha.
Qed.

Lemma underway_timing (timing : TimingAdjustments) (sS sE sF : bool) (h : Heap) :
  underway h0 b sS sE sF h ->
  exists h', overrideTiming m timing h = Some h' /\ underway h0 b sS sE sF h'.
Proof.
  intros Hu. unfold overrideTiming.
  destruct (deploymentAcceleration timing) as [d|]; [|eauto].
  destruct (Js.truthy d); [|eauto].
  apply underway_assign; [|exact Hu].
  intros i. simpl. repeat split.
Qed.

(** [if (field) step], for a step that may mark a part as replaced. *)
Lemma whenSome_spec {A} (o : option A) (step : A -> Heap -> option Heap)
    (P : bool -> Heap -> Prop) (h : Heap) :
  P false h ->
  (forall a, o = Some a -> exists h', step a h = Some h' /\ P true h') ->
  exists h', whenSome o step (Some h) = Some h' /\ P (isSome o) h'.
Proof.
  intros Hf Hstep. destruct o as [a|]; simpl.
  - exact (Hstep a eq_refl).
  - eauto.
Qed.

End StoreSteps.

Section StoreRun.

Import Store.

Lemma readInputs_preserved (h h' : Heap) (r : Ref) (o : InputsObj) :
  preserves h h' -> readInputs h r = Some o -> readInputs h' r = Some o.
Proof.
  unfold readInputs. intros Hp H.
  destruct (read h r) as [x|] eqn:E; [|discriminate].
  now rewrite (Hp r x E).
Qed.

Lemma sharedOrFresh_weaken (fresh fresh' : Ref) (replaced : bool) (old new : Ref) :
  (fresh <= fresh')%nat ->
  sharedOrFresh fresh' replaced old new -> sharedOrFresh fresh replaced old new.
Proof. unfold sharedOrFresh. destruct replaced; [lia | auto]. Qed.

Lemma shares_weaken (fresh fresh' : Ref) (sS sE sF : bool) (b mo : InputsObj) :
  (fresh <= fresh')%nat ->
  shares fresh' sS sE sF b mo -> shares fresh sS sE sF b mo.
Proof.
  intros Hle (S1 & S2 & S3 & S4 & S5 & S6 & S7).
  unfold shares. repeat split; auto; eapply sharedOrFresh_weaken; eauto.
Qed.

(** One application of the overrides: it returns, the copy is a new object
    at the first free address, nothing that was in the store is written,
    and the copy shares with the baseline whatever was not replaced. *)
Lemma applyScenarioOverrides_spec (h0 : Heap) (base : Ref) (ov : Overrides) :
  wellFormed h0 base ->
  exists b h',
    readInputs h0 base = Some b
    /\ applyScenarioOverrides h0 base ov = Some (List.length h0, h')
    /\ underway h0 b (isSome (o_stageAllocations ov))
         (isSome (o_exitProbabilities ov)) (isSome (o_feeAdjustments ov)) h'.
Proof.
  intros (b & elems & fp & rows & Hb & Ha & He & Hf & Hr).
  assert (Hrb : readInputs h0 base = Some b)
    by (unfold readInputs; now rewrite Hb).
  exists b. unfold applyScenarioOverrides. rewrite Hrb.
  unfold alloc at 1. cbv iota beta.
  pose proof (underway_start h0 b) as U0. unfold alloc in U0. simpl in U0.
  destruct (whenSome_spec (o_fundSize ov)
              (fun v => assign (List.length h0) (setFundSize v))
              (fun _ => underway h0 b false false false) _ U0)
    as (h1 & E1 & U1).
  { intros v _. apply underway_assign; [|exact U0].
    intros i. simpl. repeat split. }
  rewrite E1.
  destruct (whenSome_spec (o_stageAllocations ov)
              (overrideStrategies (List.length h0))
              (fun s => underway h0 b s false false) _ U1)
    as (h2 & E2 & U2).
  { intros a _. eapply underway_strategies; eauto. }
  rewrite E2.
  destruct (whenSome_spec (o_exitProbabilities ov)
              (overrideExitProbabilities (List.length h0))
              (fun e => underway h0 b (isSome (o_stageAllocations ov)) e false)
              _ U2)
    as (h3 & E3 & U3).
  { intros a _. eapply underway_probs; eauto. }
  rewrite E3.
  destruct (whenSome_spec (o_feeAdjustments ov)
              (overrideFees (List.length h0))
              (fun f => underway h0 b (isSome (o_stageAllocations ov))
                          (isSome (o_exitProbabilities ov)) f)
              _ U3)
    as (h4 & E4 & U4).
  { intros a _. eapply underway_fees; eauto. }
  rewrite E4.
  destruct (whenSome_spec (o_timingAdjustments ov)
              (overrideTiming (List.length h0))
              (fun _ => underway h0 b (isSome (o_stageAllocations ov))
                          (isSome (o_exitProbabilities ov))
                          (isSome (o_feeAdjustments ov)))
              _ U4)
    as (h5 & E5 & U5).
  { intros a _. apply underway_timing. exact U4. }
  rewrite E5. exists h5. auto.
Qed.

End StoreRun.

(** C9, as the code has it.  On a store where the baseline configuration
    has the shape of its type, and with a forecast model that writes to no
    object of the store, the scenario loop returns and every object that was
    in the store before the run, the baseline and all it refers to, reads
    the same afterwards.  Each scenario gets a configuration object of its
    own, at a new address.  That object is a shallow copy: the stage
    strategies, the exit probabilities and the fee profile are new objects
    when the scenario overrides them and otherwise the baseline's own, and
    the graduation matrix, exit multiples, recycling and key-person objects
    are always the baseline's own. *)
Theorem baseline_is_never_written (model : Store.Heap -> Store.Ref -> Store.Heap)
    (scs : list Store.Overrides) :
  (forall h r, Store.preserves h (model h r)) ->
  forall (h : Store.Heap) (base : Store.Ref),
    Store.wellFormed h base ->
    exists b ms h',
      Store.readInputs h base = Some b
      /\ Store.runLoop model h base scs = Some (ms, h')
      /\ Store.preserves h h'
      /\ NoDup ms
      /\ Forall2 (fun ov m =>
                    (List.length h <= m)%nat
                    /\ exists mo, Store.readInputs h' m = Some mo
                                  /\ Store.copyOnWrite (List.length h) ov b mo)
                 scs ms.
Proof.
  intros Hmodel. induction scs as [|ov rest IH]; intros h base Hwf.
  - destruct Hwf as (b & elems & fp & rows & Hb & _).
    exists b, [], h. simpl. unfold Store.readInputs. rewrite Hb.
    repeat split; try constructor. apply preserves_refl.
  - destruct (applyScenarioOverrides_spec h base ov Hwf)
      as (b & h1 & Hrb & Happ & (Hagree & Hlen & mo & Hmo & Hsh)).
    pose proof (agreeBelow_preserves h h1 Hagree) as Hp1.
    pose proof (Hmodel h1 (List.length h)) as Hp2.
    pose proof (preserves_trans _ _ _ Hp1 Hp2) as Hp12.
    destruct (IH (model h1 (List.length h)) base
                 (preserves_wellFormed _ _ base Hp12 Hwf))
      as (b' & ms & h' & Hrb' & Hloop & Hp3 & Hnd & Hall).
    assert (b' = b).
    { pose proof (readInputs_preserved _ _ _ _ Hp12 Hrb) as H'. congruence. }
    subst b'.
    pose proof (preserves_length _ _ Hp2) as Hl2.
    exists b, (List.length h :: ms), h'.
    split; [exact Hrb|]. split.
    { simpl. rewrite Happ, Hloop. reflexivity. }
    split; [eapply preserves_trans; eauto|].
    split.
    { constructor; [|exact Hnd].
      intros Hin.
      assert (Hge : Forall (fun m => (List.length (model h1 (List.length h)) <= m)%nat) ms).
      { clear - Hall. induction Hall as [|? ? ? ? (Hm & _) _ IHa]; constructor; auto. }
      rewrite Forall_forall in Hge. specialize (Hge _ Hin). lia. }
    constructor.
    + split; [lia|]. exists mo. split; [|exact Hsh].
      eapply readInputs_preserved; [|exact Hmo].
      eapply preserves_trans; eauto.
    + eapply Forall2_impl; [|exact Hall].
      intros ov' m' (Hm' & mo' & Hmo' & Hsh').
      split; [lia|]. exists mo'. split; [exact Hmo'|].
      eapply shares_weaken; [|exact Hsh']. lia.
Qed.

Lemma baseline_is_never_written_witness :
  exists b ms h',
    Store.readInputs Samples.heap0 Samples.baseRef = Some b
    /\ Store.runLoop (fun h _ => h) Samples.heap0 Samples.baseRef
         [Samples.allOverrides; Store.noOverrides]
       = Some (ms, h')
    /\ Store.preserves Samples.heap0 h'
    /\ NoDup ms
    /\ Forall2 (fun ov m =>
                  (List.length Samples.heap0 <= m)%nat
                  /\ exists mo, Store.readInputs h' m = Some mo
                                /\ Store.copyOnWrite (List.length Samples.heap0)
                                     ov b mo)
               [Samples.allOverrides; Store.noOverrides] ms.
Proof.
  apply (baseline_is_never_written (fun h _ => h)
           [Samples.allOverrides; Store.noOverrides]).
  - intros h r r' o H. exact H.
  - unfold Store.wellFormed. do 4 eexists.
    split; [reflexivity|]. split; [reflexivity|].
    split; [|split; reflexivity].
    repeat constructor; eexists; reflexivity.
Defined.

(** C9 as stated fails in its second half: the configuration derived for a
    scenario without overrides holds the very fee-profile, strategy-list and
    exit-probability objects of the baseline, so a write through the derived
    configuration's fee-profile reference changes the fee profile the
    baseline reads. *)
Lemma derived_configuration_shares_objects :
  exists b m h' mo,
    Store.readInputs Samples.heap0 Samples.baseRef = Some b
    /\ Store.applyScenarioOverrides Samples.heap0 Samples.baseRef Store.noOverrides
       = Some (m, h')
    /\ m <> Samples.baseRef
    /\ Store.readInputs h' m = Some mo
    /\ Store.feeProfile mo = Store.feeProfile b
    /\ Store.stageStrategies mo = Store.stageStrategies b
    /\ Store.exitProbabilityMatrix mo = Store.exitProbabilityMatrix b
    /\ Store.read h' (Store.feeProfile b)
       = Some (Store.OFeeProfile (feeProfile Samples.defaults))
    /\ Store.read
         (Store.write (Store.feeProfile mo) (Store.OFeeProfile Samples.otherFees) h')
         (Store.feeProfile b)
       = Some (Store.OFeeProfile Samples.otherFees)
    /\ ~ managementFeeRate Samples.otherFees
         == managementFeeRate (feeProfile Samples.defaults).
Proof.
  do 4 eexists.
  split; [reflexivity|]. split; [reflexivity|].
  split; [discriminate|].
  split; [reflexivity|].
  repeat (split; [reflexivity|]).
  vm_compute. discriminate.
Qed.

(* ===================================================================== *)
(** * Further properties of the code                                      *)
(* ===================================================================== *)

(** ** ValidationService: acceptance and the single checks *)

Lemma ltb_false_iff (a b : Q) : Js.ltb a b = false <-> b <= a.
Proof. unfold Js.ltb. rewrite negb_false_iff. apply Qle_bool_iff. Qed.

Lemma ltb_true_iff (a b : Q) : Js.ltb a b = true <-> a < b.
Proof.
  split; [|apply ltb_true].
  intros H. apply Qnot_le_lt. intros Hle.
  apply ltb_false_iff in Hle. congruence.
Qed.

Lemma leb_false_iff (a b : Q) : Js.leb a b = false <-> b < a.
Proof.
  unfold Js.leb. split.
  - intros H. apply Qnot_le_lt. intros Hle. apply Qle_bool_iff in Hle. congruence.
  - intros H. destruct (Qle_bool a b) eqn:E; [|reflexivity].
    apply Qle_bool_iff in E. exfalso. exact (Qlt_not_le _ _ H E).
Qed.

Lemma leb_true_iff (a b : Q) : Js.leb a b = true <-> a <= b.
Proof. apply Qle_bool_iff. Qed.

Lemma gtb_true_lt (a b : Q) : Js.gtb a b = true <-> b < a.
Proof. unfold Js.gtb. apply ltb_true_iff. Qed.

Lemma pushIf_nil (b : bool) (e : ValidationError) :
  ValidationService.pushIf b e = [] <-> b = false.
Proof. destruct b; simpl; split; intros H; (reflexivity || discriminate H). Qed.

Lemma app_nil_iff {A} (l1 l2 : list A) : (l1 ++ l2)%list = [] <-> l1 = [] /\ l2 = [].
Proof.
  split.
  - apply app_eq_nil.
  - intros [-> ->]. reflexivity.
Qed.

Lemma validateFundInputs_blocks (inputs : EnhancedFundInputs) :
  ValidationService.validateFundInputs inputs
  = (fundSizeFindings inputs
     ++ (match stageStrategies inputs with
         | [] =>
             [ValidationService.err "stageStrategies"
                "At least one stage strategy is required"
                "MISSING_STAGE_STRATEGIES" None None]
         | _ =>
             let total :=
               ValidationService.totalAllocation (stageStrategies inputs) in
             ValidationService.pushIf (Js.gtbD (PrimFloat.abs (total - 1.0)) 0.001)
               (ValidationService.err "stageStrategies"
                  ("Stage allocations must sum to 100% (currently "
                     ++ Js.toFixedD 1 (total * 100) ++ "%)")
                  "INVALID_ALLOCATION_SUM" (Js.finite total)
                  (Some "Adjust allocations to sum to exactly 100%"))
             ++ ValidationService.validateStrategiesFrom 0 (stageStrategies inputs)
         end)
     ++ ValidationService.validateFeeProfile (feeProfile inputs)
     ++ ValidationService.validateGraduationMatrix (graduationMatrix inputs)
     ++ ValidationService.pushIf
          (Js.gtb (investmentPeriodQuarters inputs) (fundLifeQuarters inputs))
          (ValidationService.err "investmentPeriodQuarters"
             "Investment period cannot exceed fund life"
             "INVALID_TIMELINE" (Some (investmentPeriodQuarters inputs)) None)
     ++ ValidationService.pushIf (Js.gtb (fundLifeQuarters inputs) 60)
          (ValidationService.err "fundLifeQuarters"
             "Fund life exceeds typical 15-year maximum"
             "EXCESSIVE_FUND_LIFE" (Some (fundLifeQuarters inputs))
             (Some "Consider reducing fund life to 10-12 years")))%list.
Proof. reflexivity. Qed.

Lemma fundSizeFindings_nil (inputs : EnhancedFundInputs) :
  fundSizeFindings inputs = []
  <-> 10_000_000 <= fundSize inputs /\ fundSize inputs <= 10_000_000_000.
Proof.
  unfold fundSizeFindings.
  destruct (negb (Js.truthy (fundSize inputs)) || Js.leb (fundSize inputs) 0) eqn:E1.
  - split; [discriminate|]. intros [Hlo _]. exfalso.
    apply orb_true_iff in E1. destruct E1 as [E | E].
    + unfold Js.truthy in E. rewrite negb_involutive in E.
      apply Qeq_bool_iff in E. rewrite E in Hlo.
      revert Hlo. apply Qlt_not_le. reflexivity.
    + apply leb_true_iff in E.
      apply (Qlt_not_le 0 10_000_000); [reflexivity|].
      eapply Qle_trans; eauto.
  - destruct (Js.ltb (fundSize inputs) 10_000_000) eqn:E2.
    + split; [discriminate|]. intros [Hlo _]. exfalso.
      apply ltb_true_iff in E2. exact (Qlt_not_le _ _ E2 Hlo).
    + apply ltb_false_iff in E2.
      destruct (Js.gtb (fundSize inputs) 10_000_000_000) eqn:E3.
      * split; [discriminate|]. intros [_ Hhi]. exfalso.
        apply gtb_true_iff in E3. contradiction.
      * apply gtb_false_iff in E3. tauto.
Qed.

Lemma validateStageStrategy_nil (s : StageStrategy) (i : nat) :
  ValidationService.validateStageStrategy s i = [] <-> strategyInBounds s.
Proof.
  unfold ValidationService.validateStageStrategy, strategyInBounds.
  rewrite !app_nil_iff, !pushIf_nil, !orb_false_iff.
  rewrite !ltb_false_iff, !gtb_false_iff, !leb_false_iff. tauto.
Qed.

Lemma validateStrategiesFrom_nil (l : list StageStrategy) :
  forall i, ValidationService.validateStrategiesFrom i l = []
            <-> Forall strategyInBounds l.
Proof.
  induction l as [|s l IH]; intros i; simpl.
  - split; auto.
  - rewrite app_nil_iff, validateStageStrategy_nil, IH. split.
    + intros [H1 H2]. constructor; auto.
    + intros H. inversion H; auto.
Qed.

Lemma hurdle_check (h : Q) :
  Js.truthy h && (Js.ltb h 0 || Js.gtb h 0.15) = Js.ltb h 0 || Js.gtb h 0.15.
Proof.
  unfold Js.truthy. destruct (Qeq_bool h 0) eqn:E; [|reflexivity].
  apply Qeq_bool_iff in E. simpl. symmetry. apply orb_false_iff. split.
  - apply ltb_false_iff. rewrite E. apply Qle_refl.
  - apply gtb_false_iff. rewrite E. discriminate.
Qed.

Lemma validateFeeProfile_nil (fp : FeeProfile) :
  ValidationService.validateFeeProfile fp = [] <-> feesInBounds fp.
Proof.
  unfold ValidationService.validateFeeProfile, feesInBounds.
  rewrite hurdle_check.
  rewrite !app_nil_iff, !pushIf_nil, !orb_false_iff.
  rewrite !ltb_false_iff, !gtb_false_iff. tauto.
Qed.

Lemma validateGraduationMatrix_nil (m : GraduationMatrix) :
  ValidationService.validateGraduationMatrix m = []
  <-> Forall (fun row => (1 <? doubleSum (map snd (snd row)))%float = false) m.
Proof.
  unfold ValidationService.validateGraduationMatrix.
  induction m as [|row m IH]; cbn [flat_map].
  - split; auto.
  - rewrite app_nil_iff, IH.
    unfold ValidationService.validateGraduationRow at 1.
    cbv zeta. rewrite pushIf_nil, sum_doubleSum. unfold Js.gtbD. split.
    + intros [H1 H2]. constructor; auto.
    + intros H. inversion H; auto.
Qed.

(** X1.  [validateFundInputs] returns no finding exactly when the fund size
    lies between $10M and $10B, there is at least one stage strategy, the
    allocations, added up in doubles from the left, give a sum that is not
    more than 0.001 away from 1 by the double subtraction and comparison,
    every strategy and the fee profile are within their bounds, the rates of
    no graduation row add up in doubles to more than 1, the investment
    period does not exceed the fund life, and the fund life is at most 60
    quarters. *)
Theorem validation_accepts_iff (inputs : EnhancedFundInputs) :
  ValidationService.validateFundInputs inputs = []
  <-> (10_000_000 <= fundSize inputs /\ fundSize inputs <= 10_000_000_000)
      /\ stageStrategies inputs <> []
      /\ (0.001 <? abs (doubleSum (map allocationPct (stageStrategies inputs)) - 1))%float
         = false
      /\ Forall strategyInBounds (stageStrategies inputs)
      /\ feesInBounds (feeProfile inputs)
      /\ Forall (fun row => (1 <? doubleSum (map snd (snd row)))%float = false)
           (graduationMatrix inputs)
      /\ investmentPeriodQuarters inputs <= fundLifeQuarters inputs
      /\ fundLifeQuarters inputs <= 60.
Proof.
  rewrite validateFundInputs_blocks.
  rewrite !app_nil_iff, fundSizeFindings_nil, validateFeeProfile_nil,
    validateGraduationMatrix_nil, !pushIf_nil, !gtb_false_iff.
  rewrite totalAllocation_doubleSum.
  destruct (stageStrategies inputs) as [|s0 rest] eqn:Hs.
  - split.
    + intros (_ & H & _). discriminate H.
    + intros (_ & H & _). contradiction.
  - cbv zeta. rewrite app_nil_iff, pushIf_nil, validateStrategiesFrom_nil.
    unfold Js.gtbD. split.
    + intros (H1 & (H2 & H3) & H4 & H5 & H6 & H7).
      split; [tauto|]. split; [discriminate|]. tauto.
    + intros (H1 & _ & H2 & H3 & H4 & H5 & H6 & H7). tauto.
Qed.

(** The codes each block of the validator can emit. *)
Lemma stage_strategy_emits c P s i :
  emits c P (ValidationService.validateStageStrategy s i) ->
  In c ["INVALID_ALLOCATION_PCT"; "INVALID_CHECK_COUNT"; "INVALID_CHECK_SIZE";
        "INVALID_OWNERSHIP"; "INVALID_RESERVE_RATIO"].
Proof.
  unfold ValidationService.validateStageStrategy. intros H.
  repeat (apply emits_app in H; destruct H as [H | H]);
    apply emits_pushIf in H; destruct H as (_ & H & _); simpl in H; subst c;
    simpl; tauto.
Qed.

Lemma strategies_emit c P l : forall i,
  emits c P (ValidationService.validateStrategiesFrom i l) ->
  In c ["INVALID_ALLOCATION_PCT"; "INVALID_CHECK_COUNT"; "INVALID_CHECK_SIZE";
        "INVALID_OWNERSHIP"; "INVALID_RESERVE_RATIO"].
Proof.
  induction l as [|s l IH]; intros i H; simpl in H.
  - destruct (emits_nil _ _ H).
  - apply emits_app in H. destruct H as [H | H].
    + exact (stage_strategy_emits _ _ _ _ H).
    + exact (IH _ H).
Qed.

Lemma fee_profile_emits c P fp :
  emits c P (ValidationService.validateFeeProfile fp) ->
  In c ["INVALID_MGMT_FEE"; "INVALID_CARRY"; "INVALID_HURDLE"; "INVALID_GP_COMMIT"].
Proof.
  unfold ValidationService.validateFeeProfile. intros H.
  repeat (apply emits_app in H; destruct H as [H | H]);
    apply emits_pushIf in H; destruct H as (_ & H & _); simpl in H; subst c;
    simpl; tauto.
Qed.

Lemma graduation_emits c P m :
  emits c P (ValidationService.validateGraduationMatrix m) ->
  c = "EXCESSIVE_GRADUATION".
Proof.
  unfold ValidationService.validateGraduationMatrix.
  induction m as [|row m IH]; simpl; intros H.
  - destruct (emits_nil _ _ H).
  - apply emits_app in H. destruct H as [H | H]; [|exact (IH H)].
    unfold ValidationService.validateGraduationRow in H.
    apply emits_pushIf in H. destruct H as (_ & H & _). simpl in H. auto.
Qed.

Lemma fundSizeFindings_emits c P inputs :
  emits c P (fundSizeFindings inputs) ->
  In c ["INVALID_FUND_SIZE"; "FUND_SIZE_TOO_SMALL"; "FUND_SIZE_TOO_LARGE"].
Proof.
  unfold fundSizeFindings. intros (e & Hin & Hc & _).
  destruct (negb (Js.truthy (fundSize inputs)) || Js.leb (fundSize inputs) 0);
    [|destruct (Js.ltb (fundSize inputs) 10_000_000);
      [|destruct (Js.gtb (fundSize inputs) 10_000_000_000)]];
    simpl in Hin; try contradiction;
    destruct Hin as [<- | []]; simpl in Hc; subst c; simpl; tauto.
Qed.

(** A finding of the whole run comes from one of the six blocks. *)
Lemma validateFundInputs_emits c P inputs :
  emits c P (ValidationService.validateFundInputs inputs)
  <-> emits c P (fundSizeFindings inputs)
      \/ (stageStrategies inputs = []
          /\ c = "MISSING_STAGE_STRATEGIES"
          /\ P (ValidationService.err "stageStrategies"
                  "At least one stage strategy is required"
                  "MISSING_STAGE_STRATEGIES" None None))
      \/ (stageStrategies inputs <> []
          /\ emits c P
               (ValidationService.pushIf
                  (Js.gtbD (PrimFloat.abs (ValidationService.totalAllocation
                                             (stageStrategies inputs) - 1.0)) 0.001)
                  (ValidationService.err "stageStrategies"
                     ("Stage allocations must sum to 100% (currently "
                        ++ Js.toFixedD 1
                             (ValidationService.totalAllocation
                                (stageStrategies inputs) * 100) ++ "%)")
                     "INVALID_ALLOCATION_SUM"
                     (Js.finite (ValidationService.totalAllocation
                                   (stageStrategies inputs)))
                     (Some "Adjust allocations to sum to exactly 100%"))))
      \/ (stageStrategies inputs <> []
          /\ emits c P (ValidationService.validateStrategiesFrom 0
                          (stageStrategies inputs)))
      \/ emits c P (ValidationService.validateFeeProfile (feeProfile inputs))
      \/ emits c P (ValidationService.validateGraduationMatrix
                      (graduationMatrix inputs))
      \/ emits c P
           (ValidationService.pushIf
              (Js.gtb (investmentPeriodQuarters inputs) (fundLifeQuarters inputs))
              (ValidationService.err "investmentPeriodQuarters"
                 "Investment period cannot exceed fund life"
                 "INVALID_TIMELINE" (Some (investmentPeriodQuarters inputs)) None))
      \/ emits c P
           (ValidationService.pushIf (Js.gtb (fundLifeQuarters inputs) 60)
              (ValidationService.err "fundLifeQuarters"
                 "Fund life exceeds typical 15-year maximum"
                 "EXCESSIVE_FUND_LIFE" (Some (fundLifeQuarters inputs))
                 (Some "Consider reducing fund life to 10-12 years"))).
Proof.
  rewrite validateFundInputs_blocks, !emits_app.
  destruct (stageStrategies inputs) as [|s0 rest] eqn:Hs.
  - split.
    + intros [H | [H | H]]; [tauto | | tauto].
      destruct H as (e & [<- | []] & Hc & HP). simpl in Hc. subst c.
      right. left. auto.
    + intros [H | [H | [H | [H | H]]]]; [tauto | | | | tauto].
      * destruct H as (_ & -> & HP). right. left.
        eexists. split; [left; reflexivity|]. auto.
      * destruct H as (Hne & _). contradiction.
      * destruct H as (Hne & _). contradiction.
  - cbv zeta. rewrite emits_app. split.
    + intros [H | [[H | H] | H]]; [tauto | | | tauto].
      * right. right. left. split; [discriminate | exact H].
      * right. right. right. left. split; [discriminate | exact H].
    + intros [H | [H | [H | [H | H]]]]; [tauto | | | | tauto].
      * destruct H as (He & _). discriminate He.
      * right. left. left. tauto.
      * right. left. right. tauto.
Qed.

Ltac foreign_code H :=
  first
    [ apply fundSizeFindings_emits in H
    | apply strategies_emit in H
    | apply fee_profile_emits in H
    | apply graduation_emits in H
    | (apply emits_pushIf in H; destruct H as (_ & H & _)) ];
  simpl in H; intuition discriminate.

(** X2.  Of the three fund-size findings at most one is emitted, by the
    size alone: INVALID_FUND_SIZE for a size of 0 or less, FUND_SIZE_TOO_SMALL
    for a positive size below $10M, FUND_SIZE_TOO_LARGE for a size above
    $10B, and none of them between $10M and $10B. *)
Theorem fund_size_classes (inputs : EnhancedFundInputs) :
  let findings := ValidationService.validateFundInputs inputs in
  (emits "INVALID_FUND_SIZE" (fun _ => True) findings <-> fundSize inputs <= 0)
  /\ (emits "FUND_SIZE_TOO_SMALL" (fun _ => True) findings
      <-> 0 < fundSize inputs /\ fundSize inputs < 10_000_000)
  /\ (emits "FUND_SIZE_TOO_LARGE" (fun _ => True) findings
      <-> 10_000_000_000 < fundSize inputs).
Proof.
  cbv zeta.
  assert (Hsize : forall c,
             In c ["INVALID_FUND_SIZE"; "FUND_SIZE_TOO_SMALL"; "FUND_SIZE_TOO_LARGE"] ->
             (emits c (fun _ => True) (ValidationService.validateFundInputs inputs)
              <-> emits c (fun _ => True) (fundSizeFindings inputs))).
  { intros c Hc. rewrite validateFundInputs_emits. split; [|tauto].
    intros [H | [H | [H | [H | [H | [H | [H | H]]]]]]]; [exact H | exfalso ..].
    - destruct H as (_ & -> & _). simpl in Hc. intuition discriminate.
    - destruct H as (_ & H). apply emits_pushIf in H.
      destruct H as (_ & H & _). simpl in H. subst c. simpl in Hc.
      intuition discriminate.
    - destruct H as (_ & H). apply strategies_emit in H.
      simpl in H, Hc. intuition (subst; discriminate).
    - apply fee_profile_emits in H. simpl in H, Hc. intuition (subst; discriminate).
    - apply graduation_emits in H. simpl in Hc. intuition (subst; discriminate).
    - apply emits_pushIf in H. destruct H as (_ & H & _). simpl in H, Hc.
      intuition (subst; discriminate).
    - apply emits_pushIf in H. destruct H as (_ & H & _). simpl in H, Hc.
      intuition (subst; discriminate). }
  rewrite !Hsize by (simpl; tauto). clear Hsize.
  unfold fundSizeFindings.
  destruct (negb (Js.truthy (fundSize inputs)) || Js.leb (fundSize inputs) 0) eqn:E1.
  - assert (Hle : fundSize inputs <= 0).
    { apply orb_true_iff in E1. destruct E1 as [E | E].
      - unfold Js.truthy in E. rewrite negb_involutive in E.
        apply Qeq_bool_iff in E. rewrite E. apply Qle_refl.
      - now apply leb_true_iff. }
    split; [|split].
    + split; [auto|]. intros _. eexists. split; [left; reflexivity|]. auto.
    + split.
      * intros (e & [<- | []] & Hc & _). discriminate Hc.
      * intros [Hpos _]. exfalso. exact (Qlt_not_le _ _ Hpos Hle).
    + split.
      * intros (e & [<- | []] & Hc & _). discriminate Hc.
      * intros Hbig. exfalso. apply (Qlt_not_le _ _ Hbig).
        eapply Qle_trans; [exact Hle|]. discriminate.
  - apply orb_false_iff in E1. destruct E1 as [_ E1].
    apply leb_false_iff in E1.
    destruct (Js.ltb (fundSize inputs) 10_000_000) eqn:E2.
    + apply ltb_true_iff in E2. split; [|split].
      * split.
        -- intros (e & [<- | []] & Hc & _). discriminate Hc.
        -- intros Hle. exfalso. exact (Qlt_not_le _ _ E1 Hle).
      * split; [auto|]. intros _. eexists. split; [left; reflexivity|]. auto.
      * split.
        -- intros (e & [<- | []] & Hc & _). discriminate Hc.
        -- intros Hbig. exfalso. apply (Qlt_irrefl (fundSize inputs)).
           eapply Qlt_trans; [exact E2|].
           eapply Qlt_trans; [|exact Hbig]. reflexivity.
    + apply ltb_false_iff in E2.
      destruct (Js.gtb (fundSize inputs) 10_000_000_000) eqn:E3.
      * apply gtb_true_lt in E3. split; [|split].
        -- split.
           ++ intros (e & [<- | []] & Hc & _). discriminate Hc.
           ++ intros Hle. exfalso. exact (Qlt_not_le _ _ E1 Hle).
        -- split.
           ++ intros (e & [<- | []] & Hc & _). discriminate Hc.
           ++ intros [_ Hsm]. exfalso. exact (Qlt_not_le _ _ Hsm E2).
        -- split; [auto|]. intros _. eexists. split; [left; reflexivity|]. auto.
      * apply gtb_false_iff in E3. split; [|split].
        -- split.
           ++ intros H. destruct (emits_nil _ _ H).
           ++ intros Hle. exfalso. exact (Qlt_not_le _ _ E1 Hle).
        -- split.
           ++ intros H. destruct (emits_nil _ _ H).
           ++ intros [_ Hsm]. exfalso. exact (Qlt_not_le _ _ Hsm E2).
        -- split.
           ++ intros H. destruct (emits_nil _ _ H).
           ++ intros Hbig. exfalso. exact (Qlt_not_le _ _ Hbig E3).
Qed.

Ltac wrong_block H :=
  exfalso;
  match type of H with
  | _ /\ _ = _ /\ _ => destruct H as (_ & H & _); discriminate H
  | _ /\ emits _ _ _ => destruct H as (_ & H); foreign_code H
  | _ => foreign_code H
  end.

(** X3.  MISSING_STAGE_STRATEGIES is reported exactly for an empty list of
    stage strategies, and the allocation-sum finding exactly for a non-empty
    list whose allocations add up in doubles, from the left, to a sum more
    than 0.001 away from 1 by the double subtraction and comparison: an
    empty list, whose sum is 0, gets no allocation-sum finding. *)
Theorem strategy_list_rule (inputs : EnhancedFundInputs) :
  let total := doubleSum (map allocationPct (stageStrategies inputs)) in
  let findings := ValidationService.validateFundInputs inputs in
  (emits "MISSING_STAGE_STRATEGIES" (fun e => ve_field e = "stageStrategies")
     findings
   <-> stageStrategies inputs = [])
  /\ (emits "INVALID_ALLOCATION_SUM" (fun _ => True) findings
      <-> stageStrategies inputs <> []
          /\ (0.001 <? abs (total - 1))%float = true).
Proof.
  cbv zeta. rewrite !validateFundInputs_emits, totalAllocation_doubleSum. split.
  - split.
    + intros [H | [H | [H | [H | [H | [H | [H | H]]]]]]];
        [wrong_block H | tauto | wrong_block H ..].
    + intros H. right. left. auto.
  - split.
    + intros [H | [H | [H | [H | [H | [H | [H | H]]]]]]];
        [wrong_block H | wrong_block H | | wrong_block H ..].
      destruct H as (Hne & H). apply emits_pushIf in H.
      destruct H as (H & _). auto.
    + intros (Hne & H). right. right. left. split; [exact Hne|].
      apply emits_pushIf. split; [exact H|].
      cbn [ValidationService.err ve_code]. auto.
Qed.

Lemma outside_iff (x lo hi : Q) :
  Js.ltb x lo || Js.gtb x hi = true <-> x < lo \/ hi < x.
Proof. now rewrite orb_true_iff, ltb_true_iff, gtb_true_lt. Qed.

(** X4.  The four fee findings are reported by the rate alone: a management
    fee outside [0, 0.05], a carry outside [0, 0.30], a hurdle outside
    [0, 0.15] and a GP commitment outside [0, 0.10]; a hurdle of 0, which
    the check skips as falsy, is inside its range anyway. *)
Theorem fee_profile_rules (inputs : EnhancedFundInputs) :
  let fp := feeProfile inputs in
  let findings := ValidationService.validateFundInputs inputs in
  (emits "INVALID_MGMT_FEE" (fun _ => True) findings
   <-> managementFeeRate fp < 0 \/ 0.05 < managementFeeRate fp)
  /\ (emits "INVALID_CARRY" (fun _ => True) findings
      <-> carryRate fp < 0 \/ 0.30 < carryRate fp)
  /\ (emits "INVALID_HURDLE" (fun _ => True) findings
      <-> hurdleRate fp < 0 \/ 0.15 < hurdleRate fp)
  /\ (emits "INVALID_GP_COMMIT" (fun _ => True) findings
      <-> gpCommitment fp < 0 \/ 0.10 < gpCommitment fp).
Proof.
  cbv zeta.
  assert (Hfee : forall c,
             In c ["INVALID_MGMT_FEE"; "INVALID_CARRY"; "INVALID_HURDLE";
                   "INVALID_GP_COMMIT"] ->
             (emits c (fun _ => True) (ValidationService.validateFundInputs inputs)
              <-> emits c (fun _ => True)
                    (ValidationService.validateFeeProfile (feeProfile inputs)))).
  { intros c Hc. rewrite validateFundInputs_emits. split; [|tauto].
    simpl in Hc.
    destruct Hc as [<- | [<- | [<- | [<- | []]]]];
      (intros [H | [H | [H | [H | [H | [H | [H | H]]]]]]];
       [wrong_block H | wrong_block H | wrong_block H | wrong_block H
        | exact H | wrong_block H ..]). }
  rewrite !Hfee by (simpl; tauto). clear Hfee.
  unfold ValidationService.validateFeeProfile.
  rewrite hurdle_check, !emits_app, !emits_pushIf, !outside_iff.
  simpl. repeat split; intros H;
    try (repeat match goal with
                | H : _ \/ _ |- _ => destruct H as [H | H]
                | H : _ /\ _ |- _ => destruct H as [? H]
                end; try discriminate; tauto).
Qed.

Lemma strategies_emit_iff (c : string) (R : StageStrategy -> Prop) :
  (forall s i, emits c (fun _ => True) (ValidationService.validateStageStrategy s i)
               <-> R s) ->
  forall l i,
    emits c (fun _ => True) (ValidationService.validateStrategiesFrom i l)
    <-> Exists R l.
Proof.
  intros Hone. induction l as [|s l IH]; intros i; simpl.
  - split.
    + intros H. destruct (emits_nil _ _ H).
    + intros H. inversion H.
  - rewrite emits_app, Hone, IH, Exists_cons. tauto.
Qed.

Lemma stage_code_from_strategies (c : string) (inputs : EnhancedFundInputs) :
  In c ["INVALID_ALLOCATION_PCT"; "INVALID_CHECK_COUNT"; "INVALID_CHECK_SIZE";
        "INVALID_OWNERSHIP"; "INVALID_RESERVE_RATIO"] ->
  (emits c (fun _ => True) (ValidationService.validateFundInputs inputs)
   <-> emits c (fun _ => True)
         (ValidationService.validateStrategiesFrom 0 (stageStrategies inputs))).
Proof.
  intros Hc. rewrite validateFundInputs_emits. split.
  - simpl in Hc.
    destruct Hc as [<- | [<- | [<- | [<- | [<- | []]]]]];
      (intros [H | [H | [H | [H | [H | [H | [H | H]]]]]]];
       [wrong_block H | wrong_block H | wrong_block H | exact (proj2 H)
        | wrong_block H ..]).
  - intros H. right. right. right. left. split; [|exact H].
    intros He. rewrite He in H. destruct (emits_nil _ _ H).
Qed.

Ltac one_strategy_rule :=
  intros s i; unfold ValidationService.validateStageStrategy; cbv zeta;
  rewrite !emits_app, !emits_pushIf; simpl;
  rewrite ?outside_iff, ?orb_true_iff, ?leb_true_iff, ?gtb_true_lt;
  split; intros H;
  repeat match goal with
         | H : _ \/ _ |- _ => destruct H as [H | H]
         | H : _ /\ _ |- _ => destruct H as [? H]
         end; try discriminate; tauto.

(** X5.  The five per-strategy findings are reported exactly when some stage
    strategy is out of the bound concerned: an allocation outside [0, 1], a
    check count of 0 or less or above 100, an average initial check of 0 or
    less, an ownership outside [0, 0.5], a reserve ratio outside [0, 3]. *)
Theorem stage_strategy_rules (inputs : EnhancedFundInputs) :
  let strategies := stageStrategies inputs in
  let findings := ValidationService.validateFundInputs inputs in
  (emits "INVALID_ALLOCATION_PCT" (fun _ => True) findings
   <-> Exists (fun s => allocationPct s < 0 \/ 1 < allocationPct s) strategies)
  /\ (emits "INVALID_CHECK_COUNT" (fun _ => True) findings
      <-> Exists (fun s => checkCount s <= 0 \/ 100 < checkCount s) strategies)
  /\ (emits "INVALID_CHECK_SIZE" (fun _ => True) findings
      <-> Exists (fun s => avgInitialCheck s <= 0) strategies)
  /\ (emits "INVALID_OWNERSHIP" (fun _ => True) findings
      <-> Exists (fun s => ownership s < 0 \/ 0.5 < ownership s) strategies)
  /\ (emits "INVALID_RESERVE_RATIO" (fun _ => True) findings
      <-> Exists (fun s => reserveRatio s < 0 \/ 3 < reserveRatio s) strategies).
Proof.
  cbv zeta. rewrite !stage_code_from_strategies by (simpl; tauto).
  repeat split; try (apply strategies_emit_iff; one_strategy_rule);
    try (apply (strategies_emit_iff _ _ ltac:(one_strategy_rule))).
Qed.

(** ** ValidationService: warnings *)

Lemma lt_max_iff (t a b : Q) : t < Js.max a b <-> t < a \/ t < b.
Proof.
  unfold Js.max. destruct (Js.ltb a b) eqn:E.
  - apply ltb_true_iff in E. split; [auto|].
    intros [H | H]; [|exact H]. eapply Qlt_trans; eassumption.
  - apply ltb_false_iff in E. split; [auto|].
    intros [H | H]; [exact H|]. eapply Qlt_le_trans; eassumption.
Qed.

Lemma lt_fold_max_iff (t : Q) (l : list Q) : forall x,
  t < fold_left Js.max l x <-> t < x \/ Exists (fun y => t < y) l.
Proof.
  induction l as [|y l IH]; intros x; simpl.
  - split; [auto|]. intros [H | H]; [exact H | inversion H].
  - rewrite IH, lt_max_iff, Exists_cons. tauto.
Qed.

Lemma aggressive_codes n l : forall i,
  In "AGGRESSIVE_RETURNS" (map vw_code (ValidationService.aggressiveReturnsFrom n i l))
  <-> Exists (fun s => 50 < tr_high (targetReturns s)) l.
Proof.
  induction l as [|s l IH]; intros i; simpl.
  - split; [tauto | intros H; inversion H].
  - rewrite map_app, in_app_iff, IH, Exists_cons.
    destruct (Js.gtb (tr_high (targetReturns s)) 50) eqn:E.
    + apply gtb_true_lt in E. simpl. tauto.
    + apply gtb_false_iff in E. simpl. split.
      * intros [[] | H]; auto.
      * intros [H | H]; [|auto]. exfalso. exact (Qlt_not_le _ _ H E).
Qed.

Lemma aggressive_only n l : forall i c,
  In c (map vw_code (ValidationService.aggressiveReturnsFrom n i l)) ->
  c = "AGGRESSIVE_RETURNS".
Proof.
  induction l as [|s l IH]; intros i c; simpl.
  - tauto.
  - rewrite map_app, in_app_iff. intros [H | H]; [|exact (IH _ _ H)].
    destruct (Js.gtb (tr_high (targetReturns s)) 50); simpl in H.
    + destruct H as [<- | []]. reflexivity.
    + destruct H.
Qed.

(** X6.  [getWarnings] reports AGGRESSIVE_RETURNS exactly when some strategy
    has a high target return above 50, LOW_DIVERSIFICATION exactly when there
    are fewer than two strategies, HIGH_CONCENTRATION exactly when some
    strategy is allocated more than 0.6, and no other code; for an empty
    list, where [Math.max()] is [-Infinity], the only warning is
    LOW_DIVERSIFICATION. *)
Theorem warning_rules (numberToString : Q -> string) (inputs : EnhancedFundInputs) :
  let strategies := stageStrategies inputs in
  let codes := map vw_code (ValidationService.getWarnings numberToString inputs) in
  (In "AGGRESSIVE_RETURNS" codes
   <-> Exists (fun s => 50 < tr_high (targetReturns s)) strategies)
  /\ (In "LOW_DIVERSIFICATION" codes <-> (List.length strategies < 2)%nat)
  /\ (In "HIGH_CONCENTRATION" codes
      <-> Exists (fun s => 0.6 < allocationPct s) strategies)
  /\ incl codes ["AGGRESSIVE_RETURNS"; "LOW_DIVERSIFICATION"; "HIGH_CONCENTRATION"].
Proof.
  cbv zeta. unfold ValidationService.getWarnings.
  rewrite !map_app.
  set (A := map vw_code (ValidationService.aggressiveReturnsFrom numberToString 0
                           (stageStrategies inputs))).
  set (L := map vw_code (if (List.length (stageStrategies inputs) <? 2)%nat
                         then _ else _)).
  set (H := map vw_code (match ValidationService.maxOf _ with Some _ => _ | None => _ end)).
  assert (HA : forall c, In c A -> c = "AGGRESSIVE_RETURNS")
    by (intros c; apply aggressive_only).
  assert (HA' : In "AGGRESSIVE_RETURNS" A
                <-> Exists (fun s => 50 < tr_high (targetReturns s))
                      (stageStrategies inputs))
    by apply aggressive_codes.
  assert (HL : forall c, In c L <-> c = "LOW_DIVERSIFICATION"
                                    /\ (List.length (stageStrategies inputs) < 2)%nat).
  { intros c. subst L.
    destruct (List.length (stageStrategies inputs) <? 2)%nat eqn:E.
    - apply Nat.ltb_lt in E. simpl. split.
      + intros [<- | []]. auto.
      + intros [-> _]. auto.
    - apply Nat.ltb_ge in E. simpl. split; [tauto|]. intros [_ Hlt]. lia. }
  assert (HH : forall c, In c H <-> c = "HIGH_CONCENTRATION"
                                    /\ Exists (fun s => 0.6 < allocationPct s)
                                         (stageStrategies inputs)).
  { intros c. subst H.
    destruct (stageStrategies inputs) as [|s rest]; simpl.
    - split; [tauto|]. intros [_ Hex]. inversion Hex.
    - rewrite Exists_cons.
      destruct (Js.gtb _ 0.6) eqn:E.
      + apply gtb_true_lt in E. apply lt_fold_max_iff in E.
        rewrite Exists_map in E. simpl. split.
        * intros [<- | []]. auto.
        * intros [-> _]. auto.
      + apply gtb_false_iff in E. simpl. split; [tauto|].
        intros [_ Hex]. apply (Qlt_not_le 0.6 (fold_left Js.max (map allocationPct rest) (allocationPct s))); [|exact E].
        apply lt_fold_max_iff. rewrite Exists_map. exact Hex. }
  clearbody A L H.
  repeat split.
  - rewrite !in_app_iff, HL, HH. intros [Hin | [[Hc _] | [Hc _]]];
      [tauto | discriminate | discriminate].
  - rewrite in_app_iff. tauto.
  - rewrite !in_app_iff, HL, HH. intros [Hin | [[_ Hc] | [Hc _]]];
      [apply HA in Hin; discriminate | exact Hc | discriminate].
  - intros Hlt. rewrite !in_app_iff, HL. auto.
  - rewrite !in_app_iff, HL, HH. intros [Hin | [[Hc _] | [_ Hc]]];
      [apply HA in Hin; discriminate | discriminate | exact Hc].
  - intros Hex. rewrite !in_app_iff, HH. auto.
  - intros c. rewrite !in_app_iff, HL, HH. simpl.
    intros [Hin | [[-> _] | [-> _]]]; [apply HA in Hin; subst|..]; tauto.
Qed.

(** ** FundCalculationProvider: the two ways a validated run ends *)

(** X7.  When validation finds nothing and the forecast model returns a
    result, [calculateForecast] returns that result, has called the model
    once on the inputs, and leaves the state with the result stored, the
    calculation date read from the clock, progress 100, [isCalculating]
    false and the earlier validation errors cleared; the stored analytics
    are untouched. *)
Theorem forecast_success {A} (env : Env) (inputs : EnhancedFundInputs)
    (w : World (FundCalculation.CalculationState A)) (r : ForecastResult) :
  ValidationService.validateFundInputs inputs = [] ->
  buildEnhancedFundForecast env inputs = Returned r ->
  FundCalculation.calculateForecast env inputs w
  = (Returned r,
     {| clockReads := S (clockReads w);
        simCalls := (simCalls w ++ [inputs])%list;
        client :=
          {| FundCalculation.forecastResult := Some r;
             FundCalculation.enhancedAnalytics :=
               FundCalculation.enhancedAnalytics (client w);
             FundCalculation.isCalculating := false;
             FundCalculation.lastCalculatedAt :=
               Some (dateNow env (clockReads w));
             FundCalculation.calculationProgress := 100;
             FundCalculation.validationErrors := [] |} |}).
Proof.
  intros Hv Hr. unfold FundCalculation.calculateForecast. rewrite Hv. simpl.
  unfold bind, setState, tryCatch, awaitBuild, newDate, ret, throw. simpl.
  rewrite Hr. reflexivity.
Qed.

Lemma forecast_success_witness :
  FundCalculation.calculateForecast Samples.env0 Samples.defaults
    (Samples.world0 (FundCalculation.initialState unit))
  = (Returned (Samples.flatForecast Samples.defaults),
     {| clockReads := 1;
        simCalls := [Samples.defaults];
        client :=
          {| FundCalculation.forecastResult :=
               Some (Samples.flatForecast Samples.defaults);
             FundCalculation.enhancedAnalytics := None;
             FundCalculation.isCalculating := false;
             FundCalculation.lastCalculatedAt := Some Samples.now0;
             FundCalculation.calculationProgress := 100;
             FundCalculation.validationErrors := [] |} |}).
Proof.
  apply (forecast_success Samples.env0 Samples.defaults
           (Samples.world0 (FundCalculation.initialState unit))
           (Samples.flatForecast Samples.defaults)).
  - vm_compute. reflexivity.
  - vm_compute. reflexivity.
Defined.

(** X8.  When validation finds nothing and the forecast model throws,
    [calculateForecast] rethrows the same value after one call of the model;
    the stored forecast, analytics and calculation date stay as they were,
    [isCalculating] is false again and the validation errors are empty.
    ([calculationProgress], which the interval timer also writes, is not part
    of the statement.) *)
Theorem forecast_failure {A} (env : Env) (inputs : EnhancedFundInputs)
    (w : World (FundCalculation.CalculationState A)) (e : Thrown) :
  ValidationService.validateFundInputs inputs = [] ->
  buildEnhancedFundForecast env inputs = Threw e ->
  let after := FundCalculation.calculateForecast env inputs w in
  fst after = Threw e
  /\ simCalls (snd after) = (simCalls w ++ [inputs])%list
  /\ FundCalculation.forecastResult (client (snd after))
     = FundCalculation.forecastResult (client w)
  /\ FundCalculation.enhancedAnalytics (client (snd after))
     = FundCalculation.enhancedAnalytics (client w)
  /\ FundCalculation.lastCalculatedAt (client (snd after))
     = FundCalculation.lastCalculatedAt (client w)
  /\ FundCalculation.isCalculating (client (snd after)) = false
  /\ FundCalculation.validationErrors (client (snd after)) = [].
Proof.
  intros Hv He. unfold FundCalculation.calculateForecast. rewrite Hv. simpl.
  unfold bind, setState, tryCatch, awaitBuild, newDate, ret, throw. simpl.
  rewrite He. simpl. repeat split.
Qed.

Lemma forecast_failure_witness :
  let w := Samples.world0 (FundCalculation.initialState unit) in
  let after :=
    FundCalculation.calculateForecast MoreSamples.failingEnv Samples.defaults w in
  fst after = Threw MoreSamples.failure
  /\ simCalls (snd after) = (simCalls w ++ [Samples.defaults])%list
  /\ FundCalculation.forecastResult (client (snd after))
     = FundCalculation.forecastResult (client w)
  /\ FundCalculation.enhancedAnalytics (client (snd after))
     = FundCalculation.enhancedAnalytics (client w)
  /\ FundCalculation.lastCalculatedAt (client (snd after))
     = FundCalculation.lastCalculatedAt (client w)
  /\ FundCalculation.isCalculating (client (snd after)) = false
  /\ FundCalculation.validationErrors (client (snd after)) = [].
Proof.
  apply (forecast_failure MoreSamples.failingEnv Samples.defaults
           (Samples.world0 (FundCalculation.initialState unit))
           MoreSamples.failure).
  - vm_compute. reflexivity.
  - reflexivity.
Defined.

(** ** EnhancedBatchRunner: batches of at most five scenarios *)







(** X10.  With a callback that records what it is given, a batch of one to
    five scenarios reports after every scenario the share completed so far:
    the record grows by k/n * 100 for k = 1..n, strictly rising and ending
    in 100. *)
Theorem small_batch_reports (env : Env) (base : EnhancedFundInputs)
    (scs : list ScenarioDefinition) (w : World (list Q)) (fuel : nat) :
  let n := List.length scs in
  (1 <= n <= 5)%nat ->
  exists rs w',
    EnhancedBatchRunner.run (S fuel) env (EnhancedBatchRunner.load env base scs)
      (Some EnhancedBatchRunner.recordProgress) w
    = Some (Returned rs, w')
    /\ client w' = (client w ++ map (percentAfter n) (seq 1 n))%list
    /\ (forall k, (1 <= k < n)%nat -> percentAfter n k < percentAfter n (S k))
    /\ percentAfter n n == 100.
Proof.
  intros n Hn. exact (small_batch_progress env base scs w fuel Hn).
Qed.

Lemma small_batch_reports_witness :
  exists rs w',
    EnhancedBatchRunner.run 1 Samples.env0
      (EnhancedBatchRunner.load Samples.env0 Samples.defaults Samples.three)
      (Some EnhancedBatchRunner.recordProgress) (Samples.world0 [])
    = Some (Returned rs, w')
    /\ client w' = (client (Samples.world0 (C := list Q) [])
                    ++ map (percentAfter 3) (seq 1 3))%list
    /\ (forall k, (1 <= k < 3)%nat -> percentAfter 3 k < percentAfter 3 (S k))
    /\ percentAfter 3 3 == 100.
Proof.
  apply (small_batch_reports Samples.env0 Samples.defaults Samples.three
           (Samples.world0 []) 0).
  simpl. split; repeat constructor.
Defined.

(** X11.  A progress callback that throws ends the run: for one to five
    scenarios [run] throws what the callback threw after the first scenario,
    and the model has been called for that scenario only. *)
Theorem progress_failure_aborts {C} (env : Env) (base : EnhancedFundInputs)
    (s : ScenarioDefinition) (rest : list ScenarioDefinition) (e : Thrown)
    (w : World C) (fuel : nat) :
  (List.length (s :: rest) <= 5)%nat ->
  exists w',
    EnhancedBatchRunner.run (S fuel) env
      (EnhancedBatchRunner.load env base (s :: rest))
      (Some (throwingCallback e)) w
    = Some (Threw e, w')
    /\ simCalls w'
       = (simCalls w ++ [EnhancedBatchRunner.applyScenarioOverrides base s])%list.
Proof.
  intros Hle.
  destruct (load_fields env base (s :: rest)) as (Hs & Hb & _).
  rewrite run_small by (rewrite Hs; exact Hle).
  unfold EnhancedBatchRunner.runSequential. rewrite Hs, Hb.
  unfold bind at 1. cbn [EnhancedBatchRunner.runLoop].
  unfold bind at 1.
  destruct (runScenario_spec env base s w) as (r & w1 & Hr & _ & _ & _ & Hc).
  rewrite Hr. unfold bind at 1.
  cbn [EnhancedBatchRunner.report]. unfold throwingCallback, throw.
  exists w1. auto.
Qed.

Lemma progress_failure_aborts_witness :
  exists w',
    EnhancedBatchRunner.run 1 Samples.env0
      (EnhancedBatchRunner.load Samples.env0 Samples.defaults Samples.three)
      (Some (throwingCallback MoreSamples.failure)) (Samples.world0 tt)
    = Some (Threw MoreSamples.failure, w')
    /\ simCalls w'
       = (simCalls (Samples.world0 tt)
          ++ [EnhancedBatchRunner.applyScenarioOverrides Samples.defaults
                Samples.base])%list.
Proof.
  apply (progress_failure_aborts Samples.env0 Samples.defaults Samples.base
           [Samples.broken; Samples.upside] MoreSamples.failure
           (Samples.world0 tt) 0).
  simpl. repeat constructor.
Defined.

(** X12.  When no scenario of a batch of at most five is flagged as baseline,
    no entry gets a variance record. *)
Theorem no_baseline_no_variance {C} (env : Env) (base : EnhancedFundInputs)
    (scs : list ScenarioDefinition) (cb : option (Q -> M C unit))
    (w : World C) (fuel : nat) :
  (List.length scs <= 5)%nat ->
  returnsNormally cb ->
  Forall (fun s => flaggedBaseline s = false) scs ->
  exists rs w',
    EnhancedBatchRunner.run (S fuel) env (EnhancedBatchRunner.load env base scs) cb w
    = Some (Returned rs, w')
    /\ List.length rs = List.length scs
    /\ Forall (fun r => varianceFromBaseline r = None) rs.
Proof.
  intros Hle Hcb Hflags.
  destruct (load_fields env base scs) as (Hs & Hb & _).
  rewrite run_small by (rewrite Hs; exact Hle).
  unfold EnhancedBatchRunner.runSequential. rewrite Hs, Hb.
  unfold bind.
  destruct (runLoop_spec env base cb (List.length scs) Hcb scs 0%nat [] w)
    as (rs & w' & Hloop & Hall & Hnone).
  rewrite Hloop. simpl.
  assert (Hfind : find EnhancedBatchRunner.flagged rs = None).
  { revert Hflags. clear -Hall.
    induction Hall as [|s r scs' rs' Hsr _ IH]; intros Hflags; [reflexivity|].
    inversion Hflags as [|? ? Hf Hrest]; subst. simpl.
    destruct Hsr as (_ & Hdef & _).
    unfold EnhancedBatchRunner.flagged at 1. rewrite Hdef.
    unfold flaggedBaseline in Hf. rewrite Hf.
    exact (IH Hrest). }
  unfold EnhancedBatchRunner.addVariance. rewrite Hfind.
  exists rs, w'. repeat split; auto.
  symmetry. eapply Forall2_length; eauto.
Qed.

Lemma no_baseline_no_variance_witness :
  exists rs w',
    EnhancedBatchRunner.run 1 Samples.env0
      (EnhancedBatchRunner.load Samples.env0 Samples.defaults
         [Samples.broken; Samples.upside])
      None (Samples.world0 tt)
    = Some (Returned rs, w')
    /\ List.length rs = List.length [Samples.broken; Samples.upside]
    /\ Forall (fun r => varianceFromBaseline r = None) rs.
Proof.
  apply (no_baseline_no_variance Samples.env0 Samples.defaults
           [Samples.broken; Samples.upside] None (Samples.world0 tt) 0).
  - simpl. repeat constructor.
  - intros callback Heq. discriminate Heq.
  - repeat constructor.
Defined.

(** ** EnhancedBatchRunner: what the overrides change *)

(** X13.  [applyScenarioOverrides] changes at most the fund size, the
    allocation of the stage strategies, the exit probabilities, the fee
    profile and the investment period.  Every other field of the base inputs
    is passed on as it is, so an [exitMultiples] override and an
    [exitAcceleration] have no effect; the stage strategies keep their number,
    order and every field but the allocation. *)
Theorem overrides_frame (base : EnhancedFundInputs) (scenario : ScenarioDefinition) :
  let modified := EnhancedBatchRunner.applyScenarioOverrides base scenario in
  fundName modified = fundName base
  /\ currency modified = currency base
  /\ vintage modified = vintage base
  /\ graduationMatrix modified = graduationMatrix base
  /\ exitMultiples modified = exitMultiples base
  /\ fundLifeQuarters modified = fundLifeQuarters base
  /\ extensionQuarters modified = extensionQuarters base
  /\ recycling modified = recycling base
  /\ waterfallType modified = waterfallType base
  /\ lpClawback modified = lpClawback base
  /\ keyPersonProvisions modified = keyPersonProvisions base
  /\ Forall2 (fun s s' =>
                stage s' = stage s /\ checkCount s' = checkCount s
                /\ avgInitialCheck s' = avgInitialCheck s
                /\ ownership s' = ownership s
                /\ reserveRatio s' = reserveRatio s
                /\ targetReturns s' = targetReturns s)
       (stageStrategies base) (stageStrategies modified).
Proof.
  cbv zeta. unfold EnhancedBatchRunner.applyScenarioOverrides.
  destruct (parameterOverrides scenario) as [fs sa ep em fa ta]. simpl.
  assert (Hkeep : forall l : list StageStrategy,
             Forall2 (fun s s' =>
                        stage s' = stage s /\ checkCount s' = checkCount s
                        /\ avgInitialCheck s' = avgInitialCheck s
                        /\ ownership s' = ownership s
                        /\ reserveRatio s' = reserveRatio s
                        /\ targetReturns s' = targetReturns s) l l).
  { induction l; constructor; auto 10. }
  assert (Hmap : forall (al : FundStage -> option Q) (l : list StageStrategy),
             Forall2 (fun s s' =>
                        stage s' = stage s /\ checkCount s' = checkCount s
                        /\ avgInitialCheck s' = avgInitialCheck s
                        /\ ownership s' = ownership s
                        /\ reserveRatio s' = reserveRatio s
                        /\ targetReturns s' = targetReturns s)
                     l (map (fun strategy =>
                               match al (stage strategy) with
                               | Some override =>
                                   EnhancedBatchRunner.withAllocation override strategy
                               | None => strategy
                               end) l)).
  { intros al. induction l as [|s l IH]; simpl; constructor; auto.
    destruct (al (stage s)); simpl; auto 10. }
  destruct fs, sa, ep, fa, ta as [[[d|] ea]|]; simpl;
    try destruct (Js.truthy d); simpl; repeat split; auto.
Qed.

Lemma round_between (x : Q) (k : Z) :
  0 <= x -> x <= inject_Z k -> 0 <= Js.round x /\ Js.round x <= inject_Z k.
Proof.
  intros H0 Hk. unfold Js.round. split.
  - change 0 with (inject_Z 0). rewrite <- Zle_Qle.
    change 0%Z with (Qfloor 0). apply Qfloor_resp_le.
    apply Qle_trans with x; [exact H0|].
    rewrite <- (Qplus_0_r x) at 1. apply Qplus_le_r. discriminate.
  - rewrite <- Zle_Qle. apply Z.lt_succ_r. rewrite Zlt_Qlt.
    apply Qle_lt_trans with (x + (1 # 2)); [apply Qfloor_le|].
    apply Qle_lt_trans with (inject_Z k + (1 # 2)).
    + apply Qplus_le_l. exact Hk.
    + unfold Z.succ. rewrite inject_Z_plus. apply Qplus_lt_r. reflexivity.
Qed.

(** X14.  For a base investment period that is a whole, non-negative number
    of quarters and a deployment acceleration between 0 and 5, the
    investment period [applyScenarioOverrides] yields lies between 0 and the
    base period: an accelerated scenario never invests for longer. *)
Theorem acceleration_shortens (base : EnhancedFundInputs)
    (scenario : ScenarioDefinition) (k : Z) :
  investmentPeriodQuarters base == inject_Z k ->
  (0 <= k)%Z ->
  0 <= accelerationOf scenario /\ accelerationOf scenario <= 5 ->
  let modified := EnhancedBatchRunner.applyScenarioOverrides base scenario in
  0 <= investmentPeriodQuarters modified
  /\ investmentPeriodQuarters modified <= investmentPeriodQuarters base.
Proof.
  intros Hp Hk [Hd0 Hd5]. cbv zeta.
  assert (Hbase : 0 <= investmentPeriodQuarters base
                  /\ investmentPeriodQuarters base <= investmentPeriodQuarters base).
  { split; [|apply Qle_refl]. rewrite Hp. change 0 with (inject_Z 0).
    now rewrite <- Zle_Qle. }
  unfold EnhancedBatchRunner.applyScenarioOverrides, accelerationOf in *.
  destruct (parameterOverrides scenario) as [fs sa ep em fa ta].
  cbn [o_fundSize o_stageAllocations o_exitProbabilities o_feeAdjustments
       o_timingAdjustments] in *.
  destruct ta as [[[d|] ea]|]; cbn [deploymentAcceleration] in *.
  2,3: destruct fs, sa, ep, fa; exact Hbase.
  destruct (Js.truthy d); [|destruct fs, sa, ep, fa; exact Hbase].
  assert (Hround :
            0 <= Js.round (investmentPeriodQuarters base * (1 - d * 0.2))
            /\ Js.round (investmentPeriodQuarters base * (1 - d * 0.2))
               <= investmentPeriodQuarters base).
  { rewrite Hp at 3. apply round_between.
    - apply Qmult_le_0_compat; [tauto|].
      setoid_replace (1 - d * 0.2) with ((5 - d) * 0.2) by ring.
      apply Qmult_le_0_compat; [|discriminate].
      apply (proj1 (Qle_minus_iff d 5)). exact Hd5.
    - rewrite <- Hp. apply Qle_minus_iff.
      setoid_replace (investmentPeriodQuarters base
                      + - (investmentPeriodQuarters base * (1 - d * 0.2)))
        with (investmentPeriodQuarters base * (d * 0.2)) by ring.
      apply Qmult_le_0_compat; [tauto|].
      apply Qmult_le_0_compat; [exact Hd0 | discriminate]. }
  destruct fs, sa, ep, fa; exact Hround.
Qed.

Lemma acceleration_shortens_witness :
  let base := Samples.defaults in
  let scenario :=
    Samples.scenario "fast"
      {| o_fundSize := None; o_stageAllocations := None;
         o_exitProbabilities := None; o_exitMultiples := None;
         o_feeAdjustments := None;
         o_timingAdjustments :=
           Some {| deploymentAcceleration := Some 1;
                   exitAcceleration := None |} |} None in
  let modified := EnhancedBatchRunner.applyScenarioOverrides base scenario in
  0 <= investmentPeriodQuarters modified
  /\ investmentPeriodQuarters modified <= investmentPeriodQuarters base.
Proof.
  apply (acceleration_shortens Samples.defaults
           (Samples.scenario "fast"
              {| o_fundSize := None; o_stageAllocations := None;
                 o_exitProbabilities := None; o_exitMultiples := None;
                 o_feeAdjustments := None;
                 o_timingAdjustments :=
                   Some {| deploymentAcceleration := Some 1;
                           exitAcceleration := None |} |} None)
           20%Z).
  - vm_compute. reflexivity.
  - lia.
  - split; vm_compute; discriminate.
Defined.

(** ** The prototype: mock forecast and validation *)

Lemma timelineFrom_used (exp : Q -> Q) (size : Q) (n : nat) :
  forall (i : nat) (g : Mock.Rng),
    Mock.used (snd (Mock.timelineFrom exp size i n g)) = (Mock.used g + n)%nat.
Proof.
  induction n as [|n IH]; intros i g.
  - simpl. now rewrite Nat.add_0_r.
  - cbn [Mock.timelineFrom]. unfold Mock.random at 1.
    specialize (IH (S i) {| Mock.draws := Mock.draws g; Mock.used := S (Mock.used g) |}).
    destruct (Mock.timelineFrom exp size (S i) n
                {| Mock.draws := Mock.draws g; Mock.used := S (Mock.used g) |})
      as [rest g2].
    simpl in *. rewrite IH. lia.
Qed.

Lemma max_ge_l (a b : Q) : a <= Js.max a b.
Proof.
  unfold Js.max. destruct (Js.ltb a b) eqn:E.
  - apply ltb_true_iff in E. now apply Qlt_le_weak.
  - apply Qle_refl.
Qed.

Lemma min_le_l (a b : Q) : Js.min a b <= a.
Proof.
  unfold Js.min. destruct (Js.ltb b a) eqn:E.
  - apply ltb_true_iff in E. now apply Qlt_le_weak.
  - apply Qle_refl.
Qed.

(** X15.  Whatever [Math.exp] and [Math.random] return, the mock forecast
    has a timeline of 40 points for quarters 1 to 40, in which no nav is
    negative, no dpi exceeds 1.5, no tvpi exceeds 3 and no deployed amount
    exceeds the forecast's total invested (0.85 of the fund size); building
    it takes exactly 40 random draws. *)
Theorem mock_timeline_bounds (exp : Q -> Q) (size : Q) (g : Mock.Rng) :
  let r := fst (Mock.mockResult exp size g) in
  let g' := snd (Mock.mockResult exp size g) in
  List.length (Mock.timeline r) = 40%nat
  /\ map Mock.quarter (Mock.timeline r)
     = map (fun k => Js.ofNat k + 1) (seq 0 40)
  /\ Forall (fun p => 0 <= Mock.nav p
                      /\ Mock.tp_dpi p <= 1.5
                      /\ Mock.tp_tvpi p <= 3
                      /\ Mock.deployed p <= Mock.totalInvested r)
       (Mock.timeline r)
  /\ Mock.used g' = (Mock.used g + 40)%nat.
Proof.
  cbv zeta. split; [|split; [|split]].
  - rewrite mockResult_timeline. cbn [Mock.timeline].
    rewrite timelineFrom_fst. now rewrite length_map, length_seq.
  - rewrite mockResult_timeline. cbn [Mock.timeline].
    rewrite timelineFrom_fst, map_map. reflexivity.
  - rewrite mockResult_timeline. cbn [Mock.timeline Mock.totalInvested].
    rewrite timelineFrom_fst. apply Forall_map. apply Forall_forall.
    intros k _. unfold Mock.timelinePoint.
    cbn [Mock.nav Mock.tp_dpi Mock.tp_tvpi Mock.deployed].
    repeat split; first [apply max_ge_l | apply min_le_l].
  - unfold Mock.mockResult.
    pose proof (timelineFrom_used exp size 40 0 g) as Hu.
    destruct (Mock.timelineFrom exp size 0 40 g) as [points g2].
    exact Hu.
Qed.

(** X16.  In the prototype only the allocation sum disables the Calculate
    button: after [validateInputs] the stored findings contain an
    error-severity finding exactly when the allocations, added up in doubles
    from the left, give a sum more than 0.001 away from 1 by the double
    subtraction and comparison; that sum is the total the form shows; a
    fund size below $10M, zero or negative included, adds a warning and
    never an error. *)
Theorem prototype_blocks_on_allocation_only (state : Mock.State) :
  let stored := Mock.validationErrors (snd (Mock.validateInputs state)) in
  let total := doubleSum (map Mock.allocationPct (Mock.stageStrategies state)) in
  stored = fst (Mock.validateInputs state)
  /\ FundSetup.totalAllocation (Mock.stageStrategies state) = total
  /\ (FundSetup.hasErrors stored = true
      <-> (0.001 <? abs (total - 1))%float = true)
  /\ (In "fundSize" (map Mock.field stored) <-> Mock.fundSize state < 10000000).
Proof.
  cbv zeta. unfold Mock.validateInputs, FundSetup.totalAllocation.
  cbn [fst snd Mock.fundReducer Mock.validationErrors].
  rewrite (reduce_doubleSum Mock.allocationPct).
  set (total := doubleSum (map Mock.allocationPct (Mock.stageStrategies state))).
  split; [reflexivity|]. split; [reflexivity|].
  unfold Js.gtbD.
  destruct (Js.ltb (Mock.fundSize state) 10000000) eqn:Es;
    destruct (0.001 <? abs (total - 1.0))%float eqn:Ea;
    [apply ltb_true_iff in Es | apply ltb_true_iff in Es
     | apply ltb_false_iff in Es | apply ltb_false_iff in Es];
    cbn; (split; split); intros H;
    try reflexivity; try discriminate; try assumption; try tauto;
    try (exfalso; exact (Qlt_not_le _ _ H Es));
    try (destruct H as [H | H]; [discriminate | tauto]).
Qed.

(** ** AnalyticsService: vintage comparison *)

Lemma geb_true_iff (a b : Q) : Num.geb a b = true <-> b <= a.
Proof. unfold Num.geb. apply leb_true_iff. Qed.

Lemma geb_false_iff (a b : Q) : Num.geb a b = false <-> a < b.
Proof. unfold Num.geb. apply leb_false_iff. Qed.

Lemma clamp_bounds (x : Q) :
  0 <= Js.max 0 (Js.min 100 x) /\ Js.max 0 (Js.min 100 x) <= 100.
Proof.
  unfold Js.max, Js.min.
  destruct (Js.ltb x 100) eqn:E1; [apply ltb_true_iff in E1 | apply ltb_false_iff in E1].
  - destruct (Js.ltb 0 x) eqn:E2;
      [apply ltb_true_iff in E2 | apply ltb_false_iff in E2]; lra.
  - destruct (Js.ltb 0 100) eqn:E2; lra.
Qed.

Lemma clamp_monotone (x y : Q) :
  x <= y -> Js.max 0 (Js.min 100 x) <= Js.max 0 (Js.min 100 y).
Proof.
  intros Hxy. unfold Js.max, Js.min.
  destruct (Js.ltb x 100) eqn:E1;
    [apply ltb_true_iff in E1 | apply ltb_false_iff in E1];
    destruct (Js.ltb y 100) eqn:E2;
    [apply ltb_true_iff in E2 | apply ltb_false_iff in E2
     | apply ltb_true_iff in E2 | apply ltb_false_iff in E2];
    repeat match goal with
           | |- context [Js.ltb ?a ?b] =>
               let E := fresh "E" in
               destruct (Js.ltb a b) eqn:E;
               [apply ltb_true_iff in E | apply ltb_false_iff in E]
           end; lra.
Qed.

(** The percentile before it is clamped to [0, 100]. *)
Lemma percentile_cases (result : ForecastResult) :
  exists p,
    AnalyticsService.currentFundPercentile
      (AnalyticsService.calculateVintageComparison result)
    = Js.max 0 (Js.min 100 p)
    /\ ((3 <= netMoic result
         /\ AnalyticsService.benchmark
              (AnalyticsService.calculateVintageComparison result)
            = AnalyticsService.TopQuartile
         /\ p == 75 + (netMoic result - 3) / 1.5 * 25)
        \/ (2 <= netMoic result /\ netMoic result < 3
            /\ AnalyticsService.benchmark
                 (AnalyticsService.calculateVintageComparison result)
               = AnalyticsService.Median
            /\ p == 50 + (netMoic result - 2) * 25)
        \/ (netMoic result < 2
            /\ AnalyticsService.benchmark
                 (AnalyticsService.calculateVintageComparison result)
               = AnalyticsService.BottomQuartile
            /\ p == (netMoic result - 1.3) / 0.7 * 50)).
Proof.
  unfold AnalyticsService.calculateVintageComparison.
  cbn [AnalyticsService.moic AnalyticsService.topQuartile AnalyticsService.median
       AnalyticsService.bottomQuartile].
  destruct (Num.geb (netMoic result) 3.0) eqn:E1.
  - apply geb_true_iff in E1. eexists. split; [reflexivity|].
    left. repeat split; [lra|]. field.
  - apply geb_false_iff in E1.
    destruct (Num.geb (netMoic result) 2.0) eqn:E2.
    + apply geb_true_iff in E2. eexists. split; [reflexivity|].
      right. left. repeat split; [lra | lra |]. field.
    + apply geb_false_iff in E2. eexists. split; [reflexivity|].
      right. right. repeat split; [lra|]. field.
Qed.

(** The range of the percentile, and the benchmark and the gap to the
    market. *)
Lemma vintage_range (result : ForecastResult) :
  let v := AnalyticsService.calculateVintageComparison result in
  (0 <= AnalyticsService.currentFundPercentile v
   /\ AnalyticsService.currentFundPercentile v <= 100)
  /\ (AnalyticsService.benchmark v = AnalyticsService.TopQuartile
      <-> 3 <= netMoic result)
  /\ (AnalyticsService.benchmark v = AnalyticsService.Median
      <-> 2 <= netMoic result /\ netMoic result < 3)
  /\ (AnalyticsService.benchmark v = AnalyticsService.BottomQuartile
      <-> netMoic result < 2)
  /\ AnalyticsService.versusMarket v == (netIrr result - 0.15) * 10000.
Proof.
  cbv zeta.
  destruct (percentile_cases result) as (p & Hp & Hcase).
  split; [rewrite Hp; apply clamp_bounds|].
  assert (Hv : AnalyticsService.versusMarket
                 (AnalyticsService.calculateVintageComparison result)
               == (netIrr result - 0.15) * 10000).
  { unfold AnalyticsService.calculateVintageComparison.
    destruct (Num.geb (netMoic result) (AnalyticsService.moic AnalyticsService.topQuartile));
      [|destruct (Num.geb (netMoic result) (AnalyticsService.moic AnalyticsService.median))];
      reflexivity. }
  destruct Hcase as [(H3 & Hb & _) | [(H2 & H3 & Hb & _) | (H2 & Hb & _)]];
    rewrite Hb; repeat split; intros; try discriminate; try lra; try assumption;
    try (exfalso; lra).
Qed.

(** The percentile never falls when the net MOIC rises. *)
Lemma vintage_monotone (r1 r2 : ForecastResult) :
  netMoic r1 <= netMoic r2 ->
  let p1 := AnalyticsService.currentFundPercentile
              (AnalyticsService.calculateVintageComparison r1) in
  let p2 := AnalyticsService.currentFundPercentile
              (AnalyticsService.calculateVintageComparison r2) in
  p1 <= p2
  /\ (netMoic r2 <= 1.3 -> p2 == 0)
  /\ (4.5 <= netMoic r1 -> p1 == 100).
Proof.
  intros Hle. cbv zeta.
  destruct (percentile_cases r1) as (q1 & Hq1 & Hc1).
  destruct (percentile_cases r2) as (q2 & Hq2 & Hc2).
  rewrite Hq1, Hq2. split; [|split].
  - apply clamp_monotone.
    destruct Hc1 as [(A1 & _ & E1) | [(A1 & B1 & _ & E1) | (A1 & _ & E1)]];
      destruct Hc2 as [(A2 & _ & E2) | [(A2 & B2 & _ & E2) | (A2 & _ & E2)]];
      rewrite E1, E2; try (exfalso; lra);
      unfold Qdiv;
      try (setoid_replace (/ 1.5) with (2 # 3) by reflexivity);
      try (setoid_replace (/ 0.7) with (10 # 7) by reflexivity); lra.
  - intros Hlow.
    destruct Hc2 as [(A2 & _ & E2) | [(A2 & B2 & _ & E2) | (A2 & _ & E2)]];
      try (exfalso; lra).
    assert (Hq : q2 <= 0).
    { rewrite E2. unfold Qdiv.
      setoid_replace (/ 0.7) with (10 # 7) by reflexivity. lra. }
    unfold Js.max, Js.min.
    destruct (Js.ltb q2 100) eqn:F1;
      [apply ltb_true_iff in F1 | apply ltb_false_iff in F1; exfalso; lra].
    destruct (Js.ltb 0 q2) eqn:F2;
      [apply ltb_true_iff in F2; exfalso; lra | reflexivity].
  - intros Hhigh.
    destruct Hc1 as [(A1 & _ & E1) | [(A1 & B1 & _ & E1) | (A1 & _ & E1)]];
      try (exfalso; lra).
    assert (Hq : 100 <= q1).
    { rewrite E1. unfold Qdiv.
      setoid_replace (/ 1.5) with (2 # 3) by reflexivity. lra. }
    unfold Js.max, Js.min.
    destruct (Js.ltb q1 100) eqn:F1;
      [apply ltb_true_iff in F1; exfalso; lra|].
    reflexivity.
Qed.

(** X17.  [calculateVintageComparison] always reports a percentile between 0
    and 100, and the benchmark by the net MOIC alone: top-quartile from 3.0,
    median from 2.0 up to 3.0, bottom-quartile below 2.0; the gap to the
    market is the net IRR above 15%, in basis points.  The percentile never
    falls when the net MOIC rises: the three branches join at 2.0 and 3.0
    without a drop; it is 0 up to a net MOIC of 1.3 and 100 from 4.5. *)
Theorem vintage_comparison (result other : ForecastResult) :
  let v := AnalyticsService.calculateVintageComparison result in
  let v' := AnalyticsService.calculateVintageComparison other in
  (0 <= AnalyticsService.currentFundPercentile v
   /\ AnalyticsService.currentFundPercentile v <= 100)
  /\ (AnalyticsService.benchmark v = AnalyticsService.TopQuartile
      <-> 3 <= netMoic result)
  /\ (AnalyticsService.benchmark v = AnalyticsService.Median
      <-> 2 <= netMoic result /\ netMoic result < 3)
  /\ (AnalyticsService.benchmark v = AnalyticsService.BottomQuartile
      <-> netMoic result < 2)
  /\ AnalyticsService.versusMarket v == (netIrr result - 0.15) * 10000
  /\ (netMoic result <= netMoic other ->
      AnalyticsService.currentFundPercentile v
      <= AnalyticsService.currentFundPercentile v')
  /\ (netMoic result <= 1.3 -> AnalyticsService.currentFundPercentile v == 0)
  /\ (4.5 <= netMoic result -> AnalyticsService.currentFundPercentile v == 100).
Proof.
  cbv zeta.
  destruct (vintage_range result) as (Hr & Ht & Hm & Hb & Hv).
  split; [exact Hr|]. split; [exact Ht|]. split; [exact Hm|].
  split; [exact Hb|]. split; [exact Hv|]. split; [|split].
  - intros Hle. exact (proj1 (vintage_monotone result other Hle)).
  - intros Hlow.
    exact (proj1 (proj2 (vintage_monotone result result (Qle_refl _))) Hlow).
  - intros Hhigh.
    exact (proj2 (proj2 (vintage_monotone result result (Qle_refl _))) Hhigh).
Qed.

(** ** Sums *)

Lemma fold_left_total {A} (f : A -> Q) (l : list A) : forall acc,
  fold_left (fun sum a => sum + f a) l acc == acc + total f l.
Proof.
  induction l as [|a l IH]; intros acc; simpl.
  - lra.
  - rewrite IH. lra.
Qed.

Lemma total_cons {A} (f : A -> Q) (a : A) (l : list A) :
  total f (a :: l) = f a + total f l.
Proof. reflexivity. Qed.


Lemma total_nonneg {A} (f : A -> Q) (l : list A) :
  Forall (fun a => 0 <= f a) l -> 0 <= total f l.
Proof.
  induction 1 as [|a l Ha _ IH]; simpl; lra.
Qed.


(** ** AnalyticsService: pacing *)


Lemma Qeq_bool_right (a b c : Q) : b == c -> Qeq_bool a b = Qeq_bool a c.
Proof.
  intros H. destruct (Qeq_bool a c) eqn:E.
  - apply Qeq_bool_iff in E. apply Qeq_bool_iff. now rewrite H.
  - destruct (Qeq_bool a b) eqn:E'; [|reflexivity].
    apply Qeq_bool_iff in E'. rewrite H in E'.
    apply Qeq_bool_iff in E'. congruence.
Qed.










(** X18.  [calculatePacingAnalysis] never finds a fund on track: the
    deployment rate is the total invested over 1.1 times itself, that is
    10/11 whenever the total invested is not 0 and not a number when it is,
    so it is never within 0.1 of the target 0.5, [isOnTrack] is false and the
    pacing score is 60 for every forecast. *)
Theorem pacing_never_on_track (result : ForecastResult) :
  let p := AnalyticsService.calculatePacingAnalysis result in
  AnalyticsService.isOnTrack p = false
  /\ AnalyticsService.pacingScore p = 60
  /\ (AnalyticsService.deploymentRate p = None <-> totalInvested result == 0)
  /\ (forall rate, AnalyticsService.deploymentRate p = Some rate ->
                   rate == 10 # 11).
Proof.
  cbv zeta. unfold AnalyticsService.calculatePacingAnalysis.
  cbn [AnalyticsService.isOnTrack AnalyticsService.pacingScore
       AnalyticsService.deploymentRate].
  unfold Num.div.
  destruct (Qeq_bool (totalInvested result * 1.1) 0) eqn:E.
  - apply Qeq_bool_iff in E.
    assert (H0 : totalInvested result == 0) by lra.
    repeat split; auto. intros rate Hr. discriminate Hr.
  - assert (Hne : ~ totalInvested result == 0).
    { intros H0. apply Qeq_bool_neq in E. apply E. rewrite H0. reflexivity. }
    assert (Hrate : totalInvested result / (totalInvested result * 1.1)
                    == 10 # 11) by (field; exact Hne).
    assert (Hoff : Js.ltb
                     (Js.abs (totalInvested result
                              / (totalInvested result * 1.1) - 0.5)) 0.1
                   = false).
    { apply ltb_false_iff. unfold Js.abs.
      assert (Ha : Qabs (totalInvested result
                         / (totalInvested result * 1.1) - 0.5)
                   == Qabs ((10 # 11) - 0.5)) by (now rewrite Hrate).
      rewrite Ha. discriminate. }
    rewrite Hoff. repeat split; auto.
    + intros H. discriminate H.
    + intros H. contradiction.
    + intros rate Hr. inversion Hr; subst. exact Hrate.
Qed.


(** ** AnalyticsService: reserves *)

Lemma ofNat_S (n : nat) : Js.ofNat (S n) == Js.ofNat n + 1.
Proof.
  unfold Js.ofNat. rewrite Nat2Z.inj_succ. unfold Z.succ.
  rewrite inject_Z_plus. reflexivity.
Qed.






Lemma sort_opportunities (l : list PortfolioCompany) :
  Num.sort (fun a b => AnalyticsService.expectedReturn b
                       - AnalyticsService.expectedReturn a)
    (map AnalyticsService.opportunityFor l)
  = map AnalyticsService.opportunityFor l.
Proof.
  unfold Num.sort. induction l as [|c l IH]; [reflexivity|].
  cbn [map fold_right]. rewrite IH.
  destruct l as [|c' l']; reflexivity.
Qed.

Lemma filter_filter {A} (p q : A -> bool) (l : list A) :
  filter q (filter p l) = filter (fun a => p a && q a) l.
Proof.
  induction l as [|a l IH]; [reflexivity|]. simpl.
  destruct (p a); simpl; [destruct (q a)|]; now rewrite IH.
Qed.

Lemma in_firstn {A} (n : nat) (x : A) : forall l, In x (firstn n l) -> In x l.
Proof.
  induction n as [|n IH]; intros [|a l] H; simpl in *; try contradiction.
  destruct H as [H | H]; [now left | right; auto].
Qed.

(** X21.  The reserve opportunities are the first ten active companies that
    are not at Series D+, in portfolio order (every opportunity has the same
    expected return, so the sort moves none), each with a recommended
    reserve of half the company's invested total. *)
Theorem reserve_opportunities (result : ForecastResult) :
  let r := AnalyticsService.calculateReserveAnalysis result in
  let candidates :=
    filter (fun c => AnalyticsService.isActive c
                     && negb (FundStage_eqb (pc_currentStage c) SeriesDPlus))
      (portfolio result) in
  AnalyticsService.opportunities r
  = firstn 10 (map AnalyticsService.opportunityFor candidates)
  /\ (List.length (AnalyticsService.opportunities r) <= 10)%nat
  /\ Forall (fun o => AnalyticsService.currentStage o <> SeriesDPlus
                      /\ exists c, In c (portfolio result)
                                   /\ pc_status c = Active
                                   /\ AnalyticsService.companyId o = pc_id c
                                   /\ AnalyticsService.recommendedReserve o
                                      = pc_totalInvested c * 0.5)
       (AnalyticsService.opportunities r).
Proof.
  cbv zeta.
  assert (Heq : AnalyticsService.opportunities
                  (AnalyticsService.calculateReserveAnalysis result)
                = firstn 10
                    (map AnalyticsService.opportunityFor
                       (filter (fun c => AnalyticsService.isActive c
                                         && negb (FundStage_eqb (pc_currentStage c)
                                                    SeriesDPlus))
                          (portfolio result)))).
  { unfold AnalyticsService.calculateReserveAnalysis.
    cbn [AnalyticsService.opportunities].
    now rewrite sort_opportunities, filter_filter. }
  rewrite Heq. split; [reflexivity|]. split; [apply firstn_le_length|].
  apply Forall_forall. intros o Ho.
  apply in_firstn in Ho.
  apply in_map_iff in Ho. destruct Ho as (c & <- & Hc).
  apply filter_In in Hc. destruct Hc as (Hin & Hcond).
  apply andb_true_iff in Hcond. destruct Hcond as (Hact & Hstage).
  split.
  - cbn [AnalyticsService.opportunityFor AnalyticsService.currentStage].
    intros Hs. rewrite Hs in Hstage. discriminate Hstage.
  - exists c. repeat split; auto.
    unfold AnalyticsService.isActive in Hact.
    destruct (pc_status c); try discriminate; reflexivity.
Qed.

(** ** AnalyticsService: concentration *)

Lemma insertBy_total {A} (cmp : A -> A -> Q) (f : A -> Q) (x : A) (l : list A) :
  total f (Num.insertBy cmp x l) == f x + total f l.
Proof.
  induction l as [|y l IH]; simpl; [reflexivity|].
  destruct (Js.leb (cmp x y) 0); simpl; [reflexivity|].
  rewrite IH. ring.
Qed.

Lemma sort_total {A} (cmp : A -> A -> Q) (f : A -> Q) (l : list A) :
  total f (Num.sort cmp l) == total f l.
Proof.
  unfold Num.sort. induction l as [|x l IH]; simpl; [reflexivity|].
  rewrite insertBy_total, IH. reflexivity.
Qed.

Lemma insertBy_Forall {A} (cmp : A -> A -> Q) (P : A -> Prop) (x : A) (l : list A) :
  P x -> Forall P l -> Forall P (Num.insertBy cmp x l).
Proof.
  intros Hx. induction 1 as [|y l Hy Hl IH]; simpl.
  - constructor; auto.
  - destruct (Js.leb (cmp x y) 0); repeat constructor; auto.
Qed.

Lemma sort_Forall {A} (cmp : A -> A -> Q) (P : A -> Prop) (l : list A) :
  Forall P l -> Forall P (Num.sort cmp l).
Proof.
  unfold Num.sort. induction 1 as [|x l Hx Hl IH]; simpl.
  - constructor.
  - now apply insertBy_Forall.
Qed.

Lemma insertBy_length {A} (cmp : A -> A -> Q) (x : A) (l : list A) :
  List.length (Num.insertBy cmp x l) = S (List.length l).
Proof.
  induction l as [|y l IH]; simpl; [reflexivity|].
  destruct (Js.leb (cmp x y) 0); simpl; [reflexivity|]. now rewrite IH.
Qed.

Lemma sort_length {A} (cmp : A -> A -> Q) (l : list A) :
  List.length (Num.sort cmp l) = List.length l.
Proof.
  unfold Num.sort. induction l as [|x l IH]; simpl; [reflexivity|].
  now rewrite insertBy_length, IH.
Qed.

Lemma total_firstn_le {A} (f : A -> Q) (k : nat) : forall l,
  Forall (fun a => 0 <= f a) l ->
  0 <= total f (firstn k l) /\ total f (firstn k l) <= total f l.
Proof.
  induction k as [|k IH]; intros l Hl.
  - simpl. split; [apply Qle_refl | now apply total_nonneg].
  - destruct Hl as [|a l Ha Hl]; simpl.
    + split; apply Qle_refl.
    + destruct (IH l Hl) as [H0 H1]. unfold total in *. split; lra.
Qed.

Lemma sumValuations_total (l : list PortfolioCompany) :
  AnalyticsService.sumValuations l == total AnalyticsService.valuation l.
Proof.
  unfold AnalyticsService.sumValuations. rewrite fold_left_total. ring.
Qed.

Lemma share_bounds (s5 s10 nav : Q) :
  0 <= s5 -> s5 <= s10 -> s10 <= nav -> 0 < nav ->
  0 <= s5 / nav /\ s5 / nav <= s10 / nav /\ s10 / nav <= 1.
Proof.
  intros H0 H1 H2 Hn.
  assert (Hne : ~ nav == 0) by (intros E; rewrite E in Hn; discriminate Hn).
  split; [|split].
  - apply Qle_shift_div_l; [exact Hn | lra].
  - apply Qle_shift_div_r; [exact Hn|].
    setoid_replace (s10 / nav * nav) with s10 by (field; exact Hne). exact H1.
  - apply Qle_shift_div_r; [exact Hn | lra].
Qed.

Lemma total_scale {A} (f : A -> Q) (k : Q) (l : list A) :
  total (fun a => f a * k) l == total f l * k.
Proof.
  induction l as [|a l IH]; simpl; [ring|]. rewrite IH. ring.
Qed.

(** For non-negative terms the sum of the squares is at most the square of
    the sum. *)
Lemma total_squares_le {A} (f : A -> Q) (l : list A) :
  Forall (fun a => 0 <= f a) l ->
  0 <= total (fun a => f a * f a) l
  /\ total (fun a => f a * f a) l <= total f l * total f l.
Proof.
  induction 1 as [|a l Ha Hl [IH0 IH1]]; simpl.
  - split; [apply Qle_refl | discriminate].
  - pose proof (total_nonneg f l Hl) as Hs.
    pose proof (Qmult_le_0_compat _ _ Ha Hs) as Hcross.
    pose proof (Qmult_le_0_compat _ _ Ha Ha) as Hsq.
    unfold total in *.
    set (s := fold_right (fun a s => f a + s) 0 l) in *.
    set (q := fold_right (fun a s => f a * f a + s) 0 l) in *.
    split; [lra|].
    setoid_replace ((f a + s) * (f a + s))
      with (f a * f a + 2 * (f a * s) + s * s) by ring.
    lra.
Qed.

Lemma herfindahl_fold (nav : Q) (l : list PortfolioCompany) :
  ~ nav == 0 ->
  forall acc,
  exists h,
    fold_left
      (fun sum c =>
         match sum, Num.div (AnalyticsService.valuation c) nav with
         | Some sum, Some share => Some (sum + Num.sqr share)
         | _, _ => None
         end)
      l (Some acc)
    = Some h
    /\ h == acc + total (fun c => AnalyticsService.valuation c
                                  * AnalyticsService.valuation c) l
                  / (nav * nav).
Proof.
  intros Hne. induction l as [|c l IH]; intros acc; simpl.
  - exists acc. split; [reflexivity|]. field. exact Hne.
  - unfold Num.div at 2.
    destruct (Qeq_bool nav 0) eqn:E; [apply Qeq_bool_iff in E; contradiction|].
    destruct (IH (acc + Num.sqr (AnalyticsService.valuation c / nav)))
      as (h & Hh & Heq).
    exists h. split; [exact Hh|]. rewrite Heq. unfold Num.sqr.
    field. exact Hne.
Qed.

Lemma fold_left_none {A B} (g : option B -> A -> option B) (l : list A) :
  (forall a, g None a = None) -> fold_left g l None = None.
Proof. intros H. induction l as [|a l IH]; simpl; [reflexivity|]. now rewrite H. Qed.

(** X22.  When no active company has a negative valuation and the active
    companies are worth more than 0 together, the concentration figures are
    proper shares: 0 <= top-5 share <= top-10 share <= 1, the Herfindahl
    index is a number between 0 and 1 and the diversification score is 1
    minus it; with at most five active companies the top-5 share is 1. *)
Theorem concentration_bounds (result : ForecastResult) :
  let active := filter AnalyticsService.isActive (portfolio result) in
  Forall (fun c => 0 <= AnalyticsService.valuation c) active ->
  0 < total AnalyticsService.valuation active ->
  let a := AnalyticsService.calculateConcentrationAnalysis result in
  0 <= AnalyticsService.top5ShareOfNAV a
  /\ AnalyticsService.top5ShareOfNAV a <= AnalyticsService.top10ShareOfNAV a
  /\ AnalyticsService.top10ShareOfNAV a <= 1
  /\ ((List.length active <= 5)%nat -> AnalyticsService.top5ShareOfNAV a == 1)
  /\ exists h,
       AnalyticsService.herfindahlIndex a = Some h
       /\ 0 <= h /\ h <= 1
       /\ AnalyticsService.diversificationScore a = Some (1 - h).
Proof.
  intros active Hpos Hnav a. subst a.
  unfold AnalyticsService.calculateConcentrationAnalysis.
  fold active.
  set (sorted := Num.sort (fun a b => AnalyticsService.valuation b
                                      - AnalyticsService.valuation a) active).
  cbn [AnalyticsService.top5ShareOfNAV AnalyticsService.top10ShareOfNAV
       AnalyticsService.herfindahlIndex AnalyticsService.diversificationScore].
  assert (Hsorted : Forall (fun c => 0 <= AnalyticsService.valuation c) sorted)
    by (apply sort_Forall; exact Hpos).
  assert (Htot : AnalyticsService.sumValuations sorted
                 == total AnalyticsService.valuation active)
    by (unfold sorted; rewrite sumValuations_total; apply sort_total).
  assert (Hn : 0 < AnalyticsService.sumValuations sorted) by (rewrite Htot; exact Hnav).
  assert (Hne : ~ AnalyticsService.sumValuations sorted == 0)
    by (intros E; rewrite E in Hn; discriminate Hn).
  assert (Hgt : Js.gtb (AnalyticsService.sumValuations sorted) 0 = true)
    by (apply gtb_true_lt; exact Hn).
  rewrite Hgt.
  destruct (total_firstn_le AnalyticsService.valuation 5 sorted Hsorted) as [H50 _].
  destruct (total_firstn_le AnalyticsService.valuation 10 sorted Hsorted) as [_ H10].
  assert (H510 : total AnalyticsService.valuation (firstn 5 sorted)
                 <= total AnalyticsService.valuation (firstn 10 sorted)).
  { replace (firstn 5 sorted) with (firstn 5 (firstn 10 sorted))
      by (rewrite firstn_firstn; reflexivity).
    apply total_firstn_le. apply Forall_forall. intros c Hc.
    apply in_firstn in Hc. revert c Hc. now apply Forall_forall. }
  destruct (share_bounds
              (AnalyticsService.sumValuations (firstn 5 sorted))
              (AnalyticsService.sumValuations (firstn 10 sorted))
              (AnalyticsService.sumValuations sorted))
    as (B0 & B1 & B2);
    [ rewrite sumValuations_total; exact H50
    | rewrite !sumValuations_total; exact H510
    | rewrite !sumValuations_total; exact H10
    | exact Hn | ].
  split; [exact B0|]. split; [exact B1|]. split; [exact B2|]. split.
  - intros Hlen.
    rewrite firstn_all2 by (unfold sorted; rewrite sort_length; exact Hlen).
    field. exact Hne.
  - destruct (herfindahl_fold (AnalyticsService.sumValuations sorted) sorted Hne 0)
      as (h & Hh & Heq).
    exists h. rewrite Hh. split; [reflexivity|].
    destruct (total_squares_le AnalyticsService.valuation sorted Hsorted)
      as [Q0 Q1].
    rewrite <- sumValuations_total in Q1.
    assert (Hnn : 0 < AnalyticsService.sumValuations sorted
                      * AnalyticsService.sumValuations sorted)
      by (apply Qmult_lt_0_compat; exact Hn).
    split; [|split; [|reflexivity]].
    + rewrite Heq. rewrite Qplus_0_l. apply Qle_shift_div_l; [exact Hnn | lra].
    + rewrite Heq. rewrite Qplus_0_l. apply Qle_shift_div_r; [exact Hnn | lra].
Qed.

Lemma concentration_bounds_witness :
  let a := AnalyticsService.calculateConcentrationAnalysis
             AnalyticsSamples.forecast0 in
  0 <= AnalyticsService.top5ShareOfNAV a
  /\ AnalyticsService.top5ShareOfNAV a <= AnalyticsService.top10ShareOfNAV a
  /\ AnalyticsService.top10ShareOfNAV a <= 1
  /\ ((List.length (filter AnalyticsService.isActive
                      (portfolio AnalyticsSamples.forecast0)) <= 5)%nat ->
      AnalyticsService.top5ShareOfNAV a == 1)
  /\ exists h,
       AnalyticsService.herfindahlIndex a = Some h
       /\ 0 <= h /\ h <= 1
       /\ AnalyticsService.diversificationScore a = Some (1 - h).
Proof.
  apply (concentration_bounds AnalyticsSamples.forecast0).
  - repeat constructor; vm_compute; discriminate.
  - vm_compute. reflexivity.
Defined.

Lemma total_of_zeros {A} (f : A -> Q) (l : list A) :
  Forall (fun a => f a == 0) l -> total f l == 0.
Proof.
  induction 1 as [|a l Ha _ IH]; [reflexivity|].
  rewrite total_cons, Ha, IH. reflexivity.
Qed.

(** X24.  When every active company is valued at 0, a missing valuation
    counting as 0, both shares are reported as 0; the Herfindahl index is
    then 0 and the diversification score 1 if there is no active company,
    and if there is one neither is a number: every share is 0 divided by
    0. *)
Theorem concentration_without_nav (result : ForecastResult) :
  let active := filter AnalyticsService.isActive (portfolio result) in
  Forall (fun c => AnalyticsService.valuation c == 0) active ->
  let a := AnalyticsService.calculateConcentrationAnalysis result in
  AnalyticsService.top5ShareOfNAV a = 0
  /\ AnalyticsService.top10ShareOfNAV a = 0
  /\ (active = [] ->
      AnalyticsService.herfindahlIndex a = Some 0
      /\ AnalyticsService.diversificationScore a = Some (1 - 0))
  /\ (active <> [] ->
      AnalyticsService.herfindahlIndex a = None
      /\ AnalyticsService.diversificationScore a = None).
Proof.
  intros active Hzero a. subst a.
  pose proof (total_of_zeros _ _ Hzero) as Hnav.
  unfold AnalyticsService.calculateConcentrationAnalysis.
  fold active.
  set (sorted := Num.sort (fun a b => AnalyticsService.valuation b
                                      - AnalyticsService.valuation a) active).
  cbn [AnalyticsService.top5ShareOfNAV AnalyticsService.top10ShareOfNAV
       AnalyticsService.herfindahlIndex AnalyticsService.diversificationScore].
  assert (Htot : AnalyticsService.sumValuations sorted == 0)
    by (unfold sorted; rewrite sumValuations_total, sort_total; exact Hnav).
  assert (Hgt : Js.gtb (AnalyticsService.sumValuations sorted) 0 = false)
    by (apply gtb_false_iff; rewrite Htot; apply Qle_refl).
  rewrite Hgt. split; [reflexivity|]. split; [reflexivity|]. split.
  - intros Hnil. unfold sorted. rewrite Hnil. simpl. auto.
  - intros Hne.
    assert (Hs : sorted <> []).
    { intros E. apply Hne. apply length_zero_iff_nil.
      rewrite <- (sort_length (fun a b => AnalyticsService.valuation b
                                          - AnalyticsService.valuation a) active).
      fold sorted. now rewrite E. }
    destruct sorted as [|c rest] eqn:Es; [contradiction|].
    cbn [fold_left].
    replace (Num.div (AnalyticsService.valuation c)
               (AnalyticsService.sumValuations (c :: rest)))
      with (@None Q)
      by (unfold Num.div; apply Qeq_bool_iff in Htot; now rewrite Htot).
    rewrite fold_left_none by reflexivity. auto.
Qed.

Lemma concentration_without_nav_witness :
  let active := filter AnalyticsService.isActive
                  (portfolio AnalyticsSamples.unvalued) in
  let a := AnalyticsService.calculateConcentrationAnalysis
             AnalyticsSamples.unvalued in
  AnalyticsService.top5ShareOfNAV a = 0
  /\ AnalyticsService.top10ShareOfNAV a = 0
  /\ (active = [] ->
      AnalyticsService.herfindahlIndex a = Some 0
      /\ AnalyticsService.diversificationScore a = Some (1 - 0))
  /\ (active <> [] ->
      AnalyticsService.herfindahlIndex a = None
      /\ AnalyticsService.diversificationScore a = None).
Proof.
  apply (concentration_without_nav AnalyticsSamples.unvalued).
  repeat constructor.
Defined.

(** ** AnalyticsService: the top five are the five largest *)

Lemma insertBy_perm {A} (cmp : A -> A -> Q) (x : A) (l : list A) :
  Permutation (Num.insertBy cmp x l) (x :: l).
Proof.
  induction l as [|y l IH]; simpl; [reflexivity|].
  destruct (Js.leb (cmp x y) 0); [reflexivity|].
  rewrite IH. apply perm_swap.
Qed.

Lemma sort_perm {A} (cmp : A -> A -> Q) (l : list A) :
  Permutation (Num.sort cmp l) l.
Proof.
  unfold Num.sort. induction l as [|x l IH]; simpl; [reflexivity|].
  rewrite insertBy_perm. now constructor.
Qed.

Lemma total_perm {A} (f : A -> Q) (l l' : list A) :
  Permutation l l' -> total f l == total f l'.
Proof.
  induction 1 as [|x l l' _ IH|x y l|l l' l'' _ IH1 _ IH2]; simpl.
  - reflexivity.
  - now rewrite IH.
  - ring.
  - now rewrite IH1.
Qed.

(** Sorting by [b - a] on a key puts the larger keys first. *)
Lemma sort_descending {A} (key : A -> Q) (l : list A) :
  StronglySorted (fun a b => key b <= key a)
    (Num.sort (fun a b => key b - key a) l).
Proof.
  unfold Num.sort. induction l as [|x l IH]; simpl; [constructor|].
  revert IH. generalize (fold_right (Num.insertBy (fun a b => key b - key a)) [] l).
  intros sorted Hs. induction Hs as [|y rest Hrest IH Hy]; simpl.
  - repeat constructor.
  - destruct (Js.leb (key y - key x) 0) eqn:E.
    + apply leb_true_iff in E. constructor; [now constructor|].
      constructor; [lra|].
      apply Forall_forall. intros z Hz. rewrite Forall_forall in Hy.
      specialize (Hy z Hz). lra.
    + apply leb_false_iff in E. constructor; [exact IH|].
      apply insertBy_Forall; [lra | exact Hy].
Qed.

Lemma split_off {A} (x : A) (s rest l : list A) :
  Permutation (s ++ rest) (x :: l) ->
  (exists s1, Permutation s (x :: s1) /\ Permutation (s1 ++ rest) l)
  \/ (exists r1, Permutation rest (x :: r1) /\ Permutation (s ++ r1) l).
Proof.
  intros Hp.
  assert (Hin : In x (s ++ rest))
    by (apply (Permutation_in x (Permutation_sym Hp)); now left).
  apply in_app_or in Hin. destruct Hin as [Hin | Hin].
  - left. apply in_split in Hin. destruct Hin as (a & b & ->).
    exists (a ++ b)%list. split.
    + symmetry. apply Permutation_middle.
    + apply (Permutation_cons_inv (a := x)).
      rewrite <- Hp. rewrite <- !app_assoc. simpl.
      apply Permutation_middle.
  - right. apply in_split in Hin. destruct Hin as (a & b & ->).
    exists (a ++ b)%list. split.
    + symmetry. apply Permutation_middle.
    + apply (Permutation_cons_inv (a := x)).
      rewrite <- Hp. rewrite !app_assoc.
      apply Permutation_middle.
Qed.

(** Of a list sorted with the larger keys first, the first [k] elements sum
    to at least as much as any [k] of its elements. *)
Lemma firstn_dominates {A} (key : A -> Q) (l : list A) :
  StronglySorted (fun a b => key b <= key a) l ->
  Forall (fun a => 0 <= key a) l ->
  forall (k : nat) (chosen rest : list A),
    Permutation (chosen ++ rest) l ->
    (List.length chosen <= k)%nat ->
    total key chosen <= total key (firstn k l).
Proof.
  induction 1 as [|x l Hs IH Hx]; intros Hpos k chosen rest Hp Hk.
  - apply Permutation_sym, Permutation_nil in Hp. apply app_eq_nil in Hp.
    destruct Hp as [-> _]. destruct k; simpl; apply Qle_refl.
  - inversion Hpos as [|? ? Hx0 Hpos']; subst.
    destruct k as [|k].
    + destruct chosen; [simpl; apply Qle_refl | simpl in Hk; lia].
    + cbn [firstn]. rewrite total_cons.
      destruct (split_off x chosen rest l Hp)
        as [(s1 & Hs1 & Hrest) | (r1 & Hr1 & Hrest)].
      * rewrite (total_perm key _ _ Hs1), total_cons.
        assert (Hlen : (List.length s1 <= k)%nat).
        { apply Permutation_length in Hs1. simpl in Hs1. lia. }
        pose proof (IH Hpos' k s1 rest Hrest Hlen). lra.
      * destruct chosen as [|y chosen'].
        -- simpl. destruct (total_firstn_le key k l Hpos') as [H0 _]. lra.
        -- rewrite total_cons.
           assert (Hy : key y <= key x).
           { rewrite Forall_forall in Hx. apply Hx.
             apply (Permutation_in y Hrest). now left. }
           assert (Hp' : Permutation (chosen' ++ y :: r1) l).
           { rewrite <- Hrest. simpl. symmetry. apply Permutation_middle. }
           assert (Hlen : (List.length chosen' <= k)%nat) by (simpl in Hk; lia).
           pose proof (IH Hpos' k chosen' (y :: r1) Hp' Hlen). lra.
Qed.

(** X23.  The top-5 and top-10 shares are what their names say: when no
    active company has a negative valuation and the active companies are
    worth more than 0 together, no five active companies hold a larger share
    of the NAV than [top5ShareOfNAV], and no ten a larger one than
    [top10ShareOfNAV]. *)
Theorem top_shares_are_the_largest (result : ForecastResult)
    (chosen rest : list PortfolioCompany) :
  let active := filter AnalyticsService.isActive (portfolio result) in
  Forall (fun c => 0 <= AnalyticsService.valuation c) active ->
  0 < total AnalyticsService.valuation active ->
  Permutation (chosen ++ rest) active ->
  let a := AnalyticsService.calculateConcentrationAnalysis result in
  let share := total AnalyticsService.valuation chosen
               / total AnalyticsService.valuation active in
  ((List.length chosen <= 5)%nat -> share <= AnalyticsService.top5ShareOfNAV a)
  /\ ((List.length chosen <= 10)%nat -> share <= AnalyticsService.top10ShareOfNAV a).
Proof.
  intros active Hpos Hnav Hp a share. subst a share.
  unfold AnalyticsService.calculateConcentrationAnalysis.
  fold active.
  set (sorted := Num.sort (fun a b => AnalyticsService.valuation b
                                      - AnalyticsService.valuation a) active).
  cbn [AnalyticsService.top5ShareOfNAV AnalyticsService.top10ShareOfNAV].
  assert (Hsorted : Forall (fun c => 0 <= AnalyticsService.valuation c) sorted)
    by (apply sort_Forall; exact Hpos).
  assert (Hdesc : StronglySorted
                    (fun a b => AnalyticsService.valuation b
                                <= AnalyticsService.valuation a) sorted)
    by apply sort_descending.
  assert (Hperm : Permutation (chosen ++ rest) sorted)
    by (rewrite Hp; symmetry; apply sort_perm).
  assert (Htot : AnalyticsService.sumValuations sorted
                 == total AnalyticsService.valuation active)
    by (unfold sorted; rewrite sumValuations_total; apply sort_total).
  assert (Hgt : Js.gtb (AnalyticsService.sumValuations sorted) 0 = true)
    by (apply gtb_true_lt; rewrite Htot; exact Hnav).
  rewrite Hgt.
  assert (Hshare : forall k,
             (List.length chosen <= k)%nat ->
             total AnalyticsService.valuation chosen
             / total AnalyticsService.valuation active
             <= AnalyticsService.sumValuations (firstn k sorted)
                / AnalyticsService.sumValuations sorted).
  { intros k Hk. rewrite Htot, sumValuations_total.
    pose proof (firstn_dominates AnalyticsService.valuation sorted Hdesc Hsorted
                  k chosen rest Hperm Hk) as Hle.
    apply Qle_shift_div_l; [exact Hnav|].
    assert (Hne : ~ total AnalyticsService.valuation active == 0)
      by (intros E; rewrite E in Hnav; discriminate Hnav).
    setoid_replace (total AnalyticsService.valuation chosen
                    / total AnalyticsService.valuation active
                    * total AnalyticsService.valuation active)
      with (total AnalyticsService.valuation chosen) by (field; exact Hne).
    exact Hle. }
  split; intros Hk; now apply Hshare.
Qed.

Lemma top_shares_are_the_largest_witness :
  let result := AnalyticsSamples.forecast0 in
  let chosen := [AnalyticsSamples.beta] in
  let active := filter AnalyticsService.isActive (portfolio result) in
  let a := AnalyticsService.calculateConcentrationAnalysis result in
  let share := total AnalyticsService.valuation chosen
               / total AnalyticsService.valuation active in
  ((List.length chosen <= 5)%nat -> share <= AnalyticsService.top5ShareOfNAV a)
  /\ ((List.length chosen <= 10)%nat -> share <= AnalyticsService.top10ShareOfNAV a).
Proof.
  apply (top_shares_are_the_largest AnalyticsSamples.forecast0
           [AnalyticsSamples.beta] [AnalyticsSamples.alpha]).
  - repeat constructor; vm_compute; discriminate.
  - vm_compute. reflexivity.
  - apply perm_swap.
Defined.

(** ** AnalyticsService: exits by stage *)









(** ** FundDataProvider: the reducer *)

Lemma FundStage_eqb_eq (a b : FundStage) : FundStage_eqb a b = true <-> a = b.
Proof. destruct a, b; simpl; split; intros H; try discriminate; reflexivity. Qed.

Lemma FundStage_eqb_neq (a b : FundStage) : FundStage_eqb a b = false <-> a <> b.
Proof.
  destruct a, b; simpl; split; intros H; try discriminate; try reflexivity;
    try (intros E; discriminate E); contradiction.
Qed.

Lemma getKey_setKey_same {A} (o : StageObject A) (k : FundStage) (v : A) :
  FundDataProvider.getKey (FundDataProvider.setKey o k v) k = Some v.
Proof.
  unfold FundDataProvider.getKey.
  induction o as [|e o IH]; simpl.
  - assert (H : FundStage_eqb k k = true) by now apply FundStage_eqb_eq.
    now rewrite H.
  - destruct (FundStage_eqb (fst e) k) eqn:E; simpl; rewrite E; auto.
Qed.

Lemma getKey_setKey_other {A} (o : StageObject A) (k k' : FundStage) (v : A) :
  k' <> k ->
  FundDataProvider.getKey (FundDataProvider.setKey o k v) k'
  = FundDataProvider.getKey o k'.
Proof.
  intros Hne. unfold FundDataProvider.getKey.
  assert (Hk : FundStage_eqb k k' = false)
    by (apply FundStage_eqb_neq; congruence).
  induction o as [|e o IH]; simpl.
  - now rewrite Hk.
  - destruct (FundStage_eqb (fst e) k) eqn:E; simpl.
    + apply FundStage_eqb_eq in E. rewrite E, Hk. reflexivity.
    + destruct (FundStage_eqb (fst e) k'); auto.
Qed.

Lemma setKey_keys {A} (o : StageObject A) (k : FundStage) (v : A) :
  map fst (FundDataProvider.setKey o k v)
  = if existsb (fun e => FundStage_eqb (fst e) k) o
    then map fst o else (map fst o ++ [k])%list.
Proof.
  induction o as [|e o IH]; simpl; [reflexivity|].
  destruct (FundStage_eqb (fst e) k) eqn:E; simpl; [reflexivity|].
  rewrite IH. destruct (existsb _ o); reflexivity.
Qed.

Lemma setKey_NoDup {A} (o : StageObject A) (k : FundStage) (v : A) :
  NoDup (map fst o) -> NoDup (map fst (FundDataProvider.setKey o k v)).
Proof.
  intros H. rewrite setKey_keys.
  destruct (existsb (fun e => FundStage_eqb (fst e) k) o) eqn:E; [exact H|].
  apply NoDup_app; [exact H | repeat constructor; auto |].
  intros x Hx [<- | []].
  apply in_map_iff in Hx. destruct Hx as (e & He & Hin).
  assert (Ht : existsb (fun e => FundStage_eqb (fst e) k) o = true).
  { apply existsb_exists. exists e. split; [exact Hin|].
    now apply FundStage_eqb_eq. }
  congruence.
Qed.

Lemma setKey_Forall {A} (P : A -> Prop) (o : StageObject A) (k : FundStage) (v : A) :
  Forall (fun e => P (snd e)) o -> P v ->
  Forall (fun e => P (snd e)) (FundDataProvider.setKey o k v).
Proof.
  intros Ho Hv. induction Ho as [|e o He Ho IH]; simpl.
  - repeat constructor. exact Hv.
  - destruct (FundStage_eqb (fst e) k); constructor; auto.
Qed.

Lemma getKey_In {A} (o : StageObject A) (k : FundStage) (v : A) :
  FundDataProvider.getKey o k = Some v -> exists e, In e o /\ snd e = v.
Proof.
  unfold FundDataProvider.getKey.
  destruct (find (fun e => FundStage_eqb (fst e) k) o) as [e|] eqn:E;
    [|discriminate].
  intros H. inversion H; subst. apply find_some in E. exists e. tauto.
Qed.

(** X26.  After UPDATE_GRADUATION_RATE the matrix holds the new rate from
    [from] to [to] and every other rate as before, whether or not the row or
    the entry existed; keys stay unique, so the matrix remains an object the
    validator can read row by row; the state is marked dirty. *)
Theorem graduation_rate_update (now : Date) (state : FundData.FundDataState)
    (from to : FundStage) (rate : Q) :
  exists state',
    FundDataProvider.fundDataReducer now state
      (FundDataProvider.UPDATE_GRADUATION_RATE from to rate)
    = Some state'
    /\ rateOf (FundData.fd_graduationMatrix state') from to = Some rate
    /\ (forall from' to',
          (from', to') <> (from, to) ->
          rateOf (FundData.fd_graduationMatrix state') from' to'
          = rateOf (FundData.fd_graduationMatrix state) from' to')
    /\ (uniqueKeys (FundData.fd_graduationMatrix state) ->
        uniqueKeys (FundData.fd_graduationMatrix state'))
    /\ FundData.fd_isDirty state' = true.
Proof.
  eexists. split; [reflexivity|].
  cbn [FundDataProvider.setDirty FundDataProvider.setGraduationMatrix
       FundData.fd_graduationMatrix FundData.fd_isDirty].
  set (m := FundData.fd_graduationMatrix state).
  set (row := match FundDataProvider.getKey m from with
              | Some row => row
              | None => []
              end).
  split; [|split; [|split]].
  - unfold rateOf. rewrite getKey_setKey_same. apply getKey_setKey_same.
  - intros from' to' Hne. unfold rateOf.
    destruct (FundStage_eqb from' from) eqn:Ef.
    + apply FundStage_eqb_eq in Ef. subst from'.
      rewrite getKey_setKey_same.
      assert (Hto : to' <> to) by (intros E; apply Hne; now rewrite E).
      rewrite getKey_setKey_other by exact Hto.
      unfold row. destruct (FundDataProvider.getKey m from); reflexivity.
    + apply FundStage_eqb_neq in Ef.
      now rewrite getKey_setKey_other by exact Ef.
  - intros [Hk Hrows]. split.
    + now apply setKey_NoDup.
    + apply (setKey_Forall (fun r => NoDup (map fst r))); [exact Hrows|].
      apply setKey_NoDup. unfold row.
      destruct (FundDataProvider.getKey m from) as [r|] eqn:Er; [|constructor].
      apply getKey_In in Er. destruct Er as (e & He & <-).
      rewrite Forall_forall in Hrows. now apply Hrows.
  - reflexivity.
Qed.

Lemma asIndex_iff (x : Q) (i : nat) :
  FundDataProvider.asIndex x = Some i <-> Js.ofNat i == x.
Proof.
  unfold FundDataProvider.asIndex, Js.ofNat. split.
  - destruct (Qeq_bool (inject_Z (Qfloor x)) x) eqn:E; simpl; [|discriminate].
    destruct (0 <=? Qfloor x)%Z eqn:E0; [|discriminate].
    intros H. inversion H; subst. apply Qeq_bool_iff in E.
    apply Z.leb_le in E0. rewrite Z2Nat.id by exact E0. exact E.
  - intros H.
    assert (Hf : Qfloor x = Z.of_nat i) by (rewrite <- H; apply Qfloor_Z).
    rewrite Hf.
    assert (E : Qeq_bool (inject_Z (Z.of_nat i)) x = true)
      by now apply Qeq_bool_iff.
    assert (E0 : (0 <=? Z.of_nat i)%Z = true) by (apply Z.leb_le; lia).
    rewrite E, E0. simpl. now rewrite Nat2Z.id.
Qed.

Lemma ofNat_inj (a b : nat) : Js.ofNat a == Js.ofNat b -> a = b.
Proof.
  unfold Js.ofNat, Qeq. simpl. lia.
Qed.

Lemma removeFrom_none (payload : Q) (l : list StageStrategy) : forall i,
  (forall j, (i <= j < i + List.length l)%nat -> ~ Js.ofNat j == payload) ->
  FundDataProvider.removeFrom payload i l = l.
Proof.
  induction l as [|s l IH]; intros i H; simpl; [reflexivity|].
  destruct (Qeq_bool (Js.ofNat i) payload) eqn:E.
  - apply Qeq_bool_iff in E. exfalso. apply (H i); [simpl; lia | exact E].
  - simpl. f_equal. apply IH. intros j Hj. apply H. simpl. lia.
Qed.

Lemma removeFrom_at (l : list StageStrategy) : forall i k,
  (k < List.length l)%nat ->
  FundDataProvider.removeFrom (Js.ofNat (i + k)) i l
  = (firstn k l ++ skipn (S k) l)%list.
Proof.
  induction l as [|s l IH]; intros i k Hk; simpl in Hk; [lia|].
  cbn [FundDataProvider.removeFrom].
  destruct k as [|k].
  - rewrite Nat.add_0_r.
    assert (E : Qeq_bool (Js.ofNat i) (Js.ofNat i) = true)
      by (apply Qeq_bool_iff; reflexivity).
    rewrite E. simpl. apply removeFrom_none.
    intros j Hj Hq. apply ofNat_inj in Hq. lia.
  - assert (E : Qeq_bool (Js.ofNat i) (Js.ofNat (i + S k)) = false).
    { destruct (Qeq_bool (Js.ofNat i) (Js.ofNat (i + S k))) eqn:E; [|reflexivity].
      apply Qeq_bool_iff in E. apply ofNat_inj in E. lia. }
    rewrite E. simpl. f_equal.
    replace (i + S k)%nat with (S i + k)%nat by lia.
    apply IH. lia.
Qed.

(** Removal by index, and removal right after an addition. *)
Lemma removeStrategy_spec (now : Date) (state : FundData.FundDataState)
    (payload : Q) (added : StageStrategy) :
  let strategies := FundData.fd_stageStrategies state in
  (exists state',
     FundDataProvider.fundDataReducer now state
       (FundDataProvider.REMOVE_STAGE_STRATEGY payload)
     = Some state'
     /\ FundData.fd_isDirty state' = true
     /\ FundData.fd_stageStrategies state'
        = match FundDataProvider.asIndex payload with
          | Some i => (firstn i strategies ++ skipn (S i) strategies)%list
          | None => strategies
          end)
  /\ (exists state1 state2,
        FundDataProvider.fundDataReducer now state
          (FundDataProvider.ADD_STAGE_STRATEGY added)
        = Some state1
        /\ FundDataProvider.fundDataReducer now state1
             (FundDataProvider.REMOVE_STAGE_STRATEGY
                (Js.ofNat (List.length strategies)))
           = Some state2
        /\ FundData.fd_stageStrategies state2 = strategies).
Proof.
  cbv zeta. split.
  - eexists. split; [reflexivity|]. split; [reflexivity|].
    cbn [FundDataProvider.setDirty FundDataProvider.setStageStrategies
         FundData.fd_stageStrategies].
    set (l := FundData.fd_stageStrategies state).
    destruct (FundDataProvider.asIndex payload) as [i|] eqn:E.
    + apply asIndex_iff in E.
      destruct (Nat.lt_ge_cases i (List.length l)) as [Hlt | Hge].
      * assert (Hp : FundDataProvider.removeFrom payload 0 l
                     = FundDataProvider.removeFrom (Js.ofNat (0 + i)) 0 l).
        { clear Hlt. generalize 0%nat at 1 3. simpl.
          induction l as [|s l IH]; intros n; simpl; [reflexivity|].
          rewrite (Qeq_bool_right (Js.ofNat n) payload (Js.ofNat i))
            by (symmetry; exact E).
          destruct (Qeq_bool (Js.ofNat n) (Js.ofNat i)); simpl;
            now rewrite IH. }
        rewrite Hp. now apply removeFrom_at.
      * rewrite firstn_all2 by exact Hge.
        rewrite skipn_all2 by lia. rewrite app_nil_r.
        apply removeFrom_none. intros j Hj Hq.
        rewrite <- E in Hq. apply ofNat_inj in Hq. lia.
    + apply removeFrom_none. intros j _ Hq.
      apply asIndex_iff in Hq. congruence.
  - eexists. eexists. split; [reflexivity|]. split; [reflexivity|].
    cbn [FundDataProvider.setDirty FundDataProvider.setStageStrategies
         FundData.fd_stageStrategies].
    set (l := FundData.fd_stageStrategies state).
    change (Js.ofNat (List.length l)) with (Js.ofNat (0 + List.length l)).
    rewrite (removeFrom_at (l ++ [added]) 0 (List.length l))
      by (rewrite length_app; simpl; lia).
    clearbody l. induction l as [|s l IH]; [reflexivity|].
    cbn [List.length app firstn]. change (skipn (S (S (List.length l))) (s :: l ++ [added])%list)
      with (skipn (S (List.length l)) (l ++ [added])%list).
    cbn [app]. f_equal. exact IH.
Qed.

Lemma replaceAt_nth {A} (v : A) (xs : list A) : forall i,
  (i < List.length xs)%nat ->
  nth_error (FundDataProvider.replaceAt i v xs) i = Some v
  /\ (forall j, j <> i ->
                nth_error (FundDataProvider.replaceAt i v xs) j = nth_error xs j)
  /\ List.length (FundDataProvider.replaceAt i v xs) = List.length xs.
Proof.
  induction xs as [|x xs IH]; intros i Hi; simpl in Hi; [lia|].
  destruct i as [|i]; simpl.
  - repeat split; auto. intros [|j] Hj; [contradiction | reflexivity].
  - destruct (IH i) as (H1 & H2 & H3); [lia|].
    repeat split; auto.
    intros [|j] Hj; [reflexivity|]. simpl. apply H2. congruence.
Qed.

Lemma mergeStrategy_keys (current : option StageStrategy)
    (updates : FundDataProvider.PartialStageStrategy) (merged : StageStrategy) :
  FundDataProvider.mergeStrategy current updates = Some merged ->
  FundDataProvider.spread (option_map stage current)
    (FundDataProvider.ps_stage updates) = Some (stage merged)
  /\ FundDataProvider.spread (option_map allocationPct current)
       (FundDataProvider.ps_allocationPct updates) = Some (allocationPct merged)
  /\ FundDataProvider.spread (option_map checkCount current)
       (FundDataProvider.ps_checkCount updates) = Some (checkCount merged)
  /\ FundDataProvider.spread (option_map avgInitialCheck current)
       (FundDataProvider.ps_avgInitialCheck updates)
     = Some (avgInitialCheck merged)
  /\ FundDataProvider.spread (option_map ownership current)
       (FundDataProvider.ps_ownership updates) = Some (ownership merged)
  /\ FundDataProvider.spread (option_map reserveRatio current)
       (FundDataProvider.ps_reserveRatio updates) = Some (reserveRatio merged)
  /\ FundDataProvider.spread (option_map targetReturns current)
       (FundDataProvider.ps_targetReturns updates)
     = Some (targetReturns merged).
Proof.
  unfold FundDataProvider.mergeStrategy.
  destruct (FundDataProvider.spread (option_map stage current) _);
    [|discriminate].
  destruct (FundDataProvider.spread (option_map allocationPct current) _);
    [|discriminate].
  destruct (FundDataProvider.spread (option_map checkCount current) _);
    [|discriminate].
  destruct (FundDataProvider.spread (option_map avgInitialCheck current) _);
    [|discriminate].
  destruct (FundDataProvider.spread (option_map ownership current) _);
    [|discriminate].
  destruct (FundDataProvider.spread (option_map reserveRatio current) _);
    [|discriminate].
  destruct (FundDataProvider.spread (option_map targetReturns current) _);
    [|discriminate].
  intros H. inversion H. cbn. repeat split; reflexivity.
Qed.

Lemma spread_overwrites {A} (update : FundDataProvider.Key A) (old new : A) :
  FundDataProvider.spread (Some old) update = Some new <-> overwrites update old new.
Proof.
  destruct update as [| |v]; simpl; split; intros H;
    try discriminate; try contradiction; congruence.
Qed.

Lemma spread_definite {A} (update : FundDataProvider.Key A) (old : A) :
  update <> FundDataProvider.Undefined ->
  exists new, FundDataProvider.spread (Some old) update = Some new.
Proof.
  destruct update as [| |v]; simpl; intros H; [eauto | contradiction | eauto].
Qed.

Lemma mergeStrategy_definite (current : StageStrategy)
    (updates : FundDataProvider.PartialStageStrategy) :
  definite updates ->
  exists merged, FundDataProvider.mergeStrategy (Some current) updates = Some merged.
Proof.
  intros (H1 & H2 & H3 & H4 & H5 & H6 & H7).
  unfold FundDataProvider.mergeStrategy. cbn [option_map].
  destruct (spread_definite _ (stage current) H1) as (v1 & ->).
  destruct (spread_definite _ (allocationPct current) H2) as (v2 & ->).
  destruct (spread_definite _ (checkCount current) H3) as (v3 & ->).
  destruct (spread_definite _ (avgInitialCheck current) H4) as (v4 & ->).
  destruct (spread_definite _ (ownership current) H5) as (v5 & ->).
  destruct (spread_definite _ (reserveRatio current) H6) as (v6 & ->).
  destruct (spread_definite _ (targetReturns current) H7) as (v7 & ->).
  eexists. reflexivity.
Qed.

Lemma mergeStrategy_undefined (current : option StageStrategy)
    (updates : FundDataProvider.PartialStageStrategy) :
  ~ definite updates ->
  FundDataProvider.mergeStrategy current updates = None.
Proof.
  intros Hnot.
  destruct (FundDataProvider.mergeStrategy current updates) as [merged|] eqn:E;
    [|reflexivity].
  exfalso. apply Hnot.
  destruct (mergeStrategy_keys _ _ _ E) as (H1 & H2 & H3 & H4 & H5 & H6 & H7).
  unfold definite.
  repeat split; intros Hu;
    [rewrite Hu in H1 | rewrite Hu in H2 | rewrite Hu in H3 | rewrite Hu in H4
     | rewrite Hu in H5 | rewrite Hu in H6 | rewrite Hu in H7];
    discriminate.
Qed.

(** An update by index. *)
Lemma updateStrategy_spec (now : Date) (state : FundData.FundDataState)
    (i : nat) (updates : FundDataProvider.PartialStageStrategy) :
  let strategies := FundData.fd_stageStrategies state in
  (forall current,
     nth_error strategies i = Some current ->
     definite updates ->
     exists state' merged,
       FundDataProvider.fundDataReducer now state
         (FundDataProvider.UPDATE_STAGE_STRATEGY (Js.ofNat i) updates)
       = Some state'
       /\ nth_error (FundData.fd_stageStrategies state') i = Some merged
       /\ (overwrites (FundDataProvider.ps_stage updates)
             (stage current) (stage merged)
           /\ overwrites (FundDataProvider.ps_allocationPct updates)
                (allocationPct current) (allocationPct merged)
           /\ overwrites (FundDataProvider.ps_checkCount updates)
                (checkCount current) (checkCount merged)
           /\ overwrites (FundDataProvider.ps_avgInitialCheck updates)
                (avgInitialCheck current) (avgInitialCheck merged)
           /\ overwrites (FundDataProvider.ps_ownership updates)
                (ownership current) (ownership merged)
           /\ overwrites (FundDataProvider.ps_reserveRatio updates)
                (reserveRatio current) (reserveRatio merged)
           /\ overwrites (FundDataProvider.ps_targetReturns updates)
                (targetReturns current) (targetReturns merged))
       /\ (forall j, j <> i ->
                     nth_error (FundData.fd_stageStrategies state') j
                     = nth_error strategies j)
       /\ List.length (FundData.fd_stageStrategies state')
          = List.length strategies
       /\ FundData.fd_isDirty state' = true)
  /\ (~ definite updates ->
      FundDataProvider.fundDataReducer now state
        (FundDataProvider.UPDATE_STAGE_STRATEGY (Js.ofNat i) updates)
      = None)
  /\ ((List.length strategies < i)%nat ->
      FundDataProvider.fundDataReducer now state
        (FundDataProvider.UPDATE_STAGE_STRATEGY (Js.ofNat i) updates)
      = None).
Proof.
  cbv zeta.
  assert (Hi : FundDataProvider.asIndex (Js.ofNat i) = Some i)
    by (apply asIndex_iff; reflexivity).
  split; [|split].
  - intros current Hc Hdef.
    destruct (mergeStrategy_definite current updates Hdef) as (merged & Hm).
    assert (Hlt : (i < List.length (FundData.fd_stageStrategies state))%nat)
      by (apply nth_error_Some; congruence).
    cbn [FundDataProvider.fundDataReducer].
    unfold FundDataProvider.updateStageStrategy. rewrite Hi, Hc, Hm.
    apply Nat.ltb_lt in Hlt. rewrite Hlt. apply Nat.ltb_lt in Hlt.
    eexists. exists merged. split; [reflexivity|].
    cbn [FundDataProvider.setDirty FundDataProvider.setStageStrategies
         FundData.fd_stageStrategies FundData.fd_isDirty].
    destruct (replaceAt_nth merged (FundData.fd_stageStrategies state) i Hlt)
      as (H1 & H2 & H3).
    split; [exact H1|]. split; [|auto].
    destruct (mergeStrategy_keys _ _ _ Hm) as (K1 & K2 & K3 & K4 & K5 & K6 & K7).
    cbn [option_map] in *.
    repeat split; apply spread_overwrites; assumption.
  - intros Hnot. cbn [FundDataProvider.fundDataReducer].
    unfold FundDataProvider.updateStageStrategy.
    rewrite Hi, (mergeStrategy_undefined _ _ Hnot). reflexivity.
  - intros Hlt. cbn [FundDataProvider.fundDataReducer].
    unfold FundDataProvider.updateStageStrategy. rewrite Hi.
    destruct (FundDataProvider.mergeStrategy _ updates); [|reflexivity].
    assert (H1 : (i <? List.length (FundData.fd_stageStrategies state))%nat = false)
      by (apply Nat.ltb_ge; lia).
    assert (H2 : (i =? List.length (FundData.fd_stageStrategies state))%nat = false)
      by (apply Nat.eqb_neq; lia).
    now rewrite H1, H2.
Qed.

(** X27.  Editing the strategy list by index.  REMOVE_STAGE_STRATEGY drops
    the strategy at the index given and keeps the others in order; a payload
    that is not an index of the list (negative, fractional, or past the end)
    removes nothing, and removing at the old length right after
    ADD_STAGE_STRATEGY gives back the list as it was.  UPDATE_STAGE_STRATEGY
    at an index inside the list, with an update none of whose keys holds
    [undefined], changes that one strategy only: each of its seven fields
    gets the update's value where the update has the key and keeps its old
    value where it has not; the other strategies, the length and the order
    stay.  An update with a key that holds [undefined], or at a whole number
    past the length, leaves no list of strategies.  Every edit marks the
    state dirty. *)
Theorem strategy_edits (now : Date) (state : FundData.FundDataState)
    (payload : Q) (added : StageStrategy)
    (i : nat) (updates : FundDataProvider.PartialStageStrategy) :
  let strategies := FundData.fd_stageStrategies state in
  (exists state',
     FundDataProvider.fundDataReducer now state
       (FundDataProvider.REMOVE_STAGE_STRATEGY payload)
     = Some state'
     /\ FundData.fd_isDirty state' = true
     /\ FundData.fd_stageStrategies state'
        = match FundDataProvider.asIndex payload with
          | Some i => (firstn i strategies ++ skipn (S i) strategies)%list
          | None => strategies
          end)
  /\ (exists state1 state2,
        FundDataProvider.fundDataReducer now state
          (FundDataProvider.ADD_STAGE_STRATEGY added)
        = Some state1
        /\ FundDataProvider.fundDataReducer now state1
             (FundDataProvider.REMOVE_STAGE_STRATEGY
                (Js.ofNat (List.length strategies)))
           = Some state2
        /\ FundData.fd_stageStrategies state2 = strategies)
  /\ (forall current,
        nth_error strategies i = Some current ->
        definite updates ->
        exists state' merged,
          FundDataProvider.fundDataReducer now state
            (FundDataProvider.UPDATE_STAGE_STRATEGY (Js.ofNat i) updates)
          = Some state'
          /\ nth_error (FundData.fd_stageStrategies state') i = Some merged
          /\ (overwrites (FundDataProvider.ps_stage updates)
                (stage current) (stage merged)
              /\ overwrites (FundDataProvider.ps_allocationPct updates)
                   (allocationPct current) (allocationPct merged)
              /\ overwrites (FundDataProvider.ps_checkCount updates)
                   (checkCount current) (checkCount merged)
              /\ overwrites (FundDataProvider.ps_avgInitialCheck updates)
                   (avgInitialCheck current) (avgInitialCheck merged)
              /\ overwrites (FundDataProvider.ps_ownership updates)
                   (ownership current) (ownership merged)
              /\ overwrites (FundDataProvider.ps_reserveRatio updates)
                   (reserveRatio current) (reserveRatio merged)
              /\ overwrites (FundDataProvider.ps_targetReturns updates)
                   (targetReturns current) (targetReturns merged))
          /\ (forall j, j <> i ->
                        nth_error (FundData.fd_stageStrategies state') j
                        = nth_error strategies j)
          /\ List.length (FundData.fd_stageStrategies state')
             = List.length strategies
          /\ FundData.fd_isDirty state' = true)
  /\ (~ definite updates ->
      FundDataProvider.fundDataReducer now state
        (FundDataProvider.UPDATE_STAGE_STRATEGY (Js.ofNat i) updates)
      = None)
  /\ ((List.length strategies < i)%nat ->
      FundDataProvider.fundDataReducer now state
        (FundDataProvider.UPDATE_STAGE_STRATEGY (Js.ofNat i) updates)
      = None).
Proof.
  cbv zeta.
  destruct (removeStrategy_spec now state payload added) as [Hremove Hround].
  destruct (updateStrategy_spec now state i updates) as (Hin & Hundef & Hout).
  split; [exact Hremove|]. split; [exact Hround|].
  split; [exact Hin|]. split; [exact Hundef | exact Hout].
Qed.

(** X28.  The defaults are a valid configuration: after RESET_TO_DEFAULTS,
    from any state and at any date, the provider's inputs pass
    [validateFundInputs] without a finding and [getWarnings] without a
    warning, the state is clean, and [calculate] hands exactly these inputs
    to the forecast model. *)
Theorem defaults_pass_validation {A} (numberToString : Q -> string) (env : Env)
    (now : Date) (state : FundData.FundDataState)
    (w : World (FundCalculation.CalculationState A)) :
  exists fresh,
    FundDataProvider.fundDataReducer now state FundDataProvider.RESET_TO_DEFAULTS
    = Some fresh
    /\ FundData.fd_isDirty fresh = false
    /\ ValidationService.validateFundInputs (FundData.getInputs fresh) = []
    /\ ValidationService.getWarnings numberToString (FundData.getInputs fresh) = []
    /\ simCalls (snd (UseFund.calculate env fresh w))
       = (simCalls w ++ [FundData.getInputs fresh])%list.
Proof.
  eexists. split; [reflexivity|]. split; [reflexivity|].
  assert (Hv : ValidationService.validateFundInputs
                 (FundData.getInputs
                    (FundDataProvider.setDirty false (FundData.getDefaultState now)))
               = []) by reflexivity.
  split; [exact Hv|]. split; [reflexivity|].
  unfold UseFund.calculate. now apply calculateForecast_runs_model.
Qed.

(** ** FundScenarioProvider *)

Lemma result_get_set_same (m : FundScenarioProvider.ResultMap) (id : string)
    (r : ScenarioResult) :
  FundScenarioProvider.get (FundScenarioProvider.set m id r) id = Some r.
Proof.
  unfold FundScenarioProvider.get. induction m as [|e m IH]; simpl.
  - now rewrite String.eqb_refl.
  - destruct (String.eqb (fst e) id) eqn:E; simpl; rewrite E; auto.
Qed.

Lemma result_get_set_other (m : FundScenarioProvider.ResultMap) (id id' : string)
    (r : ScenarioResult) :
  id' <> id ->
  FundScenarioProvider.get (FundScenarioProvider.set m id r) id'
  = FundScenarioProvider.get m id'.
Proof.
  intros Hne. unfold FundScenarioProvider.get.
  assert (Hk : String.eqb id id' = false) by (apply String.eqb_neq; congruence).
  induction m as [|e m IH]; simpl.
  - now rewrite Hk.
  - destruct (String.eqb (fst e) id) eqn:E; simpl.
    + apply String.eqb_eq in E. rewrite E, Hk. reflexivity.
    + destruct (String.eqb (fst e) id'); auto.
Qed.

Lemma stored_results (rs : list ScenarioResult) (id : string) :
  forall m : FundScenarioProvider.ResultMap,
    let m' := fold_left (fun m r => FundScenarioProvider.set m (scenarioId r) r)
                rs m in
    (~ In id (map scenarioId rs) ->
     FundScenarioProvider.get m' id = FundScenarioProvider.get m id)
    /\ (In id (map scenarioId rs) ->
        exists r, In r rs /\ scenarioId r = id
                  /\ FundScenarioProvider.get m' id = Some r).
Proof.
  induction rs as [|r rs IH]; intros m; cbv zeta; simpl.
  - split; [reflexivity | contradiction].
  - destruct (IH (FundScenarioProvider.set m (scenarioId r) r)) as [IHn IHi].
    cbv zeta in IHn, IHi.
    split.
    + intros Hn. rewrite IHn by tauto.
      apply result_get_set_other. intros E. apply Hn. left. now rewrite E.
    + intros Hin.
      destruct (in_dec string_dec id (map scenarioId rs)) as [Hrest | Hrest].
      * destruct (IHi Hrest) as (r' & Hr' & Hid & Hget).
        exists r'. auto.
      * destruct Hin as [Hhere | Hin]; [|contradiction].
        exists r. split; [now left|]. split; [exact Hhere|].
        rewrite IHn by exact Hrest. rewrite <- Hhere.
        apply result_get_set_same.
Qed.

(** The scenario loop changes of the caller's state only what the progress
    callback changes. *)
Lemma runLoop_client {C X} (g : C -> X) (env : Env) (base : EnhancedFundInputs)
    (cb : option (Q -> M C unit)) (total : nat) :
  (forall callback, cb = Some callback ->
     forall pct w, g (client (snd (callback pct w))) = g (client w)) ->
  returnsNormally cb ->
  forall (todo : list ScenarioDefinition) (completed : nat)
         (results : list ScenarioResult) (w : World C),
    g (client (snd (EnhancedBatchRunner.runLoop env base cb total todo
                      completed results w)))
    = g (client w).
Proof.
  intros Hg Hret. induction todo as [|s rest IH]; intros completed results w.
  - reflexivity.
  - simpl. unfold bind at 1.
    destruct (runScenario_spec env base s w) as (r & w1 & Hr & _ & _ & Hc & _).
    rewrite Hr. unfold bind at 1.
    destruct (report_returns cb
                (Js.ofNat (S completed) / Js.ofNat total * 100) w1 Hret)
      as (w2 & Hw2).
    assert (Hrep : g (client w2) = g (client w1)).
    { destruct cb as [callback|]; simpl in Hw2.
      - pose proof (Hg callback eq_refl
                      (Js.ofNat (S completed) / Js.ofNat total * 100) w1) as H.
        now rewrite Hw2 in H.
      - inversion Hw2; subst. reflexivity. }
    rewrite Hw2, IH, Hrep, Hc. reflexivity.
Qed.

Lemma Forall2_ids (env : Env) (base : EnhancedFundInputs)
    (scs : list ScenarioDefinition) (rs : list ScenarioResult) :
  Forall2 (resultFor env base) scs rs -> map scenarioId rs = map sd_id scs.
Proof.
  induction 1 as [|s r scs rs (Hid & _) _ IH]; simpl; [reflexivity|].
  now rewrite Hid, IH.
Qed.

(** X29.  For at most five scenarios to run, [runScenarios] returns one entry
    per scenario and stores each under its scenario id: afterwards every
    scenario that ran has a stored result carrying its id, results stored
    earlier under other ids are still there, [isRunning] is false, the
    progress is 100, and the scenarios and the active id are as before. *)
Theorem runScenarios_small (fuel : nat) (env : Env) (base : EnhancedFundInputs)
    (ids : option (list string)) (w : World FundScenarioProvider.ScenarioState) :
  let toRun := FundScenarioProvider.scenariosToRun (client w) ids in
  (List.length toRun <= 5)%nat ->
  exists rs w',
    FundScenarioProvider.runScenarios (S fuel) env base ids w
    = Some (Returned rs, w')
    /\ Forall2 (resultFor env base) toRun rs
    /\ FundScenarioProvider.isRunning (client w') = false
    /\ FundScenarioProvider.runProgress (client w') = 100
    /\ FundScenarioProvider.scenarios (client w')
       = FundScenarioProvider.scenarios (client w)
    /\ FundScenarioProvider.activeScenarioId (client w')
       = FundScenarioProvider.activeScenarioId (client w)
    /\ (forall s, In s toRun ->
          exists r, FundScenarioProvider.get
                      (FundScenarioProvider.results (client w')) (sd_id s)
                    = Some r
                    /\ In r rs /\ scenarioId r = sd_id s)
    /\ (forall id, ~ In id (map sd_id toRun) ->
          FundScenarioProvider.get
            (FundScenarioProvider.results (client w')) id
          = FundScenarioProvider.get
              (FundScenarioProvider.results (client w)) id).
Proof.
  intros toRun Hle. unfold FundScenarioProvider.runScenarios.
  fold toRun.
  set (cb := Some (fun progress =>
                     FundScenarioProvider.dispatch
                       (FundScenarioProvider.SET_PROGRESS progress))).
  set (w1 := snd ((FundScenarioProvider.dispatch
                     (FundScenarioProvider.SET_IS_RUNNING true) ;;;
                   FundScenarioProvider.dispatch
                     (FundScenarioProvider.SET_PROGRESS 0))%eff w)).
  assert (Hret : returnsNormally cb).
  { intros callback Heq pct w0. inversion Heq; subst. eexists. reflexivity. }
  destruct (load_fields env base toRun) as (Hs & Hb & _).
  rewrite run_small by (rewrite Hs; exact Hle).
  unfold EnhancedBatchRunner.runSequential. rewrite Hs, Hb. unfold bind at 1.
  assert (Hkeep : forall X (g : FundScenarioProvider.ScenarioState -> X),
             (forall st p,
                g (FundScenarioProvider.scenarioReducer st
                     (FundScenarioProvider.SET_PROGRESS p)) = g st) ->
             g (client (snd (EnhancedBatchRunner.runLoop env base cb
                               (List.length toRun) toRun 0%nat [] w1)))
             = g (client w1)).
  { intros X g Hg. apply runLoop_client; [|exact Hret].
    intros callback Heq pct w0. inversion Heq; subst. apply Hg. }
  pose proof (Hkeep _ FundScenarioProvider.scenarios (fun _ _ => eq_refl)) as Hsc.
  pose proof (Hkeep _ FundScenarioProvider.activeScenarioId (fun _ _ => eq_refl))
    as Hact.
  pose proof (Hkeep _ FundScenarioProvider.results (fun _ _ => eq_refl)) as Hres.
  clear Hkeep.
  destruct (runLoop_spec env base cb (List.length toRun) Hret toRun 0%nat [] w1)
    as (rs & w2 & Hloop & Hall & _).
  rewrite Hloop in *. cbn [snd] in Hsc, Hact, Hres. cbn [app ret].
  change (FundScenarioProvider.scenarios (client w1))
    with (FundScenarioProvider.scenarios (client w)) in Hsc.
  change (FundScenarioProvider.activeScenarioId (client w1))
    with (FundScenarioProvider.activeScenarioId (client w)) in Hact.
  change (FundScenarioProvider.results (client w1))
    with (FundScenarioProvider.results (client w)) in Hres.
  set (rs' := EnhancedBatchRunner.addVariance rs).
  assert (Hall' : Forall2 (resultFor env base) toRun rs')
    by (eapply resultFor_keeps; [exact Hall | apply addVariance_keeps]).
  exists rs'. eexists. split; [reflexivity|].
  cbn [FundScenarioProvider.finish FundScenarioProvider.dispatch bind setState
       snd fst client FundScenarioProvider.scenarioReducer
       FundScenarioProvider.isRunning FundScenarioProvider.runProgress
       FundScenarioProvider.scenarios FundScenarioProvider.activeScenarioId
       FundScenarioProvider.results].
  unfold FundScenarioProvider.finish, FundScenarioProvider.dispatch, bind,
    setState. cbn.
  split; [exact Hall'|]. split; [reflexivity|]. split; [reflexivity|].
  split; [exact Hsc|]. split; [exact Hact|].
  rewrite Hres.
  pose proof (Forall2_ids env base toRun rs' Hall') as Hids.
  split.
  - intros s Hin.
    assert (Hid : In (sd_id s) (map scenarioId rs'))
      by (rewrite Hids; now apply in_map).
    destruct (stored_results rs' (sd_id s) (FundScenarioProvider.results (client w)))
      as [_ Hi].
    destruct (Hi Hid) as (r & Hr & Hrid & Hget).
    exists r. auto.
  - intros id Hn.
    destruct (stored_results rs' id (FundScenarioProvider.results (client w)))
      as [Hno _].
    apply Hno. now rewrite Hids.
Qed.

Lemma runScenarios_small_witness :
  let w := Samples.world0 ScenarioSamples.loaded in
  let toRun := FundScenarioProvider.scenariosToRun (client w) None in
  exists rs w',
    FundScenarioProvider.runScenarios 1 Samples.env0 Samples.defaults None w
    = Some (Returned rs, w')
    /\ Forall2 (resultFor Samples.env0 Samples.defaults) toRun rs
    /\ FundScenarioProvider.isRunning (client w') = false
    /\ FundScenarioProvider.runProgress (client w') = 100
    /\ FundScenarioProvider.scenarios (client w')
       = FundScenarioProvider.scenarios (client w)
    /\ FundScenarioProvider.activeScenarioId (client w')
       = FundScenarioProvider.activeScenarioId (client w)
    /\ (forall s, In s toRun ->
          exists r, FundScenarioProvider.get
                      (FundScenarioProvider.results (client w')) (sd_id s)
                    = Some r
                    /\ In r rs /\ scenarioId r = sd_id s)
    /\ (forall id, ~ In id (map sd_id toRun) ->
          FundScenarioProvider.get
            (FundScenarioProvider.results (client w')) id
          = FundScenarioProvider.get
              (FundScenarioProvider.results (client w)) id).
Proof.
  apply (runScenarios_small 0 Samples.env0 Samples.defaults None
           (Samples.world0 ScenarioSamples.loaded)).
  simpl. repeat constructor.
Defined.

Lemma get_after_delete (m : FundScenarioProvider.ResultMap) (id id' : string) :
  FundScenarioProvider.get
    (filter (fun e => negb (String.eqb (fst e) id)) m) id'
  = if String.eqb id id' then None else FundScenarioProvider.get m id'.
Proof.
  unfold FundScenarioProvider.get. induction m as [|e m IH]; simpl.
  - destruct (String.eqb id id'); reflexivity.
  - destruct (String.eqb (fst e) id) eqn:E; simpl.
    + rewrite IH. apply String.eqb_eq in E. rewrite E.
      destruct (String.eqb id id'); reflexivity.
    + destruct (String.eqb (fst e) id') eqn:E'; [|exact IH].
      apply String.eqb_eq in E'. rewrite E' in E.
      rewrite String.eqb_sym in E. now rewrite E.
Qed.

(** X30.  Stored results go away only with their scenario.  DELETE_SCENARIO
    removes every scenario with the id given and the result stored under
    it, and keeps the other scenarios and results; it does not reset the
    active id, so after the active scenario is deleted [activeScenario] is
    null.  [clearResults] dispatches SET_RESULTS with an empty list, which
    merges nothing into the map: every stored result is still there
    afterwards. *)
Theorem results_removed_by_deletion_only
    (state : FundScenarioProvider.ScenarioState) (id : string)
    (w : World FundScenarioProvider.ScenarioState) :
  let state' :=
    FundScenarioProvider.scenarioReducer state
      (FundScenarioProvider.DELETE_SCENARIO id) in
  (forall s, In s (FundScenarioProvider.scenarios state')
             <-> In s (FundScenarioProvider.scenarios state) /\ sd_id s <> id)
  /\ FundScenarioProvider.get (FundScenarioProvider.results state') id = None
  /\ (forall id', id' <> id ->
        FundScenarioProvider.get (FundScenarioProvider.results state') id'
        = FundScenarioProvider.get (FundScenarioProvider.results state) id')
  /\ (FundScenarioProvider.activeScenarioId state = Some id ->
      FundScenarioProvider.activeScenarioId state' = Some id
      /\ FundScenarioProvider.activeScenario state' = None)
  /\ FundScenarioProvider.results
       (client (snd (FundScenarioProvider.clearResults w)))
     = FundScenarioProvider.results (client w).
Proof.
  cbv zeta. cbn [FundScenarioProvider.scenarioReducer
                 FundScenarioProvider.scenarios FundScenarioProvider.results
                 FundScenarioProvider.activeScenarioId].
  split; [|split; [|split; [|split]]].
  - intros s. rewrite filter_In, negb_true_iff, String.eqb_neq. tauto.
  - rewrite get_after_delete. now rewrite String.eqb_refl.
  - intros id' Hne. rewrite get_after_delete.
    assert (E : String.eqb id id' = false) by (apply String.eqb_neq; congruence).
    now rewrite E.
  - intros Hact. split; [exact Hact|].
    unfold FundScenarioProvider.activeScenario.
    cbn [FundScenarioProvider.activeScenarioId FundScenarioProvider.scenarios].
    rewrite Hact.
    destruct (find (fun s => String.eqb (sd_id s) id)
                (filter (fun s => negb (String.eqb (sd_id s) id))
                   (FundScenarioProvider.scenarios state))) as [s|] eqn:E;
      [|reflexivity].
    apply find_some in E. destruct E as (Hin & Heq).
    apply filter_In in Hin. destruct Hin as (_ & Hneq).
    rewrite Heq in Hneq. discriminate Hneq.
  - reflexivity.
Qed.
